(** * Cloud weather dashboard: the fan-out aggregation core

    A shallow embedding of the aggregation code of the repository:

    - the provider functions (AWS Lambda [src/unnamed/part_002], GCP Cloud Run
      [src/lambda/gcp/index.js], Azure Function [src/unnamed/part_001]):
      [handler], [fetchWeatherForLocation], [createAggregatedWeather],
      [storeWeatherData], [geocodeLocation], [getSecrets];
    - the cross-cloud aggregation Lambda [src/unnamed/part_003]: [handler],
      [createCrossCloudAggregation], [calculateConsensus], [calculateVariations],
      [calculateReliability], [calculateAgreement], [calculateDataFreshness],
      [storeAggregatedData];
    - the UI-facing route [src/src/app/api/aggregation/weather/route.ts]: [GET].

    Numbers.  Two models of the JavaScript number are used.

    - [JS.num]: an exact rational extended with [NaN], [+Infinity] and
      [-Infinity].  Division by zero, [NaN] propagation and the behaviour of
      [Math.round], [Math.max] and [Math.min] follow ECMAScript; the rounding
      error of binary64 arithmetic and the sign of zero are not modelled.
      Every finite result is kept in lowest terms ([Qred]) so that results can
      be compared with [=].  The control flow, the counting, the store and
      the responses are stated over this model.
    - [Binary64]: the binary64 numbers of the language themselves (the
      primitive floats of the prover), with [Math.round], [Math.max] and
      [Math.min] as ECMAScript defines them.  The agreement score and the
      per-metric variation, whose values depend on the rounding of each
      operation, are stated over this model. *)

From Stdlib Require Import ZArith QArith Qround List String Ascii Bool.
From Stdlib Require Import DecimalString Permutation Lia Lqa.
From Stdlib Require Import PrimFloat SpecFloat FloatOps FloatAxioms.
From Stdlib Require Uint63.
Import ListNotations.

Set Warnings "-inexact-float".

Local Open Scope Q_scope.

(** ** JavaScript numbers and values *)

Module JS.

Inductive num : Type :=
| NaN
| PInf
| NInf
| Fin (q : Q).

(** A property of an object read from JSON or built by a fetcher: missing
    ([undefined]), [null], or a number. *)
Inductive jsval : Type :=
| JUndef
| JNull
| JNum (x : num).

Definition Qltb (a b : Q) : bool := negb (Qle_bool b a).

Definition ofZ (z : Z) : num := Fin (inject_Z z).
Definition ofNat (n : nat) : num := ofZ (Z.of_nat n).

(** A finite number as a property value. *)
Definition finite (q : Q) : jsval := JNum (Fin q).

(** ToNumber on the values that occur here. *)
Definition toNumber (v : jsval) : num :=
  match v with
  | JUndef => NaN
  | JNull => Fin 0
  | JNum x => x
  end.

Definition neg (x : num) : num :=
  match x with
  | NaN => NaN
  | PInf => NInf
  | NInf => PInf
  | Fin q => Fin (Qred (- q))
  end.

Definition add (x y : num) : num :=
  match x, y with
  | NaN, _ | _, NaN => NaN
  | PInf, NInf | NInf, PInf => NaN
  | PInf, _ | _, PInf => PInf
  | NInf, _ | _, NInf => NInf
  | Fin a, Fin b => Fin (Qred (a + b))
  end.

Definition sub (x y : num) : num :=
  match x, y with
  | Fin a, Fin b => Fin (Qred (a - b))
  | _, _ => add x (neg y)
  end.

(** The infinity with the sign of [a]; [NaN] when [a] is zero. *)
Definition signedInf (a : Q) (positive : bool) : num :=
  match (Qnum a ?= 0)%Z with
  | Eq => NaN
  | Gt => if positive then PInf else NInf
  | Lt => if positive then NInf else PInf
  end.

Definition mul (x y : num) : num :=
  match x, y with
  | NaN, _ | _, NaN => NaN
  | Fin a, Fin b => Fin (Qred (a * b))
  | Fin a, PInf | PInf, Fin a => signedInf a true
  | Fin a, NInf | NInf, Fin a => signedInf a false
  | PInf, PInf | NInf, NInf => PInf
  | PInf, NInf | NInf, PInf => NInf
  end.

Definition div (x y : num) : num :=
  match x, y with
  | NaN, _ | _, NaN => NaN
  | Fin a, Fin b =>
      if Qeq_bool b 0 then signedInf a true else Fin (Qred (a / b))
  | Fin _, PInf | Fin _, NInf => Fin 0
  | PInf, Fin b => if Qltb b 0 then NInf else PInf
  | NInf, Fin b => if Qltb b 0 then PInf else NInf
  | _, _ => NaN
  end.

(** [Math.round]: the nearest integer, halves towards [+Infinity]. *)
Definition roundHalfUp (q : Q) : Z := Qfloor (q + (1 # 2)).

Definition mathRound (x : num) : num :=
  match x with
  | Fin q => ofZ (roundHalfUp q)
  | _ => x
  end.

(** [x <= y] on numbers that are not [NaN]. *)
Definition leb (x y : num) : bool :=
  match x, y with
  | NaN, _ | _, NaN => false
  | NInf, _ => true
  | _, PInf => true
  | Fin a, Fin b => Qle_bool a b
  | _, _ => false
  end.

(** The relational operator [<]: false as soon as one side is [NaN]. *)
Definition lt (x y : num) : bool :=
  match x, y with
  | NaN, _ | _, NaN => false
  | _, _ => negb (leb y x)
  end.

Definition max2 (x y : num) : num :=
  match x, y with
  | NaN, _ | _, NaN => NaN
  | _, _ => if leb x y then y else x
  end.

Definition min2 (x y : num) : num :=
  match x, y with
  | NaN, _ | _, NaN => NaN
  | _, _ => if leb x y then x else y
  end.

(** [Math.max(...values)] and [Math.min(...values)]: the arguments are
    coerced with ToNumber; without arguments the results are [-Infinity] and
    [+Infinity]. *)
Definition mathMax (values : list jsval) : num :=
  fold_left (fun m v => max2 m (toNumber v)) values NInf.

Definition mathMin (values : list jsval) : num :=
  fold_left (fun m v => min2 m (toNumber v)) values PInf.

(** [Math.round(Math.sqrt(v) * 100)].  A square root has no exact rational
    value, so the composite is modelled as a whole: on a finite [v >= 0] it is
    the integer [k] nearest to [100 * sqrt v] (halves up), computed as
    [(isqrt (floor (40000 * v)) + 1) / 2].  [Math.sqrt] of a negative number
    is [NaN]. *)
Definition roundSqrt100 (v : Q) : Z :=
  ((Z.sqrt (Qfloor (40000 * v)) + 1) / 2)%Z.

Definition mathRoundSqrt100 (x : num) : num :=
  match x with
  | NaN => NaN
  | PInf => PInf
  | NInf => NaN
  | Fin v => if Qltb v 0 then NaN else ofZ (roundSqrt100 v)
  end.

(** [Number.isFinite] *)
Definition isFinite (x : num) : bool :=
  match x with
  | Fin _ => true
  | _ => false
  end.

(** Truthiness of a numeric property, as tested by [||]: [undefined], [null],
    [NaN] and zero are falsy. *)
Definition truthy (v : jsval) : bool :=
  match v with
  | JUndef | JNull => false
  | JNum NaN => false
  | JNum (Fin q) => negb (Qeq_bool q 0)
  | JNum _ => true
  end.

Definition notUndefined (v : jsval) : bool :=
  match v with
  | JUndef => false
  | _ => true
  end.

Definition notUndefinedNorNull (v : jsval) : bool :=
  match v with
  | JUndef | JNull => false
  | JNum _ => true
  end.

(** The outcome of code that may throw: a value or the thrown error's
    message. *)
Inductive result (A : Type) : Type :=
| Ok (a : A)
| Throw (message : string).
Arguments Ok {A} a.
Arguments Throw {A} message.

(** One entry of the array returned by [Promise.allSettled]. *)
Inductive settled (A : Type) : Type :=
| Fulfilled (value : A)
| Rejected (reason : string).
Arguments Fulfilled {A} value.
Arguments Rejected {A} reason.

(** A plain object used as a map with string keys: an association list in
    insertion order; assigning an existing key replaces its value in place. *)
Fixpoint objSet {A : Type} (o : list (string * A)) (k : string) (v : A)
  : list (string * A) :=
  match o with
  | [] => [(k, v)]
  | (k', v') :: rest =>
      if String.eqb k k' then (k, v) :: rest else (k', v') :: objSet rest k v
  end.

Fixpoint objGet {A : Type} (o : list (string * A)) (k : string) : option A :=
  match o with
  | [] => None
  | (k', v') :: rest => if String.eqb k k' then Some v' else objGet rest k
  end.

Definition objKeys {A : Type} (o : list (string * A)) : list string :=
  map fst o.

Definition objValues {A : Type} (o : list (string * A)) : list A :=
  map snd o.

(** The persistence sink and the console, threaded through the code that
    writes to them.  [putFails] is the outcome the sink will give to a write:
    [None] when it accepts it, [Some e] when it rejects it with error [e]. *)
Record World (Item : Type) : Type := mkWorld {
  db : list Item;
  console : list string;
  putFails : option string
}.
Arguments mkWorld {Item} db console putFails.
Arguments db {Item} w.
Arguments console {Item} w.
Arguments putFails {Item} w.

Definition log {Item : Type} (line : string) (w : World Item) : World Item :=
  mkWorld (db w) (console w ++ [line]) (putFails w).

(** Code that reads and writes the sink and the console and may throw. *)
Definition M (Item A : Type) : Type := World Item -> result A * World Item.

Definition ret {Item A : Type} (a : A) : M Item A := fun w => (Ok a, w).

Definition throw {Item A : Type} (e : string) : M Item A :=
  fun w => (Throw e, w).

Definition bind {Item A B : Type} (m : M Item A) (k : A -> M Item B)
  : M Item B :=
  fun w =>
    match m w with
    | (Ok a, w') => k a w'
    | (Throw e, w') => (Throw e, w')
    end.

(** [try { body } catch (error) { handler(error) }] *)
Definition tryCatch {Item A : Type} (body : M Item A)
  (handler : string -> M Item A) : M Item A :=
  fun w =>
    match body w with
    | (Ok a, w') => (Ok a, w')
    | (Throw e, w') => handler e w'
    end.

Definition lift {Item A : Type} (r : result A) : M Item A := fun w => (r, w).

Definition say {Item : Type} (line : string) : M Item unit :=
  fun w => (Ok tt, log line w).

Notation "x <- m ;; k" := (bind m (fun x => k))
  (at level 61, m at next level, right associativity).
Notation "m ;;; k" := (bind m (fun _ => k))
  (at level 61, right associativity).

(** [await sink.put(item)]: the item is appended, or the sink's error is
    thrown. *)
Definition put {Item : Type} (item : Item) : M Item unit :=
  fun w =>
  match putFails w with
  | None => (Ok tt, mkWorld (db w ++ [item]) (console w) (putFails w))
  | Some e => (Throw e, w)
  end.

(** The settled form of a result, and the number of fulfilled entries. *)
Definition settledOf {A : Type} (r : result A) : settled A :=
  match r with
  | Ok a => Fulfilled a
  | Throw e => Rejected e
  end.

Definition isFulfilled {A : Type} (r : settled A) : bool :=
  match r with
  | Fulfilled _ => true
  | Rejected _ => false
  end.

Definition fulfilledCount {A : Type} (rs : list (settled A)) : nat :=
  List.length (filter isFulfilled rs).

End JS.

(** ** JavaScript numbers as binary64

    The numbers of the language are the binary64 numbers of IEEE 754 with
    one [NaN]; [+], [-], [*], [/] and [Math.sqrt] are the correctly rounded
    operations of the format.  A decimal literal such as [20.1] stands for
    the binary64 number nearest to it, which is also what [JSON.parse] makes
    of the text. *)

Module Binary64.

Local Open Scope float_scope.

(** A property of an object read from JSON: missing ([undefined]), [null],
    or a number. *)
Inductive value : Type :=
| Undefined
| Null
| Number (x : float).

(** ToNumber on the values that occur here. *)
Definition toNumber (v : value) : float :=
  match v with
  | Undefined => nan
  | Null => 0
  | Number x => x
  end.

(** The number of an integer; exact below 2^53 in absolute value. *)
Definition ofZ (z : Z) : float :=
  if (z <? 0)%Z then - of_uint63 (Uint63.of_Z (- z))
  else of_uint63 (Uint63.of_Z z).

(** [array.length] as a number. *)
Definition ofNat (n : nat) : float := ofZ (Z.of_nat n).

(** [v !== undefined] *)
Definition notUndefined (v : value) : bool :=
  match v with
  | Undefined => false
  | _ => true
  end.

(** [v !== undefined && v !== null] *)
Definition notUndefinedNorNull (v : value) : bool :=
  match v with
  | Number _ => true
  | _ => false
  end.

Definition isPositiveZero (x : float) : bool := is_zero x && negb (get_sign x).
Definition isNegativeZero (x : float) : bool := is_zero x && get_sign x.

(** One step of [Math.max] (ECMAScript 21.3.2.24): [NaN] wins, [+0] is
    larger than [-0], otherwise the larger number is kept. *)
Definition max2 (highest number : float) : float :=
  if is_nan highest || is_nan number then nan
  else if isPositiveZero number && isNegativeZero highest then number
  else if highest <? number then number
  else highest.

(** One step of [Math.min] (ECMAScript 21.3.2.25). *)
Definition min2 (lowest number : float) : float :=
  if is_nan lowest || is_nan number then nan
  else if isNegativeZero number && isPositiveZero lowest then number
  else if number <? lowest then number
  else lowest.

(** [Math.max(...values)]: every argument goes through ToNumber; the result
    for no argument is [-Infinity]. *)
Definition mathMax (values : list value) : float :=
  fold_left (fun highest v => max2 highest (toNumber v)) values neg_infinity.

(** [Math.min(...values)] *)
Definition mathMin (values : list value) : float :=
  fold_left (fun lowest v => min2 lowest (toNumber v)) values infinity.

(** [Math.round] (ECMAScript 21.3.2.28): the integer nearest to [x], the
    larger one when two are equally near; [x] itself when it is an integer,
    a zero, an infinity or [NaN]; [-0] for [-0.5 <= x < 0].  A finite
    non-zero [x] is [+/- m * 2^e]; when [e < 0] the result is computed on
    the integers as [floor ((+/- 2 m + 2^(-e)) / 2^(1 - e))], which is below
    2^53 in absolute value and hence a binary64 number. *)
Definition mathRound (x : float) : float :=
  match Prim2SF x with
  | S754_finite s m e =>
      if (0 <=? e)%Z then x
      else
        let n := ((2 * (if s then Z.neg m else Z.pos m) + 2 ^ (- e))
                  / 2 ^ (1 - e))%Z in
        if (n =? 0)%Z then (if s then neg_zero else zero) else ofZ n
  | _ => x
  end.

(** The value is a number other than [NaN] once converted. *)
Definition notNaN (v : value) : Prop := is_nan (toNumber v) = false.

(** The rational a finite binary64 number stands for. *)
Definition exactValue (x : float) : option Q :=
  match Prim2SF x with
  | S754_zero _ => Some 0%Q
  | S754_finite s m e =>
      let z := if s then Z.neg m else Z.pos m in
      Some (Qred (if (0 <=? e)%Z then inject_Z (z * 2 ^ e)
                  else z # Z.to_pos (2 ^ (- e))))
  | _ => None
  end.

End Binary64.

(** ** The provider functions

    [src/unnamed/part_002] (AWS).  The GCP and Azure copies
    ([src/lambda/gcp/index.js], [src/unnamed/part_001]) have the same
    [createAggregatedWeather] line for line and the same
    [fetchWeatherForLocation] and [storeWeatherData] up to the name of the
    provider and of the sink. *)

Module Provider.
Import JS.

Local Open Scope string_scope.

(** The normalized reply of one weather source, as built by
    [fetchOpenWeatherData], [fetchWeatherAPIData] and [fetchAccuWeatherData].
    A numeric property is [undefined] when the source's reply lacks it.  The
    properties the aggregation never reads ([uvIndex], [airQuality], [raw])
    are left out. *)
Record Reading : Type := mkReading {
  r_source : string;
  r_temperature : jsval;
  r_humidity : jsval;
  r_pressure : jsval;
  r_description : option string;
  r_windSpeed : jsval;
  r_windDirection : jsval;
  r_visibility : jsval;
  r_cloudiness : jsval;
  r_timestamp : string
}.

(** The object [aggregated] returned by [createAggregatedWeather]. *)
Record Aggregated : Type := mkAggregated {
  a_temperature : num;
  a_humidity : num;
  a_pressure : num;
  a_windSpeed : num;
  a_windDirection : num;
  a_visibility : num;
  a_cloudiness : num;
  a_descriptions : list string;
  a_confidence : num
}.

(** The local variables updated by the [forEach] loop. *)
Record Sums : Type := mkSums {
  tempSum : num;
  humiditySum : num;
  pressureSum : num;
  windSpeedSum : num;
  windDirSum : num;
  visibilitySum : num;
  cloudinessSum : num;
  validSources : nat;
  descriptions : list string
}.

Definition initialSums : Sums :=
  mkSums (Fin 0) (Fin 0) (Fin 0) (Fin 0) (Fin 0) (Fin 0) (Fin 0) 0 [].

(** [if (v !== undefined) sum += v] *)
Definition addIfDefined (sum : num) (v : jsval) : num :=
  if notUndefined v then add sum (toNumber v) else sum.

(** [if (source.description) descriptions.push(source.description)]: the
    empty string is falsy. *)
Definition pushDescription (ds : list string) (d : option string)
  : list string :=
  match d with
  | Some s => if String.eqb s "" then ds else ds ++ [s]
  | None => ds
  end.

(** One iteration of [Object.values(sources).forEach(source => ...)]. *)
Definition visit (s : Sums) (source : Reading) : Sums :=
  mkSums
    (addIfDefined (tempSum s) (r_temperature source))
    (addIfDefined (humiditySum s) (r_humidity source))
    (addIfDefined (pressureSum s) (r_pressure source))
    (addIfDefined (windSpeedSum s) (r_windSpeed source))
    (addIfDefined (windDirSum s) (r_windDirection source))
    (addIfDefined (visibilitySum s) (r_visibility source))
    (addIfDefined (cloudinessSum s) (r_cloudiness source))
    (if notUndefined (r_temperature source)
     then S (validSources s) else validSources s)
    (pushDescription (descriptions s) (r_description source)).

(** [Math.round(x * 10) / 10] *)
Definition round1 (x : num) : num :=
  div (mathRound (mul x (ofZ 10))) (ofZ 10).

Definition noDataMessage : string :=
  "No weather data available from any source".

Definition createAggregatedWeather (sources : list (string * Reading))
  : result Aggregated :=
  let sourceCount := List.length (objKeys sources) in
  if Nat.eqb sourceCount 0 then Throw noDataMessage
  else
    let s := fold_left visit (objValues sources) initialSums in
    let valid := ofNat (validSources s) in
    Ok (mkAggregated
          (round1 (div (tempSum s) valid))
          (mathRound (div (humiditySum s) valid))
          (mathRound (div (pressureSum s) valid))
          (round1 (div (windSpeedSum s) valid))
          (mathRound (div (windDirSum s) valid))
          (mathRound (div (visibilitySum s) valid))
          (mathRound (div (cloudinessSum s) valid))
          (descriptions s)
          (mathRound (mul (div valid (ofNat sourceCount)) (ofZ 100)))).

(** The [location] argument: a city name to geocode, or an object. *)
Inductive Location : Type :=
| ByName (name : string)
| ByObject (id name : string) (lat lon : Q).

Record GeoData : Type := mkGeoData {
  g_id : string;
  g_name : string;
  g_lat : Q;
  g_lon : Q
}.

(** The object [aggregatedData] of [fetchWeatherForLocation]. *)
Record AggregatedData : Type := mkAggregatedData {
  locationId : string;
  locationName : string;
  latitude : Q;
  longitude : Q;
  timestamp : string;
  cloudProvider : string;
  sources : list (string * Reading);
  aggregated : Aggregated
}.

(** The record written to the sink. *)
Record Item : Type := mkItem {
  location_id : string;
  item_timestamp : string;
  cloud_provider : string;
  location_name : string;
  item_latitude : Q;
  item_longitude : Q;
  weather_data : AggregatedData;
  ttl : Z
}.

(** [storeWeatherData]: the write is attempted; a failure is logged and then
    thrown again ([throw error] in the [catch] block).  [nowMs] is the value
    of [Date.now()]. *)
Definition storeWeatherData (weatherData : AggregatedData) (nowMs : Z)
  : M Item unit :=
  let item :=
    mkItem (locationId weatherData) (timestamp weatherData) "aws"
      (locationName weatherData) (latitude weatherData)
      (longitude weatherData) weatherData
      (nowMs / 1000 + 30 * 24 * 60 * 60)%Z in
  tryCatch
    (put item ;;;
     say ("Stored weather data for " ++ locationName weatherData))
    (fun error =>
       say ("DynamoDB storage failed: " ++ error) ;;;
       throw error).

(** [sources.key = value] when the promise was fulfilled, a warning
    otherwise. *)
Definition processResult (key warning : string) (r : settled Reading)
  (sources : list (string * Reading))
  : M Item (list (string * Reading)) :=
  match r with
  | Fulfilled value => ret (objSet sources key value)
  | Rejected reason => say (warning ++ reason) ;;; ret sources
  end.

(** [fetchWeatherForLocation].  The calls that leave the process are
    arguments: [geo] is the outcome of [geocodeLocation] (used only for a
    location given by name) and [r0], [r1], [r2] are the three entries of
    [await Promise.allSettled(weatherPromises)], in the order OpenWeather,
    WeatherAPI, AccuWeather. *)
Definition fetchWeatherForLocation (location : Location)
  (geo : result GeoData) (r0 r1 r2 : settled Reading)
  (timestamp : string) (nowMs : Z) : M Item AggregatedData :=
  say ("Fetching weather for " ++
       match location with ByName n => n | ByObject _ n _ _ => n end) ;;;
  g <- match location with
       | ByName _ => lift geo
       | ByObject id name lat lon => ret (mkGeoData id name lat lon)
       end ;;
  s0 <- processResult "openweather" "OpenWeather API failed: " r0 [] ;;
  s1 <- processResult "weatherapi" "WeatherAPI failed: " r1 s0 ;;
  s2 <- processResult "accuweather" "AccuWeather API failed: " r2 s1 ;;
  agg <- lift (createAggregatedWeather s2) ;;
  let aggregatedData :=
    mkAggregatedData (g_id g) (g_name g) (g_lat g) (g_lon g) timestamp "aws"
      s2 agg in
  storeWeatherData aggregatedData nowMs ;;;
  ret aggregatedData.

(** The number of sources whose reading has a temperature. *)
Definition hasTemperature (source : string * Reading) : bool :=
  notUndefined (r_temperature (snd source)).

Definition temperatureCount (sources : list (string * Reading)) : nat :=
  List.length (filter hasTemperature sources).

(** *** The Lambda handler and the geocoder ([src/unnamed/part_002]) *)

Record Secrets : Type := mkSecrets {
  openweather_api_key : string;
  weather_api_key : string;
  accuweather_api_key : string
}.

Definition secretsMessage : string :=
  "Unable to retrieve API keys from Secrets Manager".

(** [getSecrets]; [outcome] is what Secrets Manager answers. *)
Definition getSecrets (outcome : result Secrets) : M Item Secrets :=
  match outcome with
  | Ok secrets => ret secrets
  | Throw error =>
      say ("Failed to retrieve secrets: " ++ error) ;;;
      throw secretsMessage
  end.

(** ASCII text only: [toLowerCase] and the class [\s] are modelled on the
    ASCII letters and the ASCII white space (tab, line feed, vertical tab,
    form feed, carriage return, space). *)
Definition lowerChar (c : ascii) : ascii :=
  let n := nat_of_ascii c in
  if (Nat.leb 65 n && Nat.leb n 90)%bool then ascii_of_nat (n + 32) else c.

Fixpoint toLowerCase (s : string) : string :=
  match s with
  | EmptyString => EmptyString
  | String c rest => String (lowerChar c) (toLowerCase rest)
  end.

Definition isSpace (c : ascii) : bool :=
  let n := nat_of_ascii c in
  ((Nat.leb 9 n && Nat.leb n 13) || Nat.eqb n 32)%bool.

(** [s.replace(/\s+/g, '-')]: every maximal run of white space becomes one
    dash; [inRun] tells that the previous character was white space. *)
Fixpoint dashRuns (inRun : bool) (s : string) : string :=
  match s with
  | EmptyString => EmptyString
  | String c rest =>
      if isSpace c
      then if inRun then dashRuns true rest
           else String "-"%char (dashRuns true rest)
      else String c (dashRuns false rest)
  end.

(** One entry of the geocoding reply. *)
Record GeoEntry : Type := mkGeoEntry {
  ge_name : string;
  ge_country : string;
  ge_lat : Q;
  ge_lon : Q
}.

(** [geocodeLocation]; [reply] is [response.data]: missing, or an array. *)
Definition geocodeLocation (location : string)
  (reply : option (list GeoEntry)) : result GeoData :=
  match reply with
  | None | Some [] => Throw ("Location not found: " ++ location)
  | Some (data :: _) =>
      Ok (mkGeoData
            (dashRuns false (toLowerCase (ge_name data)) ++ "-" ++
             toLowerCase (ge_country data))
            (ge_name data ++ ", " ++ ge_country data)
            (ge_lat data) (ge_lon data))
  end.

Definition DEFAULT_LOCATIONS : list Location :=
  [ByObject "new-york" "New York" (407128 # 10000) (- (740060 # 10000));
   ByObject "london" "London" (515074 # 10000) (- (1278 # 10000));
   ByObject "tokyo" "Tokyo" (356762 # 10000) (1396503 # 10000);
   ByObject "sydney" "Sydney" (- (338688 # 10000)) (1512093 # 10000);
   ByObject "paris" "Paris" (488566 # 10000) (23522 # 10000);
   ByObject "moscow" "Moscow" (557558 # 10000) (376176 # 10000);
   ByObject "beijing" "Beijing" (399042 # 10000) (1164074 # 10000);
   ByObject "mumbai" "Mumbai" (190760 # 10000) (728777 # 10000)]%list.

(** The event: [event.locations] and
    [event.queryStringParameters?.location]. *)
Record Event : Type := mkEvent {
  ev_locations : option (list Location);
  ev_location : option string
}.

(** What the outside gives to one call of [fetchWeatherForLocation]: the
    outcome of the geocoder, the three settled source calls and the value of
    [Date.now()] read by [storeWeatherData]. *)
Record Outcome : Type := mkOutcome {
  o_geo : result GeoData;
  o_openweather : settled Reading;
  o_weatherapi : settled Reading;
  o_accuweather : settled Reading;
  o_storeNow : Z
}.

Record Summary : Type := mkSummary {
  total : nat;
  successful : nat;
  failed : nat
}.

Inductive Body : Type :=
| SingleBody (result : AggregatedData)
| BatchBody (timestamp : string) (executionTimeMs : Z) (summary : Summary)
    (data : list AggregatedData) (errors : option (list (Location * string)))
| FailureBody (error : string) (timestamp : string).

(** [createResponse]; the headers are constant and left out. *)
Record Response : Type := createResponse {
  statusCode : Z;
  body : Body
}.

(** A promise observed through [Promise.allSettled]: it never throws. *)
Definition settle {A : Type} (m : M Item A) : M Item (settled A) :=
  fun w =>
    match m w with
    | (Ok a, w') => (Ok (Fulfilled a), w')
    | (Throw e, w') => (Ok (Rejected e), w')
    end.

Definition fetchOne (location : Location) (o : Outcome) (timestamp : string)
  : M Item AggregatedData :=
  fetchWeatherForLocation location (o_geo o) (o_openweather o)
    (o_weatherapi o) (o_accuweather o) timestamp (o_storeNow o).

(** [await Promise.allSettled(locations.map(location =>
    fetchWeatherForLocation(location, secrets, timestamp)))], for the
    locations from position [index] on; [net index] is what the outside gives
    to the fetch of the location at [index].  The fetches overlap in time;
    the model runs them in the order of the array, which fixes one order of
    the console lines and of the rows written and does not change any
    result. *)
Fixpoint fetchAll (locations : list Location) (index : nat)
  (net : nat -> Outcome) (timestamp : string)
  : M Item (list (settled AggregatedData)) :=
  match locations with
  | [] => ret []
  | location :: rest =>
      r <- settle (fetchOne location (net index) timestamp) ;;
      rs <- fetchAll rest (S index) net timestamp ;;
      ret (r :: rs)
  end%list.

(** [results.forEach((result, index) => ...)]: the fulfilled values, and the
    rejected ones with their location. *)
Fixpoint separate (results : list (settled AggregatedData))
  (locations : list Location)
  : list AggregatedData * list (Location * string) :=
  match results, locations with
  | result :: results', location :: locations' =>
      let (successful, failed) := separate results' locations' in
      match result with
      | Fulfilled value => (value :: successful, failed)
      | Rejected reason => (successful, (location, reason) :: failed)
      end
  | _, _ => ([], [])
  end%list.

Definition truthyString (s : option string) : option string :=
  match s with
  | Some x => if String.eqb x "" then None else Some x
  | None => None
  end.

(** [exports.handler].  [secrets] is the answer of Secrets Manager,
    [startTime] and [endTime] the two readings of [Date.now()]. *)
Definition handler (event : Event) (secrets : result Secrets)
  (net : nat -> Outcome) (timestamp : string) (startTime endTime : Z)
  (w : World Item) : Response * World Item :=
  let attempt : M Item Response :=
    say "AWS Weather Fetcher Lambda started" ;;;
    _ <- getSecrets secrets ;;
    let locations :=
      match ev_locations event with
      | Some l => l
      | None => DEFAULT_LOCATIONS
      end in
    match truthyString (ev_location event) with
    | Some specificLocation =>
        result <- fetchOne (ByName specificLocation) (net 0%nat) timestamp ;;
        ret (createResponse 200 (SingleBody result))
    | None =>
        results <- fetchAll locations 0 net timestamp ;;
        let (successful, failed) := separate results locations in
        let executionTime := (endTime - startTime)%Z in
        say ("AWS Lambda completed in " ++
             NilEmpty.string_of_int (Z.to_int executionTime) ++ "ms") ;;;
        ret (createResponse 200
               (BatchBody timestamp executionTime
                  (mkSummary (List.length locations)
                     (List.length successful) (List.length failed))
                  successful
                  (if Nat.ltb 0 (List.length failed)
                   then Some failed else None)))
    end in
  match attempt w with
  | (Ok response, w') => (response, w')
  | (Throw error, w') =>
      (createResponse 500 (FailureBody error timestamp),
       log ("Lambda execution failed: " ++ error) w')
  end.

End Provider.

(** ** The cross-cloud aggregation Lambda ([src/unnamed/part_003]) *)

Module Aggregator.
Import JS.

Local Open Scope string_scope.
Local Open Scope list_scope.

(** The metrics of [calculateConsensus] and [calculateVariations], in the
    order of their [metrics] arrays. *)
Inductive metric : Type :=
| temperature
| humidity
| pressure
| windSpeed
| cloudiness.

Definition metrics : list metric :=
  [temperature; humidity; pressure; windSpeed; cloudiness].

Definition metric_eqb (a b : metric) : bool :=
  match a, b with
  | temperature, temperature | humidity, humidity | pressure, pressure
  | windSpeed, windSpeed | cloudiness, cloudiness => true
  | _, _ => false
  end.

(** A provider's [aggregated] object as it arrives in the provider's reply:
    every numeric property may be missing or [null]. *)
Record Point : Type := mkPoint {
  p_temperature : jsval;
  p_humidity : jsval;
  p_pressure : jsval;
  p_windSpeed : jsval;
  p_windDirection : jsval;
  p_visibility : jsval;
  p_cloudiness : jsval;
  p_descriptions : list string;
  p_confidence : jsval
}.

(** [point[metric]] *)
Definition getMetric (m : metric) (p : Point) : jsval :=
  match m with
  | temperature => p_temperature p
  | humidity => p_humidity p
  | pressure => p_pressure p
  | windSpeed => p_windSpeed p
  | cloudiness => p_cloudiness p
  end.

(** An object with metric keys ([consensus], [variations]): the entries in
    the order they were assigned. *)
Definition MetricObj : Type := list (metric * num).

Fixpoint getEntry (o : MetricObj) (m : metric) : option num :=
  match o with
  | [] => None
  | (m', v) :: rest => if metric_eqb m m' then Some v else getEntry rest m
  end.

(** [values.reduce((sum, val) => sum + val, 0)] *)
Definition sumValues (values : list jsval) : num :=
  fold_left (fun sum val => add sum (toNumber val)) values (Fin 0).

(** [dataPoints.map(point => point[metric]).filter(val => val !== undefined
    && val !== null)] *)
Definition presentValues (m : metric) (dataPoints : list Point) : list jsval :=
  filter notUndefinedNorNull (map (getMetric m) dataPoints).

(** [Math.round(x * 100) / 100] *)
Definition round2 (x : num) : num :=
  div (mathRound (mul x (ofZ 100))) (ofZ 100).

Definition calculateConsensus (dataPoints : list Point) : MetricObj :=
  if Nat.eqb (List.length dataPoints) 0 then []
  else
    fold_left
      (fun consensus m =>
         let values := presentValues m dataPoints in
         if Nat.ltb 0 (List.length values)
         then consensus ++
              [(m, round2 (div (sumValues values)
                             (ofNat (List.length values))))]
         else consensus)
      metrics [].

(** [values.reduce((sum, val) => sum + Math.pow(val - mean, 2), 0)] *)
Definition sumSquares (mean : num) (values : list jsval) : num :=
  fold_left
    (fun sum val =>
       let d := sub (toNumber val) mean in add sum (mul d d))
    values (Fin 0).

Definition variationOf (values : list jsval) : num :=
  let n := ofNat (List.length values) in
  let mean := div (sumValues values) n in
  let variance := div (sumSquares mean values) n in
  div (mathRoundSqrt100 variance) (ofZ 100).

Definition calculateVariations (dataPoints : list Point) : MetricObj :=
  if Nat.leb (List.length dataPoints) 1 then []
  else
    fold_left
      (fun variations m =>
         let values := presentValues m dataPoints in
         if Nat.ltb 1 (List.length values)
         then variations ++ [(m, variationOf values)]
         else variations)
      metrics [].

(** [dataPoints.map(point => point.temperature).filter(val => val !==
    undefined)]: a [null] temperature stays in the list. *)
Definition tempValues (dataPoints : list Point) : list jsval :=
  filter notUndefined (map p_temperature dataPoints).

Definition tempRange (values : list jsval) : num :=
  sub (mathMax values) (mathMin values).

Record Reliability : Type := mkReliability {
  dataAvailability : num;
  temperatureAgreement : jsval;
  overall : num
}.

(** [a || 100] *)
Definition orHundred (a : jsval) : num :=
  if truthy a then toNumber a else ofZ 100.

Definition calculateReliability (dataPoints : list Point)
  (totalProviders : nat) : Reliability :=
  let availability :=
    mul (div (ofNat (List.length dataPoints)) (ofNat totalProviders))
        (ofZ 100) in
  let agreement :=
    if Nat.ltb 1 (List.length dataPoints) then
      let values := tempValues dataPoints in
      if Nat.ltb 1 (List.length values)
      then JNum (max2 (Fin 0)
                   (sub (ofZ 100) (mul (tempRange values) (ofZ 25))))
      else JUndef
    else JUndef in
  mkReliability availability agreement
    (mathRound (div (add availability (orHundred agreement)) (ofZ 2))).

Definition calculateAgreement (dataPoints : list Point) : num :=
  if Nat.leb (List.length dataPoints) 1 then ofZ 100
  else
    let values := tempValues dataPoints in
    if Nat.leb (List.length values) 1 then ofZ 100
    else
      max2 (Fin 0)
        (mathRound (sub (ofZ 100) (mul (tempRange values) (ofZ 25)))).

(** One location of a provider's reply. *)
Record LocationItem : Type := mkLocationItem {
  item_aggregated : option Point;
  item_locationId : option string;
  item_locationName : option string;
  item_latitude : jsval;
  item_longitude : jsval;
  item_timestamp : option string
}.

(** [cloudData[provider].data]: an array of locations or a single one.  A
    reply that has no [data] at all, on which [createCrossCloudAggregation]
    throws a TypeError, is not among these values. *)
Inductive ProviderData : Type :=
| ManyLocations (items : list LocationItem)
| OneLocation (item : LocationItem).

(** The value a provider fetch resolves to.  [pr_time] stands for the
    [timestamp] string through [new Date(timestamp).getTime()]: the
    milliseconds since the epoch, or [None] for an invalid date. *)
Record ProviderResult : Type := mkProviderResult {
  pr_source : string;
  pr_data : ProviderData;
  pr_time : option Z
}.

Definition CloudData : Type := list (string * ProviderResult).

(** [{ ...item.aggregated, provider, source }] *)
Record DataPoint : Type := mkDataPoint {
  dp_point : Point;
  dp_provider : string;
  dp_source : string
}.

Record ProviderEntry : Type := mkProviderEntry {
  pe_provider : string;
  pe_data : Point;
  pe_timestamp : option string
}.

Record LocationEntry : Type := mkLocationEntry {
  loc_locationId : option string;
  loc_locationName : option string;
  loc_latitude : jsval;
  loc_longitude : jsval;
  loc_providers : list ProviderEntry
}.

(** The [allData] array and the [locationData] object. *)
Definition Collected : Type :=
  (list DataPoint * list (string * LocationEntry))%type.

(** The body shared by the two branches: push the data point, create the
    location's entry under [key] if there is none, push the provider. *)
Definition collectItem (provider source key : string) (item : LocationItem)
  (aggregated : Point) (c : Collected) : Collected :=
  let (allData, locationData) := c in
  let entry :=
    match objGet locationData key with
    | Some e => e
    | None =>
        mkLocationEntry (item_locationId item) (item_locationName item)
          (item_latitude item) (item_longitude item) []
    end in
  (allData ++ [mkDataPoint aggregated provider source],
   objSet locationData key
     (mkLocationEntry (loc_locationId entry) (loc_locationName entry)
        (loc_latitude entry) (loc_longitude entry)
        (loc_providers entry ++
         [mkProviderEntry provider aggregated (item_timestamp item)]))).

(** The property key a location id is used as: [undefined] becomes the
    string ["undefined"]. *)
Definition keyOfId (id : option string) : string :=
  match id with
  | Some s => s
  | None => "undefined"
  end.

(** [data.locationId || 'unknown'] *)
Definition idOrUnknown (id : option string) : string :=
  match id with
  | Some s => if String.eqb s "" then "unknown" else s
  | None => "unknown"
  end.

(** One iteration of [providers.forEach(provider => ...)]. *)
Definition collectProvider (cloudData : CloudData) (c : Collected)
  (provider : string) : Collected :=
  match objGet cloudData provider with
  | None => c
  | Some r =>
      match pr_data r with
      | ManyLocations items =>
          fold_left
            (fun c item =>
               match item_aggregated item with
               | Some aggregated =>
                   collectItem provider (pr_source r)
                     (keyOfId (item_locationId item)) item aggregated c
               | None => c
               end)
            items c
      | OneLocation data =>
          match item_aggregated data with
          | Some aggregated =>
              collectItem provider (pr_source r)
                (idOrUnknown (item_locationId data)) data aggregated c
          | None => c
          end
      end
  end.

(** The [consensus] of a location: computed, or the only provider's
    [aggregated] object as it is. *)
Inductive LocationConsensus : Type :=
| Computed (consensus : MetricObj)
| Verbatim (data : option Point).

Record LocationSummary : Type := mkLocationSummary {
  ls_location : LocationEntry;
  ls_consensus : LocationConsensus;
  ls_variations : MetricObj;
  ls_agreement : num
}.

Definition summarizeLocation (location : LocationEntry) : LocationSummary :=
  if Nat.ltb 1 (List.length (loc_providers location)) then
    let points := map pe_data (loc_providers location) in
    mkLocationSummary location (Computed (calculateConsensus points))
      (calculateVariations points) (calculateAgreement points)
  else
    mkLocationSummary location
      (Verbatim (option_map pe_data (hd_error (loc_providers location))))
      [] (ofZ 100).

(** [calculateDataFreshness]; [now] is the value of [new Date()] in
    milliseconds. *)
Definition parsedTimestamps (cloudData : CloudData) : list Z :=
  flat_map
    (fun provider =>
       match pr_time provider with
       | Some t => [t]
       | None => []
       end)
    (objValues cloudData).

Definition averageAge (now : Z) (timestamps : list Z) : num :=
  div (fold_left (fun sum timestamp => add sum (ofZ (now - timestamp)))
         timestamps (Fin 0))
      (ofNat (List.length timestamps)).

Definition calculateDataFreshness (cloudData : CloudData) (now : Z)
  : string :=
  let timestamps := parsedTimestamps cloudData in
  if Nat.eqb (List.length timestamps) 0 then "unknown"
  else
    let minutes :=
      mathRound (div (averageAge now timestamps) (ofZ (1000 * 60))) in
    if lt minutes (ofZ 5) then "very-fresh"
    else if lt minutes (ofZ 15) then "fresh"
    else if lt minutes (ofZ 60) then "moderate"
    else "stale".

Record Summary : Type := mkSummary {
  totalLocations : nat;
  averageTemperature : option num;
  temperatureRange : option num;
  overallReliability : option num;
  dataFreshness : string
}.

Record Aggregation : Type := mkAggregation {
  agg_timestamp : string;
  agg_cloudProviders : list string;
  agg_dataPoints : nat;
  agg_consensus : MetricObj;
  agg_variations : MetricObj;
  agg_reliability : option Reliability;
  agg_locations : list LocationSummary;
  agg_summary : Summary;
  agg_rawData : option CloudData
}.

Definition noProviderMessage : string := "No cloud provider data available".

Definition createCrossCloudAggregation (cloudData : CloudData)
  (timestamp : string) (includeRaw : bool) (now : Z) : result Aggregation :=
  let providers := objKeys cloudData in
  if Nat.eqb (List.length providers) 0 then Throw noProviderMessage
  else
    let (allData, locationData) :=
      fold_left (collectProvider cloudData) providers ([], []) in
    let points := map dp_point allData in
    let nonEmpty := Nat.ltb 0 (List.length allData) in
    let consensus := if nonEmpty then calculateConsensus points else [] in
    let variations := if nonEmpty then calculateVariations points else [] in
    let reliability :=
      if nonEmpty
      then Some (calculateReliability points (List.length providers))
      else None in
    Ok (mkAggregation timestamp providers (List.length providers)
          consensus variations reliability
          (map summarizeLocation (objValues locationData))
          (mkSummary (List.length (objKeys locationData))
             (getEntry consensus temperature)
             (getEntry variations temperature)
             (option_map overall reliability)
             (calculateDataFreshness cloudData now))
          (if includeRaw then Some cloudData else None)).

(** The query string of the event. *)
Record Event : Type := mkEvent {
  ev_location : option string;
  ev_includeRaw : option string;
  ev_providers : option (list string)
}.

(** The four readings of the clock: [Date.now()] on entry, [new Date()] in
    [calculateDataFreshness], [Date.now()] in [storeAggregatedData] and
    [Date.now()] when the response is built. *)
Record Clock : Type := mkClock {
  startTime : Z;
  freshnessNow : Z;
  storeNow : Z;
  endTime : Z
}.

(** The record written to the sink by [storeAggregatedData]. *)
Record Item : Type := mkItem {
  location_id : string;
  item_time : string;
  cloud_provider : string;
  aggregated_data : Aggregation;
  ttl : Z
}.

Inductive Body : Type :=
| SuccessBody (timestamp : string) (executionTimeMs : Z)
    (cloudProviders failedProviders : list string) (location : string)
    (aggregatedData : Aggregation) (errors : option (list (string * string)))
| FailureBody (error : string) (timestamp : string) (executionTimeMs : Z).

(** [createResponse]; the headers are constant and left out. *)
Record Response : Type := createResponse {
  statusCode : Z;
  body : Body
}.

Definition showNat (n : nat) : string :=
  NilEmpty.string_of_uint (Nat.to_uint n).

Definition showZ (z : Z) : string :=
  NilEmpty.string_of_int (Z.to_int z).

(** [storeAggregatedData]: a failed write is logged and not thrown again. *)
Definition storeAggregatedData (aggregatedData : Aggregation)
  (location timestamp : string) (nowMs : Z) : M Item unit :=
  let item :=
    mkItem (String.append "aggregated-" location) timestamp "aggregated"
      aggregatedData (nowMs / 1000 + 7 * 24 * 60 * 60)%Z in
  tryCatch
    (put item ;;;
     say (String.append "Stored aggregated data for " location))
    (fun error =>
       say (String.append "Failed to store aggregated data: " error)).

(** [cloudProviders.includes(name)] *)
Definition includes (cloudProviders : list string) (name : string) : bool :=
  existsb (String.eqb name) cloudProviders.

(** [results.forEach((result, index) => ...)], from position [index] on. *)
Fixpoint processResults (results : list (settled ProviderResult))
  (cloudProviders : list string) (index : nat)
  (cloudData : CloudData) (errors : list (string * string))
  : M Item (CloudData * list (string * string)) :=
  match results with
  | [] => ret (cloudData, errors)
  | result :: rest =>
      let provider := nth index cloudProviders "undefined" in
      match result with
      | Fulfilled value =>
          processResults rest cloudProviders (S index)
            (objSet cloudData provider value) errors
      | Rejected reason =>
          say (String.append provider (String.append " failed: " reason)) ;;;
          processResults rest cloudProviders (S index)
            cloudData (objSet errors provider reason)
      end
  end.

(** [location || 'multiple'] and [if (location)] *)
Definition nonEmptyLocation (location : option string) : option string :=
  match location with
  | Some s => if String.eqb s "" then None else Some s
  | None => None
  end.

(** [exports.handler].  The three provider fetches leave the process: their
    settled outcomes [aws], [azure] and [gcp] are arguments, and only the
    outcomes of the providers named in the request are used.  All three
    fetches are settled before the handler writes; what they return
    ([fetchAWSWeatherData] reads the table the handler writes to) is not
    derived from the store here.  The console line that dumps the event is
    left out; the [try]/[catch] around the whole body makes the handler
    total. *)
Definition handler (event : Event)
  (aws azure gcp : settled ProviderResult)
  (timestamp : string) (clock : Clock) (w : World Item)
  : Response * World Item :=
  let attempt : M Item Response :=
    say "Cross-Cloud Aggregation Lambda started" ;;;
    let location := ev_location event in
    let includeRaw :=
      match ev_includeRaw event with
      | Some s => String.eqb s "true"
      | None => false
      end in
    let cloudProviders :=
      match ev_providers event with
      | Some l => l
      | None => ["aws"; "azure"; "gcp"]
      end in
    let cloudPromises :=
      (if includes cloudProviders "aws" then [aws] else []) ++
      (if includes cloudProviders "azure" then [azure] else []) ++
      (if includes cloudProviders "gcp" then [gcp] else []) in
    say (String.append "Fetching data from "
           (String.append (showNat (List.length cloudPromises))
              " cloud providers")) ;;;
    processed <- processResults cloudPromises cloudProviders 0 [] [] ;;
    let (cloudData, errors) := processed : CloudData * list (string * string) in
    aggregatedData <-
      lift (createCrossCloudAggregation cloudData timestamp includeRaw
              (freshnessNow clock)) ;;
    match nonEmptyLocation location with
    | Some l => storeAggregatedData aggregatedData l timestamp (storeNow clock)
    | None => ret tt
    end ;;;
    let executionTime := (endTime clock - startTime clock)%Z in
    say (String.append "Cross-cloud aggregation completed in "
           (String.append (showZ executionTime) "ms")) ;;;
    ret (createResponse 200
           (SuccessBody timestamp executionTime (objKeys cloudData)
              (objKeys errors)
              match nonEmptyLocation location with
              | Some l => l
              | None => "multiple"
              end
              aggregatedData
              (if Nat.ltb 0 (List.length (objKeys errors))
               then Some errors else None))) in
  match attempt w with
  | (Ok response, w') => (response, w')
  | (Throw error, w') =>
      (createResponse 500
         (FailureBody error timestamp (endTime clock - startTime clock)%Z),
       log (String.append "Aggregation failed: " error) w')
  end.

End Aggregator.

(** ** The consensus, the variations, the agreement and the reliability in
    binary64

    [calculateConsensus], [calculateVariations], [calculateAgreement] and
    [calculateReliability] of [src/unnamed/part_003] once more, this time on
    binary64 numbers. *)

Module AggregatorBinary64.
Import Binary64.

Local Open Scope string_scope.
Local Open Scope list_scope.
Local Open Scope float_scope.

(** A provider's [aggregated] object as it arrives in the provider's
    reply. *)
Record Point : Type := mkPoint {
  p_temperature : value;
  p_humidity : value;
  p_pressure : value;
  p_windSpeed : value;
  p_windDirection : value;
  p_visibility : value;
  p_cloudiness : value;
  p_descriptions : list string;
  p_confidence : value
}.

(** [point[metric]] *)
Definition getMetric (m : Aggregator.metric) (p : Point) : value :=
  match m with
  | Aggregator.temperature => p_temperature p
  | Aggregator.humidity => p_humidity p
  | Aggregator.pressure => p_pressure p
  | Aggregator.windSpeed => p_windSpeed p
  | Aggregator.cloudiness => p_cloudiness p
  end.

(** An object with metric keys ([consensus], [variations]): the entries in
    the order they were assigned. *)
Definition MetricObj : Type := list (Aggregator.metric * float).

Fixpoint getEntry (o : MetricObj) (m : Aggregator.metric) : option float :=
  match o with
  | [] => None
  | (m', v) :: rest =>
      if Aggregator.metric_eqb m m' then Some v else getEntry rest m
  end.

(** [dataPoints.map(point => point[metric]).filter(val => val !== undefined
    && val !== null)] *)
Definition presentValues (m : Aggregator.metric) (dataPoints : list Point)
  : list value :=
  filter notUndefinedNorNull (map (getMetric m) dataPoints).

(** [values.reduce((sum, val) => sum + val, 0)] *)
Definition sumValues (values : list value) : float :=
  fold_left (fun sum val => sum + toNumber val) values 0.

(** [Math.round(x * 100) / 100] *)
Definition round2 (x : float) : float := mathRound (x * 100) / 100.

Definition calculateConsensus (dataPoints : list Point) : MetricObj :=
  if Nat.eqb (List.length dataPoints) 0 then []
  else
    fold_left
      (fun consensus m =>
         let values := presentValues m dataPoints in
         if Nat.ltb 0 (List.length values)
         then consensus ++
              [(m, round2 (sumValues values / ofNat (List.length values)))]
         else consensus)
      Aggregator.metrics [].

(** [values.reduce((sum, val) => sum + Math.pow(val - mean, 2), 0)].
    ECMAScript leaves the precision of [Math.pow] to the implementation; the
    square is taken as the binary64 product. *)
Definition sumSquares (mean : float) (values : list value) : float :=
  fold_left
    (fun sum val => let d := toNumber val - mean in sum + d * d)
    values 0.

Definition variationOf (values : list value) : float :=
  let n := ofNat (List.length values) in
  let mean := sumValues values / n in
  let variance := sumSquares mean values / n in
  mathRound (sqrt variance * 100) / 100.

Definition calculateVariations (dataPoints : list Point) : MetricObj :=
  if Nat.leb (List.length dataPoints) 1 then []
  else
    fold_left
      (fun variations m =>
         let values := presentValues m dataPoints in
         if Nat.ltb 1 (List.length values)
         then variations ++ [(m, variationOf values)]
         else variations)
      Aggregator.metrics [].

(** [dataPoints.map(point => point.temperature).filter(val => val !==
    undefined)]: a [null] temperature stays in the list. *)
Definition tempValues (dataPoints : list Point) : list value :=
  filter notUndefined (map p_temperature dataPoints).

Definition calculateAgreement (dataPoints : list Point) : float :=
  if Nat.leb (List.length dataPoints) 1 then 100
  else
    let tempValues := tempValues dataPoints in
    if Nat.leb (List.length tempValues) 1 then 100
    else
      let maxTemp := mathMax tempValues in
      let minTemp := mathMin tempValues in
      let tempRange := maxTemp - minTemp in
      mathMax [Number 0; Number (mathRound (100 - tempRange * 25))].

Record Reliability : Type := mkReliability {
  dataAvailability : float;
  temperatureAgreement : value;
  overall : float
}.

(** ToBoolean: [undefined], [null], [0], [-0] and [NaN] are falsy. *)
Definition truthy (v : value) : bool :=
  match v with
  | Undefined | Null => false
  | Number x => negb (is_zero x || is_nan x)
  end.

(** [a || 100] *)
Definition orHundred (a : value) : float :=
  if truthy a then toNumber a else 100.

Definition calculateReliability (dataPoints : list Point)
  (totalProviders : nat) : Reliability :=
  let availability :=
    ofNat (List.length dataPoints) / ofNat totalProviders * 100 in
  let agreement :=
    if Nat.ltb 1 (List.length dataPoints) then
      let tempValues := tempValues dataPoints in
      if Nat.ltb 1 (List.length tempValues) then
        let maxTemp := mathMax tempValues in
        let minTemp := mathMin tempValues in
        let tempRange := maxTemp - minTemp in
        Number (mathMax [Number 0; Number (100 - tempRange * 25)])
      else Undefined
    else Undefined in
  mkReliability availability agreement
    (mathRound ((availability + orHundred agreement) / 2)).

End AggregatorBinary64.

(** ** The UI-facing route ([src/src/app/api/aggregation/weather/route.ts]) *)

Module Route.
Import JS.

Local Open Scope string_scope.
Local Open Scope list_scope.

(** The properties [GET] reads from the parsed reply of the aggregation
    service. *)
Record ServiceJson : Type := mkServiceJson {
  sj_aggregatedData : option Aggregator.Aggregation;
  sj_cloudProviders : option (list string);
  sj_executionTimeMs : option Z;
  sj_timestamp : option string
}.

(** What [await fetch(aggregationUrl, ...)] resolves to. *)
Record FetchResponse : Type := mkFetchResponse {
  ok : bool;
  status : Z;
  json : result ServiceJson
}.

Record MockConsensus : Type := mkMockConsensus {
  mc_temperature : Z;
  mc_humidity : Z;
  mc_description : string;
  mc_windSpeed : Z;
  mc_pressure : Z;
  mc_precipitation : Z;
  mc_sunrise : string;
  mc_sunset : string
}.

Record MockLocation : Type := mkMockLocation {
  ml_locationId : string;
  ml_locationName : string;
  ml_lat : Q;
  ml_lon : Q;
  ml_agreement : Z;
  ml_consensus : MockConsensus;
  ml_providers : list string
}.

(** The [aggregatedData] property of the route's reply: what the service
    sent, or a literal [{ locations: [...] }]. *)
Inductive Payload : Type :=
| FromService (aggregatedData : Aggregator.Aggregation)
| Locations (locations : list MockLocation).

Inductive RouteResponse : Type :=
| ErrorOnly (status : Z) (error : string)
| Json (status : Z) (error : option string) (aggregatedData : Payload)
    (cloudProviders : list string) (executionTimeMs : Z) (timestamp : string).

(** [location.toLowerCase().replace(/[^a-z0-9]/g, '-')] on ASCII text. *)
Definition slugChar (c : ascii) : ascii :=
  let n := nat_of_ascii c in
  let lower :=
    if (Nat.leb 65 n && Nat.leb n 90)%bool then (n + 32)%nat else n in
  if ((Nat.leb 97 lower && Nat.leb lower 122) ||
      (Nat.leb 48 lower && Nat.leb lower 57))%bool
  then ascii_of_nat lower
  else "-"%char.

Fixpoint slug (s : string) : string :=
  match s with
  | EmptyString => EmptyString
  | String c rest => String (slugChar c) (slug rest)
  end.

Definition mockData (location nowIso : string) : RouteResponse :=
  Json 503 (Some "All cloud providers are currently unavailable")
    (Locations
       [mkMockLocation (slug location) location (407128 # 10000)
          (- (740060 # 10000)) 0
          (mkMockConsensus 20 65 "Service Unavailable" 0 1013 0
             "6:18 AM" "7:27 PM")
          []])
    [] 0 nowIso.

Definition nonEmpty (s : option string) : option string :=
  match s with
  | Some x => if String.eqb x "" then None else Some x
  | None => None
  end.

(** [GET].  [location] is [searchParams.get('location')], [aggregationUrl]
    the environment variable, [fetched] the outcome of the call to the
    aggregation service (a thrown network error, or the response) and
    [nowIso] the value of [new Date().toISOString()]. *)
Definition GET (location aggregationUrl : option string)
  (fetched : result FetchResponse) (nowIso : string) : RouteResponse :=
  match nonEmpty location with
  | None => ErrorOnly 400 "Location parameter is required"
  | Some location =>
      let attempt : result RouteResponse :=
        match nonEmpty aggregationUrl with
        | None =>
            Ok (Json 503 (Some "Aggregation service not configured")
                  (Locations []) [] 0 nowIso)
        | Some _ =>
            match fetched with
            | Throw e => Throw e
            | Ok response =>
                if negb (ok response) then
                  Throw ("Aggregation service responded with status: " ++
                         Aggregator.showZ (status response))%string
                else
                  match json response with
                  | Throw e => Throw e
                  | Ok data =>
                      Ok (Json 200 None
                            match sj_aggregatedData data with
                            | Some a => FromService a
                            | None => Locations []
                            end
                            match sj_cloudProviders data with
                            | Some l => l
                            | None => []
                            end
                            match sj_executionTimeMs data with
                            | Some t => t
                            | None => 0%Z
                            end
                            match nonEmpty (sj_timestamp data) with
                            | Some t => t
                            | None => nowIso
                            end)
                  end
            end
        end in
      match attempt with
      | Ok response => response
      | Throw _ => mockData location nowIso
      end
  end.

End Route.

(** ** The statistics the specification names

    These follow the words of the specification, not the code; the theorems
    below compare the code with them. *)

Module Stats.

Local Open Scope Q_scope.

Definition total (values : list Q) : Q :=
  fold_right Qplus 0 values.

(** The arithmetic mean. *)
Definition mean (values : list Q) : Q :=
  total values / inject_Z (Z.of_nat (List.length values)).

(** The sum of the squared deviations from [m]. *)
Definition squaredDeviations (m : Q) (values : list Q) : Q :=
  fold_right (fun v acc => (v - m) * (v - m) + acc) 0 values.

(** The population variance: the squared deviations from the mean, summed
    and divided by N (not N - 1). *)
Definition populationVariance (values : list Q) : Q :=
  squaredDeviations (mean values) values /
  inject_Z (Z.of_nat (List.length values)).

(** [s] is the population standard deviation of [values]. *)
Definition isPopulationStdDev (s : Q) (values : list Q) : Prop :=
  0 <= s /\ s * s == populationVariance values.

(** The sum of the ages [now - t], in milliseconds. *)
Definition totalAge (now : Z) (timestamps : list Z) : Z :=
  fold_right (fun t acc => (now - t + acc)%Z) 0%Z timestamps.

(** The average age in minutes. *)
Definition averageAgeMinutes (now : Z) (timestamps : list Z) : Q :=
  inject_Z (totalAge now timestamps) /
  inject_Z (Z.of_nat (List.length timestamps)) / 60000.

End Stats.

(** The same statistics computed in binary64, every sum taken from left to
    right. *)

Module StatsBinary64.

Local Open Scope float_scope.

Definition total (values : list float) : float :=
  fold_left PrimFloat.add values 0.

(** The arithmetic mean. *)
Definition mean (values : list float) : float :=
  total values / Binary64.ofNat (List.length values).

(** The sum of the squared deviations from the mean. *)
Definition squaredDeviations (values : list float) : float :=
  total (map (fun v => (v - mean values) * (v - mean values)) values).

(** The population variance: the squared deviations from the mean, summed
    and divided by N (not N - 1). *)
Definition populationVariance (values : list float) : float :=
  squaredDeviations values / Binary64.ofNat (List.length values).

(** The population standard deviation. *)
Definition populationStdDev (values : list float) : float :=
  sqrt (populationVariance values).

End StatsBinary64.

(** ** Sample inputs *)

Module Samples.
Import JS.

Local Open Scope string_scope.
Local Open Scope list_scope.

Definition number (z : Z) : jsval := JNum (ofZ z).

(** A reading with every metric present. *)
Definition fullReading (source : string) (temperature : Q) : Provider.Reading :=
  Provider.mkReading source (JNum (Fin temperature)) (number 50)
    (number 1013) (Some "clear sky") (number 3) (number 90) (number 10000)
    (number 0) "2024-01-01T12:00:00.000Z".

(** An OpenWeather reading taken in calm air: the reply has no [wind.deg],
    so [windDirection] is [undefined]. *)
Definition calmReading : Provider.Reading :=
  Provider.mkReading "openweather" (number 20) (number 50) (number 1013)
    (Some "clear sky") (number 0) JUndef (number 10000) (number 0)
    "2024-01-01T12:00:00.000Z".

(** A reading that carries a humidity and nothing else. *)
Definition humidityOnly : Provider.Reading :=
  Provider.mkReading "weatherapi" JUndef (number 50) JUndef None JUndef
    JUndef JUndef JUndef "2024-01-01T12:00:00.000Z".

Definition london : Provider.Location :=
  Provider.ByObject "london" "London" (515074 # 10000) (- (1278 # 10000)).

Definition threeReadings : list (string * Provider.Reading) :=
  [("openweather", fullReading "openweather" 22);
   ("weatherapi", fullReading "weatherapi" 24);
   ("accuweather", fullReading "accuweather" (47 # 2))].

Definition calmSources : list (string * Provider.Reading) :=
  [("openweather", calmReading);
   ("weatherapi", fullReading "weatherapi" 20);
   ("accuweather", fullReading "accuweather" 20)].

(** Three readings of which the last two have lost their temperature. *)
Definition oneTemperature : list (string * Provider.Reading) :=
  [("openweather", fullReading "openweather" 22);
   ("weatherapi", humidityOnly);
   ("accuweather", humidityOnly)].

Definition twoTemperatures : list (string * Provider.Reading) :=
  [("openweather", fullReading "openweather" 22);
   ("weatherapi", fullReading "weatherapi" 24);
   ("accuweather", humidityOnly)].

(** A provider's aggregate with the given temperature. *)
Definition point (temperature : Q) : Aggregator.Point :=
  Aggregator.mkPoint (JNum (Fin temperature)) (number 50) (number 1013)
    (number 3) (number 90) (number 10000) (number 0) ["clear sky"]
    (number 100).

(** A provider result observed at [time] milliseconds. *)
Definition providerAt (time : Z) : Aggregator.ProviderResult :=
  Aggregator.mkProviderResult "aws-lambda"
    (Aggregator.OneLocation
       (Aggregator.mkLocationItem (Some (point 20)) (Some "london")
          (Some "London") (JNum (Fin (515074 # 10000)))
          (JNum (Fin (- (1278 # 10000)))) (Some "2024-01-01T12:00:00.000Z")))
    (Some time).

(** A provider's aggregate, in binary64, with the given temperature. *)
Definition point64 (temperature : Binary64.value) : AggregatorBinary64.Point :=
  AggregatorBinary64.mkPoint temperature
    (Binary64.Number 50) (Binary64.Number 1013) (Binary64.Number 3)
    (Binary64.Number 90) (Binary64.Number 10000) (Binary64.Number 0)
    ["clear sky"] (Binary64.Number 100).

(** The aggregates of providers that report the given temperatures. *)
Definition points64 (temperatures : list float)
  : list AggregatorBinary64.Point :=
  map (fun t => point64 (Binary64.Number t)) temperatures.

(** Sixteen temperatures: [a], [b] and fourteen times [c]. *)
Definition sixteen (a b c : float) : list float :=
  a :: b :: repeat c 14.

Definition quietWorld {Item : Type} : World Item := mkWorld [] [] None.

Definition failingSink {Item : Type} : World Item :=
  mkWorld [] [] (Some "ProvisionedThroughputExceededException").

End Samples.

(** * Properties *)

Import JS.

(** ** Arithmetic of the number model *)

Section NumberFacts.

Local Open Scope Q_scope.

Lemma Qltb_true (a b : Q) : Qltb a b = true <-> a < b.
Proof.
  unfold Qltb. rewrite negb_true_iff. split; intro H.
  - apply Qnot_le_lt. intro L. apply Qle_bool_iff in L. congruence.
  - destruct (Qle_bool b a) eqn:E; [|reflexivity].
    apply Qle_bool_iff in E. exfalso. exact (Qlt_not_le _ _ H E).
Qed.

Lemma Qltb_false (a b : Q) : Qltb a b = false <-> b <= a.
Proof.
  unfold Qltb. rewrite negb_false_iff. apply Qle_bool_iff.
Qed.

Lemma Qeq_bool_false (a b : Q) : ~ a == b -> Qeq_bool a b = false.
Proof.
  intro H. destruct (Qeq_bool a b) eqn:E; [|reflexivity].
  apply Qeq_bool_iff in E. contradiction.
Qed.

Lemma inject_Z_pos_nonzero (n : nat) :
  n <> 0%nat -> ~ inject_Z (Z.of_nat n) == 0.
Proof.
  intros Hn H. unfold Qeq in H. simpl in H. lia.
Qed.

Lemma roundHalfUp_comp (a b : Q) : a == b -> roundHalfUp a = roundHalfUp b.
Proof.
  intro H. unfold roundHalfUp. now rewrite H.
Qed.

Lemma roundHalfUp_le (a b : Q) : a <= b -> (roundHalfUp a <= roundHalfUp b)%Z.
Proof.
  intro H. unfold roundHalfUp. apply Qfloor_resp_le. lra.
Qed.

Lemma roundHalfUp_Z (z : Z) : roundHalfUp (inject_Z z) = z.
Proof.
  unfold roundHalfUp, Qfloor. simpl.
  replace (z * 2 + 1)%Z with (1 + z * 2)%Z by lia.
  rewrite Z.div_add by lia. reflexivity.
Qed.

(** Division of finite numbers by a non-zero finite number. *)
Lemma div_Fin (a b : Q) : ~ b == 0 -> div (Fin a) (Fin b) = Fin (Qred (a / b)).
Proof.
  intro H. unfold div. now rewrite Qeq_bool_false.
Qed.

(** Division by zero never gives a finite number. *)
Lemma div_zero (x : num) :
  div x (Fin 0) = NaN \/ div x (Fin 0) = PInf \/ div x (Fin 0) = NInf.
Proof.
  destruct x as [| | |a]; simpl; auto.
  unfold signedInf. destruct (Qnum a ?= 0)%Z; auto.
Qed.

Lemma zero_div_zero : div (Fin 0) (Fin 0) = NaN.
Proof. reflexivity. Qed.

Lemma mathRound_not_finite (x : num) :
  x = NaN \/ x = PInf \/ x = NInf -> mathRound x = x.
Proof. intros [-> | [-> | ->]]; reflexivity. Qed.

Lemma leb_ofZ (a b : Z) : leb (ofZ a) (ofZ b) = (a <=? b)%Z.
Proof.
  unfold leb, ofZ. destruct (a <=? b)%Z eqn:E.
  - apply Qle_bool_iff. rewrite <- Zle_Qle. lia.
  - destruct (Qle_bool (inject_Z a) (inject_Z b)) eqn:F; [|reflexivity].
    apply Qle_bool_iff in F. rewrite <- Zle_Qle in F. lia.
Qed.

Lemma lt_ofZ (a b : Z) : lt (ofZ a) (ofZ b) = (a <? b)%Z.
Proof.
  unfold lt, ofZ. fold (ofZ a). fold (ofZ b). rewrite leb_ofZ.
  rewrite Z.ltb_antisym. reflexivity.
Qed.

Lemma max2_ofZ (a b : Z) : max2 (ofZ a) (ofZ b) = ofZ (Z.max a b).
Proof.
  unfold max2.
  change ((if leb (ofZ a) (ofZ b) then ofZ b else ofZ a) = ofZ (Z.max a b)).
  rewrite leb_ofZ. destruct (a <=? b)%Z eqn:E.
  - f_equal. lia.
  - f_equal. lia.
Qed.

End NumberFacts.

(** ** The provider functions *)

Section ProviderFacts.

Import Provider.
Local Open Scope string_scope.

Lemma validSources_fold (l : list Reading) (s : Sums) :
  validSources (fold_left visit l s) =
  (validSources s +
   List.length (filter (fun r => notUndefined (r_temperature r)) l))%nat.
Proof.
  revert s. induction l as [|r l IH]; intro s; simpl.
  - lia.
  - rewrite IH. simpl. destruct (notUndefined (r_temperature r)); simpl; lia.
Qed.

Lemma temperatureCount_values (sources : list (string * Reading)) :
  List.length
    (filter (fun r => notUndefined (r_temperature r)) (objValues sources)) =
  temperatureCount sources.
Proof.
  unfold temperatureCount, objValues, hasTemperature.
  induction sources as [|[k r] l IH]; simpl; [reflexivity|].
  destruct (notUndefined (r_temperature r)); simpl; congruence.
Qed.

Lemma temperatureCount_le (sources : list (string * Reading)) :
  (temperatureCount sources <= List.length sources)%nat.
Proof. apply filter_length_le. Qed.

Lemma tempSum_fold_undefined (l : list Reading) (s : Sums) :
  Forall (fun r => r_temperature r = JUndef) l ->
  tempSum (fold_left visit l s) = tempSum s.
Proof.
  revert s. induction l as [|r l IH]; intros s H; simpl; [reflexivity|].
  inversion H as [|? ? Hr Hl]; subst. rewrite IH by assumption.
  simpl. unfold addIfDefined. now rewrite Hr.
Qed.

(** The guard of [createAggregatedWeather] is the only way it throws. *)
Lemma createAggregatedWeather_nonempty (sources : list (string * Reading)) :
  sources <> [] ->
  createAggregatedWeather sources =
  let s := fold_left visit (objValues sources) initialSums in
  let valid := ofNat (validSources s) in
  Ok (mkAggregated
        (round1 (div (tempSum s) valid))
        (mathRound (div (humiditySum s) valid))
        (mathRound (div (pressureSum s) valid))
        (round1 (div (windSpeedSum s) valid))
        (mathRound (div (windDirSum s) valid))
        (mathRound (div (visibilitySum s) valid))
        (mathRound (div (cloudinessSum s) valid))
        (descriptions s)
        (mathRound (mul (div valid (ofNat (List.length sources)))
                      (ofZ 100)))).
Proof.
  intro H. unfold createAggregatedWeather, objKeys. rewrite length_map.
  destruct sources; [congruence|]. reflexivity.
Qed.

Lemma round1_not_finite (x : num) : isFinite x = false -> round1 x = x.
Proof. destruct x; simpl; intro H; try reflexivity. discriminate. Qed.

Lemma isFinite_div_zero (x : num) : isFinite (div x (Fin 0)) = false.
Proof.
  destruct (div_zero x) as [-> | [-> | ->]]; reflexivity.
Qed.

Lemma isFinite_mathRound (x : num) :
  isFinite x = false -> isFinite (mathRound x) = false.
Proof. destruct x; simpl; auto. Qed.

End ProviderFacts.

(** ** Claims about the per-location aggregation *)

Section ProviderClaims.

Import Provider.
Local Open Scope string_scope.

(** The confidence computed by [createAggregatedWeather]: the share of the
    readings that carry a temperature, in percent, rounded. *)
Lemma confidence_formula (sources : list (string * Reading)) :
  sources <> [] ->
  exists agg,
    createAggregatedWeather sources = Ok agg /\
    a_confidence agg =
    ofZ (roundHalfUp
           (100 * (inject_Z (Z.of_nat (temperatureCount sources)) /
                   inject_Z (Z.of_nat (List.length sources))))).
Proof.
  intro H. rewrite createAggregatedWeather_nonempty by assumption.
  eexists. split; [reflexivity|]. cbn [a_confidence].
  rewrite validSources_fold, temperatureCount_values.
  change (validSources initialSums) with 0%nat. rewrite Nat.add_0_l.
  unfold ofNat, ofZ.
  rewrite div_Fin
    by (apply inject_Z_pos_nonzero; destruct sources; simpl; congruence).
  cbn [mul mathRound]. unfold ofZ. do 2 f_equal. apply roundHalfUp_comp.
  rewrite !Qred_correct. ring.
Qed.

Lemma share_le (a b n : nat) :
  (a <= b)%nat -> n <> 0%nat ->
  100 * (inject_Z (Z.of_nat a) / inject_Z (Z.of_nat n)) <=
  100 * (inject_Z (Z.of_nat b) / inject_Z (Z.of_nat n)).
Proof.
  intros Hab Hn.
  apply Qmult_le_l; [reflexivity|].
  unfold Qdiv. apply Qmult_le_compat_r.
  - rewrite <- Zle_Qle. lia.
  - apply Qinv_le_0_compat. change 0 with (inject_Z 0).
    rewrite <- Zle_Qle. lia.
Qed.

(** C1 (as the code has it).  The divisor of the confidence is the number of
    sources that returned a reading, not the number of sources attempted: a
    failed source never enters [sources].  For a non-empty [sources] the
    aggregate exists and its confidence is
    [round (100 * temperatureCount / length)]; for a fixed number of readings
    it does not decrease when more of them carry a temperature; with three
    readings, one, two and three temperatures give 33, 67 and 100. *)
Theorem C1_confidence (sources : list (string * Reading)) :
  sources <> [] ->
  exists agg,
    createAggregatedWeather sources = Ok agg /\
    a_confidence agg =
    ofZ (roundHalfUp
           (100 * (inject_Z (Z.of_nat (temperatureCount sources)) /
                   inject_Z (Z.of_nat (List.length sources))))) /\
    (forall sources',
        List.length sources' = List.length sources ->
        (temperatureCount sources <= temperatureCount sources')%nat ->
        exists agg',
          createAggregatedWeather sources' = Ok agg' /\
          leb (a_confidence agg) (a_confidence agg') = true) /\
    (List.length sources = 3%nat ->
     (temperatureCount sources = 1%nat -> a_confidence agg = ofZ 33) /\
     (temperatureCount sources = 2%nat -> a_confidence agg = ofZ 67) /\
     (temperatureCount sources = 3%nat -> a_confidence agg = ofZ 100)).
Proof.
  intro Hne.
  destruct (confidence_formula sources Hne) as (agg & Hagg & Hconf).
  exists agg. split; [assumption|]. split; [assumption|]. split.
  - intros sources' Hlen Hle.
    assert (Hne' : sources' <> []).
    { destruct sources'; [|congruence]. destruct sources; simpl in *; congruence. }
    destruct (confidence_formula sources' Hne') as (agg' & Hagg' & Hconf').
    exists agg'. split; [assumption|].
    rewrite Hconf, Hconf', leb_ofZ, Hlen. apply Z.leb_le.
    apply roundHalfUp_le, share_le; [assumption|].
    destruct sources; simpl; congruence.
  - intro H3. rewrite Hconf, H3.
    repeat split; intros ->; reflexivity.
Qed.

Lemma C1_confidence_witness :
  exists agg,
    createAggregatedWeather Samples.twoTemperatures = Ok agg /\
    a_confidence agg = ofZ 67.
Proof.
  destruct (C1_confidence Samples.twoTemperatures)
    as (agg & Hagg & _ & _ & H3); [discriminate|].
  exists agg. split; [exact Hagg|].
  apply (H3 eq_refl). reflexivity.
Defined.

(** C1 as stated fails: of three attempted sources one answers (with a
    temperature) and two fail; the confidence is 100, not 33. *)
Lemma C1_counterexample :
  exists data w,
    fetchWeatherForLocation Samples.london (Throw "unused")
      (Fulfilled (Samples.fullReading "openweather" 22))
      (Rejected "timeout of 10000ms exceeded")
      (Rejected "timeout of 10000ms exceeded")
      "2024-01-01T12:00:05.000Z" 1704110405000 Samples.quietWorld
    = (Ok data, w) /\
    a_confidence (aggregated data) = ofZ 100 /\
    a_confidence (aggregated data) <> ofZ 33.
Proof.
  eexists. eexists. split; [vm_compute; reflexivity|].
  split; [reflexivity|]. vm_compute. discriminate.
Qed.

(** C2 at the failing input: three readings with a temperature, of which the
    first has no wind direction.  The wind directions present are 90 and 90
    (mean 90); the code divides their sum by the number of temperatures and
    reports 60.  Where every metric is present in every reading the result is
    the rounded mean: temperatures 22, 24 and 23.5 give 23.2, that is
    [116 # 5]. *)
Theorem C2_divisor_is_temperature_count :
  (exists agg,
      createAggregatedWeather Samples.calmSources = Ok agg /\
      a_windDirection agg = ofZ 60 /\
      a_windDirection agg <> ofZ 90) /\
  (exists agg,
      createAggregatedWeather Samples.threeReadings = Ok agg /\
      a_temperature agg = Fin (116 # 5)%Q /\
      a_windDirection agg = ofZ 90).
Proof.
  split; eexists; (split; [vm_compute; reflexivity|]).
  - split; [reflexivity|]. vm_compute. discriminate.
  - split; reflexivity.
Qed.

(** C9.  When none of the three sources produced a reading,
    [createAggregatedWeather] throws, [fetchWeatherForLocation] fails,
    nothing is written to the sink and no aggregate is returned; with the
    location resolved the error is the no-data error. *)
Theorem C9_no_reading_no_aggregate :
  createAggregatedWeather [] = Throw noDataMessage /\
  (forall location geo e0 e1 e2 timestamp nowMs w,
      exists message w',
        fetchWeatherForLocation location geo
          (Rejected e0) (Rejected e1) (Rejected e2) timestamp nowMs w
        = (Throw message, w') /\
        db w' = db w) /\
  (forall id name lat lon geo e0 e1 e2 timestamp nowMs w,
      fst (fetchWeatherForLocation (ByObject id name lat lon) geo
             (Rejected e0) (Rejected e1) (Rejected e2) timestamp nowMs w)
      = Throw noDataMessage) /\
  (forall name g e0 e1 e2 timestamp nowMs w,
      fst (fetchWeatherForLocation (ByName name) (Ok g)
             (Rejected e0) (Rejected e1) (Rejected e2) timestamp nowMs w)
      = Throw noDataMessage).
Proof.
  repeat split.
  - intros location geo e0 e1 e2 timestamp nowMs w.
    destruct location as [n|id n lat lon]; [destruct geo as [g|e]|];
      do 2 eexists; (split; [reflexivity|reflexivity]).
Qed.

(** C10 (as the code has it).  With readings but no temperature among them
    nothing is thrown: the temperature is [NaN] (zero divided by zero), every
    other averaged field is its sum divided by zero and so not a finite
    number ([NaN] or an infinity), and the confidence is 0 (zero valid
    sources divided by the non-zero number of readings). *)
Theorem C10_no_temperature (sources : list (string * Reading)) :
  sources <> [] ->
  (forall s, In s sources -> r_temperature (snd s) = JUndef) ->
  exists agg,
    createAggregatedWeather sources = Ok agg /\
    a_temperature agg = NaN /\
    a_confidence agg = ofZ 0 /\
    isFinite (a_humidity agg) = false /\
    isFinite (a_pressure agg) = false /\
    isFinite (a_windSpeed agg) = false /\
    isFinite (a_windDirection agg) = false /\
    isFinite (a_visibility agg) = false /\
    isFinite (a_cloudiness agg) = false.
Proof.
  intros Hne Hundef.
  assert (Hcount : temperatureCount sources = 0%nat).
  { unfold temperatureCount. clear Hne.
    induction sources as [|s l IH]; [reflexivity|]. simpl.
    unfold hasTemperature at 1. rewrite (Hundef s) by (left; reflexivity).
    simpl. apply IH. intros s' Hs'. apply Hundef. now right. }
  destruct (confidence_formula sources Hne) as (agg & Hagg & Hconf).
  exists agg. split; [assumption|].
  rewrite createAggregatedWeather_nonempty in Hagg by assumption.
  cbv zeta in Hagg. injection Hagg as <-.
  rewrite validSources_fold, temperatureCount_values, Hcount in *.
  change (ofNat (validSources initialSums + 0)) with (Fin 0) in *.
  cbn [a_temperature a_confidence a_humidity a_pressure a_windSpeed
       a_windDirection a_visibility a_cloudiness] in *.
  split.
  { rewrite tempSum_fold_undefined.
    - reflexivity.
    - apply Forall_forall. intros r Hr. unfold objValues in Hr.
      apply in_map_iff in Hr. destruct Hr as (s & <- & Hs). now apply Hundef. }
  split.
  { rewrite Hconf. f_equal.
    transitivity (roundHalfUp 0); [apply roundHalfUp_comp|reflexivity].
    simpl inject_Z. unfold Qdiv. ring. }
  repeat split;
    try (apply isFinite_mathRound, isFinite_div_zero);
    rewrite round1_not_finite; apply isFinite_div_zero.
Qed.

Lemma C10_no_temperature_witness :
  exists agg,
    createAggregatedWeather [("weatherapi", Samples.humidityOnly)] = Ok agg /\
    a_temperature agg = NaN /\
    a_confidence agg = ofZ 0.
Proof.
  destruct (C10_no_temperature [("weatherapi", Samples.humidityOnly)])
    as (agg & Hagg & Htemp & Hconf & _).
  - discriminate.
  - intros s [<- | []]. reflexivity.
  - exists agg. auto.
Defined.

(** C10 as stated fails on the confidence and on the parenthesis: for a
    single reading that has a humidity and no temperature the confidence is
    the finite number 0, and the humidity is [+Infinity], not [NaN]. *)
Lemma C10_counterexample :
  exists agg,
    createAggregatedWeather [("weatherapi", Samples.humidityOnly)] = Ok agg /\
    a_confidence agg = ofZ 0 /\
    isFinite (a_confidence agg) = true /\
    a_humidity agg = PInf /\
    a_humidity agg <> NaN.
Proof.
  eexists. split; [vm_compute; reflexivity|].
  repeat split. discriminate.
Qed.

(** C6 (as the code has it).  [storeWeatherData] logs a failed write and
    throws the error again.  For every location that is resolved (an object
    of the batch, or a name that the geocoder found): when at least one
    source answered, so that the aggregate exists, and the sink rejects the
    write, [fetchWeatherForLocation] fails with the sink's error, the failure
    is on the console, nothing is stored and no aggregate is returned. *)
Theorem C6_sink_failure_is_rethrown
  (location : Location) (geo : result GeoData)
  (r0 r1 r2 : settled Reading) (timestamp : string) (nowMs : Z)
  (w : World Item) (e : string) :
  (forall name, location = ByName name -> exists g, geo = Ok g) ->
  putFails w = Some e ->
  (exists v, r0 = Fulfilled v \/ r1 = Fulfilled v \/ r2 = Fulfilled v) ->
  exists w',
    fetchWeatherForLocation location geo r0 r1 r2 timestamp nowMs w
    = (Throw e, w') /\
    db w' = db w /\
    In ("DynamoDB storage failed: " ++ e) (console w').
Proof.
  intros Hgeo Hput (v & Hv).
  destruct w as [d c pf]. simpl in Hput. subst pf.
  destruct location as [name | id name lat lon];
    [destruct (Hgeo name eq_refl) as (g & ->) |];
    destruct r0 as [v0|e0], r1 as [v1|e1], r2 as [v2|e2];
    try (exfalso; destruct Hv as [Hv | [Hv | Hv]]; discriminate);
    (eexists; split; [cbv -[String.append]; reflexivity|];
     split; [reflexivity|]);
    simpl; rewrite !in_app_iff; simpl; tauto.
Qed.

Lemma C6_sink_failure_is_rethrown_witness :
  exists w',
    fetchWeatherForLocation (ByName "London")
      (Ok (mkGeoData "london" "London" (515074 # 10000) (- (1278 # 10000))))
      (Fulfilled (Samples.fullReading "openweather" 22))
      (Rejected "timeout of 10000ms exceeded")
      (Fulfilled (Samples.fullReading "accuweather" 23))
      "2024-01-01T12:00:05.000Z" 1704110405000 Samples.failingSink
    = (Throw "ProvisionedThroughputExceededException", w') /\
    db w' = [] /\
    In "DynamoDB storage failed: ProvisionedThroughputExceededException"
      (console w').
Proof.
  apply (C6_sink_failure_is_rethrown (ByName "London")
           (Ok (mkGeoData "london" "London" (515074 # 10000)
                  (- (1278 # 10000))))
           (Fulfilled (Samples.fullReading "openweather" 22))
           (Rejected "timeout of 10000ms exceeded")
           (Fulfilled (Samples.fullReading "accuweather" 23))
           "2024-01-01T12:00:05.000Z" 1704110405000 Samples.failingSink
           "ProvisionedThroughputExceededException").
  - intros name _. eexists. reflexivity.
  - reflexivity.
  - exists (Samples.fullReading "openweather" 22). left. reflexivity.
Defined.

(** C6 as stated fails: all three sources answer, the aggregate exists, the
    sink rejects the write, and the fetch for the location fails. *)
Lemma C6_counterexample :
  (exists agg, createAggregatedWeather Samples.threeReadings = Ok agg) /\
  fst (fetchWeatherForLocation Samples.london (Throw "unused")
         (Fulfilled (Samples.fullReading "openweather" 22))
         (Fulfilled (Samples.fullReading "weatherapi" 24))
         (Fulfilled (Samples.fullReading "accuweather" (47 # 2)))
         "2024-01-01T12:00:05.000Z" 1704110405000 Samples.failingSink)
  = Throw "ProvisionedThroughputExceededException".
Proof.
  split; [eexists; vm_compute; reflexivity|]. vm_compute. reflexivity.
Qed.

End ProviderClaims.

(** ** Claims about the cross-cloud aggregation *)

Section AggregatorClaims.

Import Aggregator.
Local Open Scope string_scope.
Local Open Scope list_scope.
Local Open Scope Q_scope.

Lemma max2_Fin (a b : Q) :
  max2 (Fin a) (Fin b) = Fin (if Qle_bool a b then b else a).
Proof. unfold max2, leb. destruct (Qle_bool a b); reflexivity. Qed.

Lemma min2_Fin (a b : Q) :
  min2 (Fin a) (Fin b) = Fin (if Qle_bool a b then a else b).
Proof. unfold min2, leb. destruct (Qle_bool a b); reflexivity. Qed.

Lemma Qle_bool_false (a b : Q) : Qle_bool a b = false -> b <= a.
Proof.
  intro H. apply Qlt_le_weak, Qnot_le_lt. intro L.
  apply Qle_bool_iff in L. congruence.
Qed.

Lemma fold_max_finite (ts : list Q) (a : Q) :
  exists b,
    fold_left (fun m v => max2 m (toNumber v)) (map finite ts) (Fin a)
    = Fin b /\
    (b = a \/ In b ts) /\ a <= b /\ (forall x, In x ts -> x <= b).
Proof.
  revert a. induction ts as [|t ts IH]; intro a; cbn [map fold_left].
  - exists a. repeat split; auto using Qle_refl. intros x [].
  - cbn [finite toNumber]. rewrite max2_Fin. destruct (Qle_bool a t) eqn:E.
    + apply Qle_bool_iff in E.
      destruct (IH t) as (b & Hb & Hin & Hle & Hub).
      exists b. split; [exact Hb|]. split; [|split].
      * right. destruct Hin as [-> | Hin]; [left|right]; auto.
      * eapply Qle_trans; eauto.
      * intros x [<- | Hx]; auto.
    + apply Qle_bool_false in E.
      destruct (IH a) as (b & Hb & Hin & Hle & Hub).
      exists b. split; [exact Hb|]. split; [|split].
      * destruct Hin as [-> | Hin]; [left|right; right]; auto.
      * exact Hle.
      * intros x [<- | Hx]; auto. eapply Qle_trans; eauto.
Qed.

Lemma fold_min_finite (ts : list Q) (a : Q) :
  exists b,
    fold_left (fun m v => min2 m (toNumber v)) (map finite ts) (Fin a)
    = Fin b /\
    (b = a \/ In b ts) /\ b <= a /\ (forall x, In x ts -> b <= x).
Proof.
  revert a. induction ts as [|t ts IH]; intro a; cbn [map fold_left].
  - exists a. repeat split; auto using Qle_refl. intros x [].
  - cbn [finite toNumber]. rewrite min2_Fin. destruct (Qle_bool a t) eqn:E.
    + apply Qle_bool_iff in E.
      destruct (IH a) as (b & Hb & Hin & Hle & Hlb).
      exists b. split; [exact Hb|]. split; [|split].
      * destruct Hin as [-> | Hin]; [left|right; right]; auto.
      * exact Hle.
      * intros x [<- | Hx]; auto. eapply Qle_trans; eauto.
    + apply Qle_bool_false in E.
      destruct (IH t) as (b & Hb & Hin & Hle & Hlb).
      exists b. split; [exact Hb|]. split; [|split].
      * right. destruct Hin as [-> | Hin]; [left|right]; auto.
      * eapply Qle_trans; eauto.
      * intros x [<- | Hx]; auto.
Qed.

(** [Math.max] and [Math.min] of a non-empty list of finite numbers are
    members of the list that bound it. *)
Lemma mathMax_finite (ts : list Q) :
  ts <> [] ->
  exists hi,
    mathMax (map finite ts) = Fin hi /\
    In hi ts /\ (forall x, In x ts -> x <= hi).
Proof.
  destruct ts as [|t ts]; [congruence|]. intros _.
  unfold mathMax. cbn [map fold_left finite toNumber max2 leb].
  destruct (fold_max_finite ts t) as (b & Hb & Hin & Hle & Hub).
  exists b. split; [exact Hb|]. split.
  - destruct Hin as [-> | Hin]; [left|right]; auto.
  - intros x [<- | Hx]; auto.
Qed.

Lemma mathMin_finite (ts : list Q) :
  ts <> [] ->
  exists lo,
    mathMin (map finite ts) = Fin lo /\
    In lo ts /\ (forall x, In x ts -> lo <= x).
Proof.
  destruct ts as [|t ts]; [congruence|]. intros _.
  unfold mathMin. cbn [map fold_left finite toNumber min2 leb].
  destruct (fold_min_finite ts t) as (b & Hb & Hin & Hle & Hlb).
  exists b. split; [exact Hb|]. split.
  - destruct Hin as [-> | Hin]; [left|right]; auto.
  - intros x [<- | Hx]; auto.
Qed.

(** The spread of a non-empty list of finite temperatures. *)
Lemma tempRange_finite (ts : list Q) (hi lo : Q) :
  In hi ts -> In lo ts -> (forall x, In x ts -> lo <= x /\ x <= hi) ->
  exists r, tempRange (map finite ts) = Fin r /\ r == hi - lo.
Proof.
  intros Hhi Hlo Hbound.
  assert (Hne : ts <> []) by (destruct ts; [destruct Hhi|congruence]).
  destruct (mathMax_finite ts Hne) as (hi' & Emax & Hin & Hub).
  destruct (mathMin_finite ts Hne) as (lo' & Emin & Hin' & Hlb).
  unfold tempRange. rewrite Emax, Emin. cbn [sub].
  eexists. split; [reflexivity|]. rewrite Qred_correct.
  assert (hi' == hi).
  { apply Qle_antisym; [apply Hbound; assumption | apply Hub; assumption]. }
  assert (lo' == lo).
  { apply Qle_antisym; [apply Hlb; assumption | apply Hbound; assumption]. }
  lra.
Qed.

Lemma tempValues_length (dataPoints : list Point) :
  (List.length (tempValues dataPoints) <= List.length dataPoints)%nat.
Proof.
  unfold tempValues. rewrite <- (length_map p_temperature dataPoints).
  apply filter_length_le.
Qed.

(** C5 at the failing input: two providers report 18 and 22 degrees.  The
    agreement is computed and equals 0, the availability is 100, and the
    mean of the two is 50; the code reports an overall reliability of 100,
    because [0 || 100] is 100. *)
Theorem C5_zero_agreement_is_replaced :
  calculateReliability [Samples.point 18; Samples.point 22] 2
  = mkReliability (ofZ 100) (JNum (ofZ 0)) (ofZ 100) /\
  overall (calculateReliability [Samples.point 18; Samples.point 22] 2)
  <> mathRound (div (add (ofZ 100) (ofZ 0)) (ofZ 2)).
Proof.
  split; [reflexivity|]. vm_compute. discriminate.
Qed.

Lemma metric_eqb_eq (a b : metric) : metric_eqb a b = true <-> a = b.
Proof. destruct a, b; simpl; split; congruence. Qed.

(** *** Freshness *)

Lemma fold_ages (now : Z) (ts : list Z) (a : Q) :
  exists b,
    fold_left (fun sum timestamp => add sum (ofZ (now - timestamp))) ts (Fin a)
    = Fin b /\ b == a + inject_Z (Stats.totalAge now ts).
Proof.
  revert a. induction ts as [|t ts IH]; intro a; cbn [fold_left].
  - exists a. split; [reflexivity|]. simpl. ring.
  - unfold ofZ at 1. cbn [add].
    destruct (IH (Qred (a + inject_Z (now - t)))) as (b & Hb & Hs).
    exists b. split; [exact Hb|]. rewrite Hs, Qred_correct.
    cbn [Stats.totalAge fold_right]. fold (Stats.totalAge now ts).
    rewrite inject_Z_plus. ring.
Qed.

(** The rounded number of minutes compared by [calculateDataFreshness]. *)
Lemma freshness_minutes (now : Z) (ts : list Z) :
  ts <> [] ->
  mathRound (div (averageAge now ts) (ofZ (1000 * 60))) =
  ofZ (roundHalfUp (Stats.averageAgeMinutes now ts)).
Proof.
  intro Hne. unfold averageAge.
  destruct (fold_ages now ts 0) as (b & Hb & Hs). rewrite Hb.
  unfold ofNat, ofZ.
  rewrite div_Fin
    by (apply inject_Z_pos_nonzero; destruct ts; simpl; congruence).
  rewrite div_Fin by discriminate.
  cbn [mathRound]. unfold ofZ. do 2 f_equal. apply roundHalfUp_comp.
  rewrite !Qred_correct, Hs. unfold Stats.averageAgeMinutes.
  change (inject_Z (1000 * 60)) with 60000. rewrite Qplus_0_l. reflexivity.
Qed.

(** [Math.round q < k] holds exactly when [q < k - 1/2]. *)
Lemma roundHalfUp_ltb (q : Q) (k : Z) :
  (roundHalfUp q <? k)%Z = Qltb q (inject_Z k - (1 # 2)).
Proof.
  unfold roundHalfUp.
  pose proof (Qfloor_le (q + (1 # 2))) as Hlo.
  pose proof (Qlt_floor (q + (1 # 2))) as Hhi.
  destruct (Qltb q (inject_Z k - (1 # 2))) eqn:E.
  - apply Qltb_true in E. apply Z.ltb_lt. rewrite Zlt_Qlt. lra.
  - apply Qltb_false in E. apply Z.ltb_ge.
    assert (H : inject_Z k < inject_Z (Qfloor (q + (1 # 2)) + 1)) by lra.
    rewrite <- Zlt_Qlt in H. lia.
Qed.

(** C8 (as the code has it).  The classification is decided by the average
    age rounded to whole minutes (halves up), so the boundaries lie half a
    minute below 5, 15 and 60: an average age below 4.5 minutes is
    very-fresh, from 4.5 to below 14.5 fresh, from 14.5 to below 59.5
    moderate, and from 59.5 on stale; without a parsable timestamp the
    result is unknown. *)
Theorem C8_freshness (cloudData : CloudData) (now : Z) :
  (parsedTimestamps cloudData = [] ->
   calculateDataFreshness cloudData now = "unknown") /\
  (parsedTimestamps cloudData <> [] ->
   let age := Stats.averageAgeMinutes now (parsedTimestamps cloudData) in
   (age < 9 # 2 -> calculateDataFreshness cloudData now = "very-fresh") /\
   (9 # 2 <= age -> age < 29 # 2 ->
    calculateDataFreshness cloudData now = "fresh") /\
   (29 # 2 <= age -> age < 119 # 2 ->
    calculateDataFreshness cloudData now = "moderate") /\
   (119 # 2 <= age -> calculateDataFreshness cloudData now = "stale")).
Proof.
  unfold calculateDataFreshness. split.
  - intros ->. reflexivity.
  - intros Hne. cbv zeta.
    replace (Nat.eqb (List.length (parsedTimestamps cloudData)) 0) with false
      by (destruct (parsedTimestamps cloudData); [congruence|reflexivity]).
    rewrite freshness_minutes by assumption.
    set (age := Stats.averageAgeMinutes now (parsedTimestamps cloudData)).
    rewrite !lt_ofZ, !roundHalfUp_ltb.
    change (inject_Z 5 - (1 # 2)) with ((5 # 1) - (1 # 2)).
    change (inject_Z 15 - (1 # 2)) with ((15 # 1) - (1 # 2)).
    change (inject_Z 60 - (1 # 2)) with ((60 # 1) - (1 # 2)).
    destruct (Qltb age ((5 # 1) - (1 # 2))) eqn:E5;
      destruct (Qltb age ((15 # 1) - (1 # 2))) eqn:E15;
      destruct (Qltb age ((60 # 1) - (1 # 2))) eqn:E60;
      repeat match goal with
             | H : Qltb _ _ = true |- _ => apply Qltb_true in H
             | H : Qltb _ _ = false |- _ => apply Qltb_false in H
             end;
      repeat split; intros; try reflexivity; exfalso; lra.
Qed.

Lemma C8_freshness_witness :
  calculateDataFreshness
    [("aws", Samples.providerAt 0); ("azure", Samples.providerAt 60000)]
    240000
  = "very-fresh".
Proof.
  apply (proj2 (C8_freshness
                  [("aws", Samples.providerAt 0);
                   ("azure", Samples.providerAt 60000)] 240000)).
  - discriminate.
  - reflexivity.
Defined.

(** C8 as stated fails: a single provider observed four and a half minutes
    ago has an average age below 5 minutes and is classified fresh, not
    very-fresh. *)
Lemma C8_counterexample :
  Stats.averageAgeMinutes 270000
    (parsedTimestamps [("aws", Samples.providerAt 0)]) < 5 /\
  calculateDataFreshness [("aws", Samples.providerAt 0)] 270000 = "fresh".
Proof.
  split; reflexivity.
Qed.

(** *** Total failure *)

(** When every settled result is a rejection, no provider enters
    [cloudData] and the sink is not touched. *)
Lemma processResults_all_rejected
  (results : list (settled ProviderResult)) (cloudProviders : list string)
  (index : nat) (errors : list (string * string)) (w : World Item) :
  Forall (fun r => exists e, r = Rejected e) results ->
  exists errors' w',
    processResults results cloudProviders index [] errors w
    = (Ok ([], errors'), w') /\
    db w' = db w.
Proof.
  intro H. revert index errors w.
  induction H as [|r results (e & ->) _ IH]; intros index errors w.
  - do 2 eexists. split; reflexivity.
  - cbn [processResults]. unfold bind at 1. cbn [say].
    destruct (IH (S index)
                (objSet errors (nth index cloudProviders "undefined") e)
                (log (String.append (nth index cloudProviders "undefined")
                        (String.append " failed: " e)) w))
      as (errors' & w' & E & Hdb).
    exists errors', w'. split; [exact E|]. exact Hdb.
Qed.

Lemma handler_all_rejected (event : Event) (e1 e2 e3 : string)
  (timestamp : string) (clock : Clock) (w : World Item) :
  exists w',
    handler event (Rejected e1) (Rejected e2) (Rejected e3) timestamp clock w
    = (createResponse 500
         (FailureBody noProviderMessage timestamp
            (endTime clock - startTime clock)), w') /\
    db w' = db w.
Proof.
  unfold handler. cbv zeta.
  set (cloudProviders :=
         match ev_providers event with
         | Some l => l
         | None => ["aws"; "azure"; "gcp"]
         end).
  set (cloudPromises :=
         (if includes cloudProviders "aws" then [Rejected e1] else []) ++
         (if includes cloudProviders "azure" then [Rejected e2] else []) ++
         (if includes cloudProviders "gcp" then [Rejected e3] else [])).
  assert (Hall : Forall (fun r : settled ProviderResult =>
                           exists e, r = Rejected e) cloudPromises).
  { unfold cloudPromises.
    destruct (includes cloudProviders "aws"),
      (includes cloudProviders "azure"), (includes cloudProviders "gcp");
      simpl; repeat constructor; eexists; reflexivity. }
  unfold bind at 1. cbn [say]. unfold bind at 1. cbn [say].
  unfold bind at 1.
  match goal with
  | |- context [processResults cloudPromises cloudProviders 0 [] [] ?w0] =>
      destruct (processResults_all_rejected cloudPromises cloudProviders 0
                  [] w0 Hall) as (errors' & w' & E & Hdb);
      rewrite E
  end.
  unfold bind at 1. cbn [lift createCrossCloudAggregation objKeys map
                          List.length Nat.eqb].
  eexists. split; [reflexivity|]. exact Hdb.
Qed.

(** C3.  When every provider fails, that is, every settled result of the
    request is a rejection, the aggregation has nothing to aggregate and
    throws; the handler answers with status 500 and the error
    [noProviderMessage] in a body that has no place for a reading, and it
    writes nothing to the sink.  This holds for every request: whatever the
    location, the list of providers and the state of the sink. *)
Theorem C3_total_failure :
  (forall timestamp includeRaw now,
      createCrossCloudAggregation [] timestamp includeRaw now
      = Throw noProviderMessage) /\
  (forall event e1 e2 e3 timestamp clock w,
      exists w',
        handler event (Rejected e1) (Rejected e2) (Rejected e3)
          timestamp clock w
        = (createResponse 500
             (FailureBody noProviderMessage timestamp
                (endTime clock - startTime clock)), w') /\
        db w' = db w).
Proof.
  split.
  - reflexivity.
  - intros. apply handler_all_rejected.
Qed.

End AggregatorClaims.

(** ** Binary64 numbers: order, maximum and minimum *)

Section Binary64Facts.

Import Binary64.
Local Open Scope float_scope.

Lemma SFcompare_refl (f : spec_float) :
  f <> S754_nan -> SFcompare f f = Some Eq.
Proof.
  destruct f as [s | s | | s m e]; intros H; try congruence.
  - reflexivity.
  - destruct s; reflexivity.
  - cbn. rewrite Z.compare_refl.
    change (Pos.compare_cont Eq m m) with (Pos.compare m m).
    rewrite Pos.compare_refl. destruct s; reflexivity.
Qed.

Lemma SFcompare_antisym (a b : spec_float) :
  SFcompare b a = option_map CompOpp (SFcompare a b).
Proof.
  destruct a as [sa | sa | | sa ma ea], b as [sb | sb | | sb mb eb];
    cbn; try reflexivity;
    try (destruct sa; reflexivity); try (destruct sb; reflexivity);
    try (destruct sa, sb; reflexivity).
  change (Pos.compare_cont Eq mb ma) with (Pos.compare mb ma).
  change (Pos.compare_cont Eq ma mb) with (Pos.compare ma mb).
  rewrite (Z.compare_antisym ea eb), (Pos.compare_antisym ma mb).
  destruct sa, sb; cbn; try reflexivity;
    destruct (ea ?= eb)%Z; cbn; try reflexivity;
    destruct (ma ?= mb)%positive; reflexivity.
Qed.

Lemma SFcompare_some (a b : spec_float) :
  a <> S754_nan -> b <> S754_nan -> exists c, SFcompare a b = Some c.
Proof.
  destruct a, b; intros Ha Hb; try congruence; cbn; eexists; reflexivity.
Qed.

Lemma SFleb_trans (a b c : spec_float) :
  SFleb a b = true -> SFleb b c = true -> SFleb a c = true.
Proof.
  unfold SFleb.
  destruct a as [sa | sa | | sa ma ea], b as [sb | sb | | sb mb eb],
    c as [sc | sc | | sc mc ec]; cbn;
    try discriminate; try reflexivity;
    try (destruct sa; cbn; try discriminate; try reflexivity; fail);
    try (destruct sb; cbn; try discriminate; try reflexivity; fail);
    try (destruct sc; cbn; try discriminate; try reflexivity; fail);
    try (destruct sa, sb; cbn; try discriminate; try reflexivity; fail);
    try (destruct sa, sc; cbn; try discriminate; try reflexivity; fail);
    try (destruct sb, sc; cbn; try discriminate; try reflexivity; fail);
    try (destruct sa, sb, sc; cbn; try discriminate; try reflexivity; fail).
  change (Pos.compare_cont Eq ma mb) with (Pos.compare ma mb).
  change (Pos.compare_cont Eq mb mc) with (Pos.compare mb mc).
  change (Pos.compare_cont Eq ma mc) with (Pos.compare ma mc).
  destruct sa, sb, sc; cbn; try discriminate; try reflexivity;
    destruct (Z.compare_spec ea eb), (Z.compare_spec eb ec),
      (Z.compare_spec ea ec); cbn; try discriminate; try reflexivity;
      try lia;
    destruct (Pos.compare_spec ma mb), (Pos.compare_spec mb mc),
      (Pos.compare_spec ma mc); cbn; try discriminate; try reflexivity;
      try lia.
Qed.

Lemma is_nan_false (x : float) :
  is_nan x = false <-> Prim2SF x <> S754_nan.
Proof.
  unfold is_nan. rewrite eqb_spec. unfold SFeqb. split.
  - intros H E. rewrite E in H. discriminate.
  - intros H. rewrite (SFcompare_refl _ H). reflexivity.
Qed.

Lemma leb_not_nan (x y : float) :
  (x <=? y) = true -> is_nan x = false /\ is_nan y = false.
Proof.
  rewrite leb_spec, !is_nan_false. unfold SFleb.
  destruct (Prim2SF x), (Prim2SF y); cbn; try discriminate;
    intros _; split; discriminate.
Qed.

Lemma leb_refl (x : float) : is_nan x = false -> (x <=? x) = true.
Proof.
  rewrite is_nan_false, leb_spec. intros H. unfold SFleb.
  rewrite (SFcompare_refl _ H). reflexivity.
Qed.

Lemma leb_trans (x y z : float) :
  (x <=? y) = true -> (y <=? z) = true -> (x <=? z) = true.
Proof. rewrite !leb_spec. apply SFleb_trans. Qed.

Lemma ltb_leb (x y : float) : (x <? y) = true -> (x <=? y) = true.
Proof.
  rewrite ltb_spec, leb_spec. unfold SFltb, SFleb.
  destruct (SFcompare (Prim2SF x) (Prim2SF y)) as [[| |] |];
    try discriminate; reflexivity.
Qed.

Lemma ltb_false_leb (x y : float) :
  is_nan x = false -> is_nan y = false ->
  (x <? y) = false -> (y <=? x) = true.
Proof.
  rewrite !is_nan_false, ltb_spec, leb_spec. intros Hx Hy.
  unfold SFltb, SFleb. rewrite (SFcompare_antisym (Prim2SF x) (Prim2SF y)).
  destruct (SFcompare_some _ _ Hx Hy) as [c ->].
  destruct c; cbn; try discriminate; reflexivity.
Qed.

Lemma eqb_leb (x y : float) :
  (x =? y) = true -> (x <=? y) = true /\ (y <=? x) = true.
Proof.
  rewrite eqb_spec, !leb_spec. unfold SFeqb, SFleb.
  rewrite (SFcompare_antisym (Prim2SF x) (Prim2SF y)).
  destruct (SFcompare (Prim2SF x) (Prim2SF y)) as [[| |] |];
    try discriminate; split; reflexivity.
Qed.

Lemma zeros_leb (x y : float) :
  is_zero x = true -> is_zero y = true -> (x <=? y) = true.
Proof.
  unfold is_zero. intros Hx Hy.
  apply (leb_trans x zero y).
  - apply (eqb_leb _ _ Hx).
  - apply (eqb_leb _ _ Hy).
Qed.

(** [Math.round] at some values: halves go up, also below zero; between
    -0.5 and 0 the result is [-0]; the largest number below one half goes
    to 0; integers, infinities and [NaN] are left as they are. *)
Lemma mathRound_examples :
  map mathRound
    [2.5; -2.5; 0.5; -0.5; -0.2; 0.49999999999999994; 1.4999999999999998;
     97.49999999999997; 97.5; 4503599627370497; -0; infinity; nan]
  = [3; -2; 1; -0; -0; 0; 1; 97; 98; 4503599627370497; -0; infinity; nan].
Proof. vm_compute. reflexivity. Qed.

(** A step of [Math.max] on two numbers keeps one of them, and one that is
    not below the other. *)
Lemma max2_spec (highest number : float) :
  is_nan highest = false -> is_nan number = false ->
  (max2 highest number = highest \/ max2 highest number = number) /\
  (highest <=? max2 highest number) = true /\
  (number <=? max2 highest number) = true.
Proof.
  intros Hh Hn. unfold max2. rewrite Hh, Hn. cbn [orb].
  destruct (isPositiveZero number && isNegativeZero highest) eqn:Hz.
  - apply andb_true_iff in Hz. destruct Hz as [Hz1 Hz2].
    apply andb_true_iff in Hz1. apply andb_true_iff in Hz2.
    split; [right; reflexivity | split].
    + apply zeros_leb; [apply Hz2 | apply Hz1].
    + apply leb_refl, Hn.
  - destruct (highest <? number) eqn:Hlt.
    + split; [right; reflexivity | split].
      * apply ltb_leb, Hlt.
      * apply leb_refl, Hn.
    + split; [left; reflexivity | split].
      * apply leb_refl, Hh.
      * apply ltb_false_leb; assumption.
Qed.

Lemma min2_spec (lowest number : float) :
  is_nan lowest = false -> is_nan number = false ->
  (min2 lowest number = lowest \/ min2 lowest number = number) /\
  (min2 lowest number <=? lowest) = true /\
  (min2 lowest number <=? number) = true.
Proof.
  intros Hl Hn. unfold min2. rewrite Hl, Hn. cbn [orb].
  destruct (isNegativeZero number && isPositiveZero lowest) eqn:Hz.
  - apply andb_true_iff in Hz. destruct Hz as [Hz1 Hz2].
    apply andb_true_iff in Hz1. apply andb_true_iff in Hz2.
    split; [right; reflexivity | split].
    + apply zeros_leb; [apply Hz1 | apply Hz2].
    + apply leb_refl, Hn.
  - destruct (number <? lowest) eqn:Hlt.
    + split; [right; reflexivity | split].
      * apply ltb_leb, Hlt.
      * apply leb_refl, Hn.
    + split; [left; reflexivity | split].
      * apply leb_refl, Hl.
      * apply ltb_false_leb; assumption.
Qed.

Lemma max2_neg_infinity (number : float) :
  is_nan number = false -> max2 neg_infinity number = number.
Proof.
  intros Hn. unfold max2. rewrite Hn.
  change (is_nan neg_infinity) with false.
  change (isNegativeZero neg_infinity) with false.
  rewrite andb_false_r. cbn [orb].
  destruct (neg_infinity <? number) eqn:Hlt; [reflexivity |].
  apply Prim2SF_inj. apply is_nan_false in Hn.
  rewrite ltb_spec in Hlt. unfold SFltb in Hlt.
  change (Prim2SF neg_infinity) with (S754_infinity true) in *.
  destruct (Prim2SF number) as [s | s | | s m e]; cbn in Hlt;
    try discriminate; try congruence.
  destruct s; [reflexivity | discriminate].
Qed.

Lemma min2_infinity (number : float) :
  is_nan number = false -> min2 infinity number = number.
Proof.
  intros Hn. unfold min2. rewrite Hn.
  change (is_nan infinity) with false.
  change (isPositiveZero infinity) with false.
  rewrite andb_false_r. cbn [orb].
  destruct (number <? infinity) eqn:Hlt; [reflexivity |].
  apply Prim2SF_inj. apply is_nan_false in Hn.
  rewrite ltb_spec in Hlt. unfold SFltb in Hlt.
  change (Prim2SF infinity) with (S754_infinity false) in *.
  destruct (Prim2SF number) as [s | s | | s m e]; cbn in Hlt;
    try discriminate; try congruence.
  destruct s; [discriminate | reflexivity].
Qed.

Lemma fold_max2 (values : list value) :
  Forall notNaN values ->
  forall highest, is_nan highest = false ->
  let result :=
    fold_left (fun highest v => max2 highest (toNumber v)) values highest in
  (result = highest \/ In result (map toNumber values)) /\
  (highest <=? result) = true /\
  (forall x, In x (map toNumber values) -> (x <=? result) = true).
Proof.
  induction 1 as [| v values Hv Hvs IH]; intros highest Hh; cbn.
  - split; [left; reflexivity | split; [apply leb_refl, Hh | tauto]].
  - destruct (max2_spec highest (toNumber v) Hh Hv) as (Hor & Hle1 & Hle2).
    assert (Hm : is_nan (max2 highest (toNumber v)) = false)
      by (apply (leb_not_nan _ _ Hle1)).
    destruct (IH _ Hm) as (Hin & Hle & Hall).
    split; [| split].
    + destruct Hin as [-> | Hin]; [| right; right; exact Hin].
      destruct Hor as [-> | ->]; [left; reflexivity | right; left; reflexivity].
    + apply (leb_trans _ _ _ Hle1 Hle).
    + intros x [<- | Hx]; [apply (leb_trans _ _ _ Hle2 Hle) | apply Hall, Hx].
Qed.

Lemma fold_min2 (values : list value) :
  Forall notNaN values ->
  forall lowest, is_nan lowest = false ->
  let result :=
    fold_left (fun lowest v => min2 lowest (toNumber v)) values lowest in
  (result = lowest \/ In result (map toNumber values)) /\
  (result <=? lowest) = true /\
  (forall x, In x (map toNumber values) -> (result <=? x) = true).
Proof.
  induction 1 as [| v values Hv Hvs IH]; intros lowest Hl; cbn.
  - split; [left; reflexivity | split; [apply leb_refl, Hl | tauto]].
  - destruct (min2_spec lowest (toNumber v) Hl Hv) as (Hor & Hle1 & Hle2).
    assert (Hm : is_nan (min2 lowest (toNumber v)) = false)
      by (apply (leb_not_nan _ _ Hle1)).
    destruct (IH _ Hm) as (Hin & Hle & Hall).
    split; [| split].
    + destruct Hin as [-> | Hin]; [| right; right; exact Hin].
      destruct Hor as [-> | ->]; [left; reflexivity | right; left; reflexivity].
    + apply (leb_trans _ _ _ Hle Hle1).
    + intros x [<- | Hx]; [apply (leb_trans _ _ _ Hle Hle2) | apply Hall, Hx].
Qed.

(** [Math.max] of a non-empty list without [NaN] is a member of the list
    that no member exceeds. *)
Lemma mathMax_is_maximum (values : list value) :
  values <> [] -> Forall notNaN values ->
  In (mathMax values) (map toNumber values) /\
  forall x, In x (map toNumber values) -> (x <=? mathMax values) = true.
Proof.
  destruct values as [| v values]; [congruence |]. intros _ Hall.
  inversion Hall as [| ? ? Hv Hvs]; subst.
  unfold mathMax. cbn [fold_left]. rewrite (max2_neg_infinity _ Hv).
  destruct (fold_max2 values Hvs (toNumber v) Hv) as (Hin & Hle & Hbound).
  cbn [map]. split.
  - destruct Hin as [-> | Hin]; [left; reflexivity | right; exact Hin].
  - intros x [<- | Hx]; [exact Hle | apply Hbound, Hx].
Qed.

Lemma mathMin_is_minimum (values : list value) :
  values <> [] -> Forall notNaN values ->
  In (mathMin values) (map toNumber values) /\
  forall x, In x (map toNumber values) -> (mathMin values <=? x) = true.
Proof.
  destruct values as [| v values]; [congruence |]. intros _ Hall.
  inversion Hall as [| ? ? Hv Hvs]; subst.
  unfold mathMin. cbn [fold_left]. rewrite (min2_infinity _ Hv).
  destruct (fold_min2 values Hvs (toNumber v) Hv) as (Hin & Hle & Hbound).
  cbn [map]. split.
  - destruct Hin as [-> | Hin]; [left; reflexivity | right; exact Hin].
  - intros x [<- | Hx]; [exact Hle | apply Hbound, Hx].
Qed.

End Binary64Facts.

(** ** Claims about the agreement score and the variations *)

Section AggregatorBinary64Claims.

Import Binary64 AggregatorBinary64.
Import Aggregator(metric, temperature, humidity, pressure, windSpeed,
                  cloudiness, metrics, metric_eqb).
Local Open Scope list_scope.
Local Open Scope float_scope.

Lemma tempValues_length_le (dataPoints : list Point) :
  (List.length (tempValues dataPoints) <= List.length dataPoints)%nat.
Proof.
  unfold tempValues.
  rewrite <- (length_map p_temperature dataPoints).
  apply filter_length_le.
Qed.





(** *** Variations *)

Lemma getEntry64_app (o : MetricObj) (m m' : metric) (v : float) :
  getEntry (o ++ [(m', v)]) m =
  match getEntry o m with
  | Some x => Some x
  | None => if metric_eqb m m' then Some v else None
  end.
Proof.
  induction o as [|[k x] o IH]; simpl; [reflexivity|].
  destruct (metric_eqb m k); auto.
Qed.

Lemma getEntry64_fold (c : metric -> bool) (g : metric -> float)
  (l : list metric) (acc : MetricObj) (m : metric) :
  getEntry
    (fold_left (fun o k => if c k then o ++ [(k, g k)] else o) l acc) m =
  match getEntry acc m with
  | Some x => Some x
  | None => if (existsb (metric_eqb m) l && c m)%bool then Some (g m) else None
  end.
Proof.
  revert acc. induction l as [|k l IH]; intro acc; simpl.
  - destruct (getEntry acc m); reflexivity.
  - rewrite IH. destruct (c k) eqn:Ck.
    + rewrite getEntry64_app. destruct (getEntry acc m); [reflexivity|].
      destruct (metric_eqb m k) eqn:E; simpl; [|reflexivity].
      apply metric_eqb_eq in E. subst k. now rewrite Ck.
    + destruct (getEntry acc m); [reflexivity|].
      destruct (metric_eqb m k) eqn:E; simpl; [|reflexivity].
      apply metric_eqb_eq in E. subst k. rewrite Ck.
      now rewrite andb_false_r.
Qed.

Lemma presentValues64_length (m : metric) (dataPoints : list Point) :
  (List.length (presentValues m dataPoints) <= List.length dataPoints)%nat.
Proof.
  unfold presentValues. rewrite <- (length_map (getMetric m) dataPoints).
  apply filter_length_le.
Qed.

(** The entry of a metric in the result of [calculateVariations]: present
    exactly when two or more values are present for the metric. *)
Lemma getEntry64_calculateVariations (dataPoints : list Point) (m : metric) :
  getEntry (calculateVariations dataPoints) m =
  if Nat.ltb 1 (List.length (presentValues m dataPoints))
  then Some (variationOf (presentValues m dataPoints))
  else None.
Proof.
  unfold calculateVariations.
  pose proof (presentValues64_length m dataPoints) as Hle.
  destruct (Nat.leb (List.length dataPoints) 1) eqn:E.
  - apply Nat.leb_le in E.
    replace (Nat.ltb 1 (List.length (presentValues m dataPoints))) with false
      by (symmetry; apply Nat.ltb_ge; lia).
    reflexivity.
  - etransitivity.
    + apply (getEntry64_fold
               (fun k => Nat.ltb 1 (List.length (presentValues k dataPoints)))
               (fun k => variationOf (presentValues k dataPoints))).
    + simpl getEntry. cbv iota.
      replace (existsb (metric_eqb m) metrics) with true
        by (destruct m; reflexivity).
      reflexivity.
Qed.

Lemma fold_sum_map (values : list value) (a : float) :
  fold_left (fun sum val => sum + toNumber val) values a =
  fold_left PrimFloat.add (map toNumber values) a.
Proof.
  revert a. induction values as [| v values IH]; intro a; cbn;
    [reflexivity | apply IH].
Qed.

Lemma fold_squares_map (mean : float) (values : list value) (a : float) :
  fold_left (fun sum val => let d := toNumber val - mean in sum + d * d)
    values a =
  fold_left PrimFloat.add
    (map (fun v => (v - mean) * (v - mean)) (map toNumber values)) a.
Proof.
  revert a. induction values as [| v values IH]; intro a; cbn;
    [reflexivity | apply IH].
Qed.

(** The number stored for a metric is the population standard deviation of
    its values, times 100, rounded, divided by 100. *)
Lemma variationOf_populationStdDev (values : list value) :
  variationOf values =
  mathRound (StatsBinary64.populationStdDev (map toNumber values) * 100) / 100.
Proof.
  unfold variationOf, StatsBinary64.populationStdDev,
    StatsBinary64.populationVariance, StatsBinary64.squaredDeviations,
    StatsBinary64.mean, StatsBinary64.total, sumValues, sumSquares.
  cbv zeta. rewrite fold_squares_map, fold_sum_map, length_map.
  reflexivity.
Qed.

(** C7 (as the code has it).  For each of the five metrics the entry is
    absent when fewer than two values are present for it.  With two or more
    it is [Math.round(s * 100) / 100], where [s] is the population standard
    deviation (the squared deviations from the mean summed and divided by N)
    of the values present, computed in binary64: the standard deviation
    rounded to two decimals.  The temperatures 1, 2 and 3 give 0.82 (the
    divisor N - 1 would give 1); 0 and 0.25 give 0.13; 5.3, 5.1 and fourteen
    times 5 give 0.07; 2.3, 2.1 and fourteen times 2 give 0.08. *)
Theorem C7_variation :
  (forall dataPoints m,
      (List.length (presentValues m dataPoints) < 2)%nat ->
      getEntry (calculateVariations dataPoints) m = None) /\
  (forall dataPoints m,
      (2 <= List.length (presentValues m dataPoints))%nat ->
      getEntry (calculateVariations dataPoints) m =
      Some (mathRound
              (StatsBinary64.populationStdDev
                 (map toNumber (presentValues m dataPoints)) * 100) / 100)) /\
  getEntry (calculateVariations (Samples.points64 [1; 2; 3])) temperature
  = Some 0.82 /\
  getEntry (calculateVariations (Samples.points64 [0; 0.25])) temperature
  = Some 0.13 /\
  getEntry
    (calculateVariations (Samples.points64 (Samples.sixteen 5.3 5.1 5)))
    temperature
  = Some 0.07 /\
  getEntry
    (calculateVariations (Samples.points64 (Samples.sixteen 2.3 2.1 2)))
    temperature
  = Some 0.08.
Proof.
  split; [| split; [| repeat split; vm_compute; reflexivity]].
  - intros dataPoints m H. rewrite getEntry64_calculateVariations.
    replace (Nat.ltb 1 (List.length (presentValues m dataPoints))) with false
      by (symmetry; apply Nat.ltb_ge; lia).
    reflexivity.
  - intros dataPoints m H. rewrite getEntry64_calculateVariations.
    replace (Nat.ltb 1 (List.length (presentValues m dataPoints))) with true
      by (symmetry; apply Nat.ltb_lt; lia).
    rewrite variationOf_populationStdDev. reflexivity.
Qed.

Lemma C7_variation_witness :
  getEntry
    (calculateVariations
       [Samples.point64 (Number 21.4); Samples.point64 Undefined])
    temperature
  = None /\
  getEntry
    (calculateVariations
       [Samples.point64 (Number 21.4); Samples.point64 Null;
        Samples.point64 (Number 19.8); Samples.point64 (Number 20.3)])
    temperature
  = Some (mathRound
            (StatsBinary64.populationStdDev [21.4; 19.8; 20.3] * 100) / 100).
Proof.
  split.
  - apply (proj1 C7_variation). cbn. lia.
  - apply (proj1 (proj2 C7_variation)
             [Samples.point64 (Number 21.4); Samples.point64 Null;
              Samples.point64 (Number 19.8); Samples.point64 (Number 20.3)]
             temperature).
    cbn. lia.
Defined.

(** C7 as stated fails: two providers report 0 and 0.25 degrees.  The
    population standard deviation of the two values is 0.125, exactly, in
    binary64 as over the rationals; the variation entry is 0.13. *)
Lemma C7_counterexample :
  getEntry (calculateVariations (Samples.points64 [0; 0.25])) temperature
  = Some 0.13 /\
  StatsBinary64.populationStdDev [0; 0.25] = 0.125 /\
  map exactValue [0; 0.25; 0.125] = [Some 0%Q; Some (1 # 4)%Q; Some (1 # 8)%Q] /\
  Stats.isPopulationStdDev (1 # 8) [0%Q; (1 # 4)%Q] /\
  (0.13 =? 0.125) = false.
Proof.
  split; [vm_compute; reflexivity |].
  split; [vm_compute; reflexivity |].
  split; [vm_compute; reflexivity |].
  split; [| vm_compute; reflexivity].
  split; [discriminate | reflexivity].
Qed.

End AggregatorBinary64Claims.

(** * Further properties of the code *)

(** ** The per-location aggregation and the provider handler *)

Section ProviderExtras.

Import Provider.
Local Open Scope string_scope.
Local Open Scope list_scope.

Lemma pushDescription_app (ds : list string) (d : option string) :
  pushDescription ds d = ds ++ pushDescription [] d.
Proof.
  unfold pushDescription. destruct d as [x|].
  - destruct (String.eqb x ""); [now rewrite app_nil_r|reflexivity].
  - now rewrite app_nil_r.
Qed.

Lemma descriptions_fold (l : list Reading) (s : Sums) :
  descriptions (fold_left visit l s) =
  descriptions s ++
  flat_map (fun r => pushDescription [] (r_description r)) l.
Proof.
  revert s. induction l as [|r l IH]; intro s; cbn [fold_left flat_map].
  - now rewrite app_nil_r.
  - rewrite IH. cbn [visit descriptions].
    rewrite (pushDescription_app (descriptions s)). now rewrite app_assoc.
Qed.

(** X1.  The descriptions of the aggregate are the non-empty descriptions of
    the readings, in the order of the sources, duplicates kept. *)
Theorem descriptions_in_source_order (sources : list (string * Reading)) :
  sources <> [] ->
  exists agg,
    createAggregatedWeather sources = Ok agg /\
    a_descriptions agg =
    flat_map (fun r => pushDescription [] (r_description r))
      (objValues sources).
Proof.
  intro H. rewrite createAggregatedWeather_nonempty by assumption.
  eexists. split; [reflexivity|]. cbn [a_descriptions].
  now rewrite descriptions_fold.
Qed.

Lemma descriptions_in_source_order_witness :
  exists agg,
    createAggregatedWeather Samples.oneTemperature = Ok agg /\
    a_descriptions agg = ["clear sky"].
Proof.
  destruct (descriptions_in_source_order Samples.oneTemperature)
    as (agg & Hagg & Hd); [discriminate|].
  exists agg. split; [exact Hagg|]. rewrite Hd. reflexivity.
Defined.

(** X2.  The confidence is an integer between 0 and 100. *)
Theorem confidence_bounds (sources : list (string * Reading)) :
  sources <> [] ->
  exists agg c,
    createAggregatedWeather sources = Ok agg /\
    a_confidence agg = ofZ c /\ (0 <= c <= 100)%Z.
Proof.
  intro Hne.
  destruct (confidence_formula sources Hne) as (agg & Hagg & Hconf).
  exists agg. eexists. split; [exact Hagg|]. split; [exact Hconf|].
  assert (Hn : List.length sources <> 0%nat)
    by (destruct sources; simpl; congruence).
  pose proof (temperatureCount_le sources) as Hle.
  split.
  - transitivity (roundHalfUp
                    (100 * (inject_Z (Z.of_nat 0) /
                            inject_Z (Z.of_nat (List.length sources))))).
    + apply Z.eq_le_incl. symmetry.
      transitivity (roundHalfUp 0); [apply roundHalfUp_comp|reflexivity].
      simpl inject_Z. unfold Qdiv. ring.
    + apply roundHalfUp_le, share_le; [lia|assumption].
  - transitivity (roundHalfUp
                    (100 * (inject_Z (Z.of_nat (List.length sources)) /
                            inject_Z (Z.of_nat (List.length sources))))).
    + apply roundHalfUp_le, share_le; assumption.
    + apply Z.eq_le_incl.
      transitivity (roundHalfUp 100); [apply roundHalfUp_comp|reflexivity].
      field. apply inject_Z_pos_nonzero. assumption.
Qed.

Lemma confidence_bounds_witness :
  exists agg c,
    createAggregatedWeather Samples.twoTemperatures = Ok agg /\
    a_confidence agg = ofZ c /\ (0 <= c <= 100)%Z.
Proof.
  apply (confidence_bounds Samples.twoTemperatures). discriminate.
Defined.

(** What [fetchWeatherForLocation] returns and writes, as a function of the
    outcomes it is given: the world matters only through the sink's answer. *)
Lemma fetch_characterised (location : Location) (geo : result GeoData)
  (r0 r1 r2 : settled Reading) (timestamp : string) (nowMs : Z)
  (w : World Item) :
  let resolved :=
    match location with
    | ByName _ => geo
    | ByObject id name lat lon => Ok (mkGeoData id name lat lon)
    end in
  let s0 := match r0 with
            | Fulfilled v => objSet [] "openweather" v
            | Rejected _ => []
            end in
  let s1 := match r1 with
            | Fulfilled v => objSet s0 "weatherapi" v
            | Rejected _ => s0
            end in
  let s2 := match r2 with
            | Fulfilled v => objSet s1 "accuweather" v
            | Rejected _ => s1
            end in
  let out := fetchWeatherForLocation location geo r0 r1 r2 timestamp nowMs w in
  putFails (snd out) = putFails w /\
  match resolved with
  | Throw e => fst out = Throw e /\ db (snd out) = db w
  | Ok g =>
      match createAggregatedWeather s2 with
      | Throw e => fst out = Throw e /\ db (snd out) = db w
      | Ok agg =>
          let data :=
            mkAggregatedData (g_id g) (g_name g) (g_lat g) (g_lon g)
              timestamp "aws" s2 agg in
          match putFails w with
          | Some e => fst out = Throw e /\ db (snd out) = db w
          | None =>
              fst out = Ok data /\
              db (snd out) =
              db w ++
              [mkItem (g_id g) timestamp "aws" (g_name g) (g_lat g) (g_lon g)
                 data (nowMs / 1000 + 30 * 24 * 60 * 60)%Z]
          end
      end
  end.
Proof.
  cbv zeta. destruct w as [d c pf].
  unfold fetchWeatherForLocation, storeWeatherData.
  destruct location as [n|id n lat lon]; [destruct geo as [g|e]|];
    destruct r0 as [v0|e0], r1 as [v1|e1], r2 as [v2|e2];
    cbn -[createAggregatedWeather String.append objSet Z.div Z.add Z.mul];
    try solve [repeat split; reflexivity];
    match goal with
    | |- context [createAggregatedWeather ?s] =>
        destruct (createAggregatedWeather s) as [agg|e]
    end;
    cbn -[String.append objSet Z.div Z.add Z.mul];
    try solve [repeat split; reflexivity];
    destruct pf as [e|];
    cbn -[String.append objSet Z.div Z.add Z.mul];
    repeat split; reflexivity.
Qed.

Lemma some_source_gives_aggregate (r0 r1 r2 : settled Reading) :
  (exists v, r0 = Fulfilled v \/ r1 = Fulfilled v \/ r2 = Fulfilled v) ->
  let s0 := match r0 with
            | Fulfilled v => objSet [] "openweather" v
            | Rejected _ => []
            end in
  let s1 := match r1 with
            | Fulfilled v => objSet s0 "weatherapi" v
            | Rejected _ => s0
            end in
  let s2 := match r2 with
            | Fulfilled v => objSet s1 "accuweather" v
            | Rejected _ => s1
            end in
  s2 <> [] /\
  objGet s2 "openweather"
  = match r0 with Fulfilled v => Some v | Rejected _ => None end /\
  objGet s2 "weatherapi"
  = match r1 with Fulfilled v => Some v | Rejected _ => None end /\
  objGet s2 "accuweather"
  = match r2 with Fulfilled v => Some v | Rejected _ => None end.
Proof.
  intros (v & Hv).
  destruct r0 as [v0|e0], r1 as [v1|e1], r2 as [v2|e2];
    try (exfalso; destruct Hv as [Hv | [Hv | Hv]]; discriminate);
    cbv zeta; (split; [discriminate|repeat split]).
Qed.

(** X4.  A fetch for which at least one source answered and whose write the
    sink accepts returns the aggregate and writes exactly one row, which
    holds that aggregate under the location's id with a time to live of 30
    days; the aggregate's [sources] holds each fulfilled reading under its
    fixed key and nothing for a failed source. *)
Theorem successful_fetch_writes_one_row
  (id name : string) (lat lon : Q) (geo : result GeoData)
  (r0 r1 r2 : settled Reading) (timestamp : string) (nowMs : Z)
  (w : World Item) :
  putFails w = None ->
  (exists v, r0 = Fulfilled v \/ r1 = Fulfilled v \/ r2 = Fulfilled v) ->
  exists data item w',
    fetchWeatherForLocation (ByObject id name lat lon) geo r0 r1 r2
      timestamp nowMs w = (Ok data, w') /\
    db w' = db w ++ [item] /\
    weather_data item = data /\
    location_id item = id /\
    ttl item = (nowMs / 1000 + 2592000)%Z /\
    locationId data = id /\
    createAggregatedWeather (sources data) = Ok (aggregated data) /\
    objGet (sources data) "openweather"
    = match r0 with Fulfilled v => Some v | Rejected _ => None end /\
    objGet (sources data) "weatherapi"
    = match r1 with Fulfilled v => Some v | Rejected _ => None end /\
    objGet (sources data) "accuweather"
    = match r2 with Fulfilled v => Some v | Rejected _ => None end.
Proof.
  intros Hput Hsome.
  pose proof (fetch_characterised (ByObject id name lat lon) geo r0 r1 r2
                timestamp nowMs w) as H.
  pose proof (some_source_gives_aggregate r0 r1 r2 Hsome) as Hs.
  cbv zeta in H, Hs. destruct Hs as (Hne & K0 & K1 & K2).
  destruct H as (_ & H).
  match type of H with
  | context [createAggregatedWeather ?s] =>
      set (s2 := s) in *;
      destruct (createAggregatedWeather s2) as [agg|e] eqn:E
  end.
  - rewrite Hput in H. destruct H as (Hfst & Hdb).
    destruct (fetchWeatherForLocation (ByObject id name lat lon) geo r0 r1 r2
                timestamp nowMs w) as [r w'] eqn:F.
    cbn [fst snd] in Hfst, Hdb. subst r.
    do 3 eexists. split; [reflexivity|]. split; [exact Hdb|].
    cbn [weather_data location_id ttl locationId sources aggregated g_id].
    repeat split; assumption.
  - exfalso. rewrite createAggregatedWeather_nonempty in E by assumption.
    discriminate.
Qed.

Lemma successful_fetch_writes_one_row_witness :
  exists data item w',
    fetchWeatherForLocation Samples.london (Throw "unused")
      (Fulfilled (Samples.fullReading "openweather" 22))
      (Rejected "timeout of 10000ms exceeded")
      (Fulfilled (Samples.fullReading "accuweather" 23))
      "2024-01-01T12:00:05.000Z" 1704110405000 Samples.quietWorld
    = (Ok data, w') /\
    db w' = [item] /\
    weather_data item = data /\
    objGet (sources data) "weatherapi" = None.
Proof.
  destruct (successful_fetch_writes_one_row "london" "London"
              (515074 # 10000) (- (1278 # 10000)) (Throw "unused")
              (Fulfilled (Samples.fullReading "openweather" 22))
              (Rejected "timeout of 10000ms exceeded")
              (Fulfilled (Samples.fullReading "accuweather" 23))
              "2024-01-01T12:00:05.000Z" 1704110405000 Samples.quietWorld)
    as (data & item & w' & H & Hdb & Hitem & _ & _ & _ & _ & _ & Hk & _).
  - reflexivity.
  - exists (Samples.fullReading "openweather" 22). left. reflexivity.
  - exists data, item, w'. repeat split; assumption.
Defined.

(** X5.  A location given by name that the geocoder does not find fails the
    fetch with the geocoder's error, whatever the sources would answer, and
    nothing is written. *)
Theorem unknown_place_fails_fetch
  (name : string) (r0 r1 r2 : settled Reading) (timestamp : string)
  (nowMs : Z) (w : World Item) :
  geocodeLocation name None = Throw ("Location not found: " ++ name) /\
  geocodeLocation name (Some []) = Throw ("Location not found: " ++ name) /\
  exists w',
    fetchWeatherForLocation (ByName name) (geocodeLocation name (Some []))
      r0 r1 r2 timestamp nowMs w
    = (Throw ("Location not found: " ++ name), w') /\
    db w' = db w.
Proof.
  split; [reflexivity|]. split; [reflexivity|].
  eexists. split; reflexivity.
Qed.

Lemma lowerChar_idempotent (c : ascii) : lowerChar (lowerChar c) = lowerChar c.
Proof.
  destruct c as [[] [] [] [] [] [] [] []]; reflexivity.
Qed.

Lemma dashRuns_chars (inRun : bool) (s : string) (c : ascii) :
  In c (list_ascii_of_string (dashRuns inRun (toLowerCase s))) ->
  isSpace c = false /\ lowerChar c = c.
Proof.
  revert inRun. induction s as [|a s IH]; intros inRun H; [destruct H|].
  cbn [toLowerCase dashRuns] in H.
  destruct (isSpace (lowerChar a)) eqn:E.
  - destruct inRun.
    + eapply IH; eassumption.
    + cbn [list_ascii_of_string] in H. destruct H as [<- | H].
      * split; reflexivity.
      * eapply IH; eassumption.
  - cbn [list_ascii_of_string] in H. destruct H as [<- | H].
    + split; [exact E|apply lowerChar_idempotent].
    + eapply IH; eassumption.
Qed.

(** X6.  The geocoder uses the first entry of the reply only.  The id it
    builds is the lower-cased name with every run of white space replaced by
    one dash, a dash, and the lower-cased country: its name part has no
    white space and no upper-case letter (on ASCII text).  A place named
    "New  York" in "US" gets the id "new-york-us". *)
Theorem geocoded_id_shape
  (location : string) (data : GeoEntry) (others : list GeoEntry) :
  exists g part,
    geocodeLocation location (Some (data :: others)) = Ok g /\
    g_id g = (part ++ "-" ++ toLowerCase (ge_country data))%string /\
    (forall c, In c (list_ascii_of_string part) ->
               isSpace c = false /\ lowerChar c = c) /\
    g_name g = (ge_name data ++ ", " ++ ge_country data)%string /\
    g_lat g = ge_lat data /\ g_lon g = ge_lon data /\
    geocodeLocation "new york"
      (Some [mkGeoEntry "New  York" "US" (407128 # 10000)
               (- (740060 # 10000))])
    = Ok (mkGeoData "new-york-us" "New  York, US" (407128 # 10000)
            (- (740060 # 10000))).
Proof.
  eexists. exists (dashRuns false (toLowerCase (ge_name data))).
  split; [reflexivity|]. split; [reflexivity|]. split.
  - intros c H. eapply dashRuns_chars; eassumption.
  - repeat split.
Qed.

(** X7.  Without the API keys nothing is fetched: when Secrets Manager
    fails, the handler answers 500 with the credentials error and writes
    nothing, whatever the event asks for. *)
Theorem no_keys_no_fetch
  (event : Event) (error : string) (net : nat -> Outcome)
  (timestamp : string) (startTime endTime : Z) (w : World Item) :
  exists w',
    handler event (Throw error) net timestamp startTime endTime w
    = (createResponse 500 (FailureBody secretsMessage timestamp), w') /\
    db w' = db w.
Proof.
  eexists. split; reflexivity.
Qed.

(** *** The batch *)

Lemma fetchOne_only_sink (location : Location) (o : Outcome)
  (timestamp : string) (w1 w2 : World Item) :
  putFails w1 = putFails w2 ->
  fst (fetchOne location o timestamp w1)
  = fst (fetchOne location o timestamp w2).
Proof.
  intro Hpf. unfold fetchOne.
  pose proof (fetch_characterised location (o_geo o) (o_openweather o)
                (o_weatherapi o) (o_accuweather o) timestamp (o_storeNow o)
                w1) as H1.
  pose proof (fetch_characterised location (o_geo o) (o_openweather o)
                (o_weatherapi o) (o_accuweather o) timestamp (o_storeNow o)
                w2) as H2.
  cbv zeta in H1, H2. destruct H1 as (_ & H1). destruct H2 as (_ & H2).
  rewrite <- Hpf in H2.
  repeat match type of H1 with
         | match ?x with _ => _ end => destruct x
         end;
    destruct H1 as (-> & _); destruct H2 as (-> & _); reflexivity.
Qed.

Lemma fetchOne_world (location : Location) (o : Outcome)
  (timestamp : string) (w : World Item) :
  putFails (snd (fetchOne location o timestamp w)) = putFails w /\
  List.length (db (snd (fetchOne location o timestamp w)))
  = (List.length (db w) +
     match fst (fetchOne location o timestamp w) with
     | Ok _ => 1
     | Throw _ => 0
     end)%nat.
Proof.
  unfold fetchOne.
  pose proof (fetch_characterised location (o_geo o) (o_openweather o)
                (o_weatherapi o) (o_accuweather o) timestamp (o_storeNow o)
                w) as H.
  cbv zeta in H. destruct H as (Hpf & H). split; [exact Hpf|].
  repeat match type of H with
         | match ?x with _ => _ end => destruct x
         end;
    destruct H as (-> & ->); rewrite ?length_app; simpl; lia.
Qed.

(** Every fetch of a batch settles to what it would give alone, and each
    fulfilled fetch has written one row. *)
Lemma fetchAll_settles (locations : list Location) (index : nat)
  (net : nat -> Outcome) (timestamp : string) (w : World Item) :
  exists rs w',
    fetchAll locations index net timestamp w = (Ok rs, w') /\
    putFails w' = putFails w /\
    List.length rs = List.length locations /\
    List.length (db w') = (List.length (db w) + fulfilledCount rs)%nat /\
    forall i location,
      nth_error locations i = Some location ->
      nth_error rs i =
      Some (settledOf (fst (fetchOne location (net (index + i)%nat) timestamp
                              (mkWorld [] [] (putFails w))))).
Proof.
  revert index w. induction locations as [|l ls IH]; intros index w.
  - exists [], w. unfold fulfilledCount. repeat split; simpl; try lia.
    intros [|i] location H; discriminate.
  - cbn [fetchAll]. unfold bind at 1. unfold settle at 1.
    pose proof (fetchOne_world l (net index) timestamp w) as (Hpf & Hdb).
    pose proof (fetchOne_only_sink l (net index) timestamp w
                  (mkWorld [] [] (putFails w)) eq_refl) as Hsame.
    destruct (fetchOne l (net index) timestamp w) as [r w1] eqn:F.
    cbn [fst snd] in Hpf, Hdb, Hsame.
    destruct (IH (S index) w1) as (rs & w' & E & Hpf' & Hlen & Hdb' & Hnth).
    assert (Hstep : forall s : settled AggregatedData,
               (rs0 <- fetchAll ls (S index) net timestamp ;;
                ret (s :: rs0)) w1 = (Ok (s :: rs), w')).
    { intro s0. unfold bind. rewrite E. reflexivity. }
    exists (settledOf r :: rs), w'.
    split; [destruct r; apply Hstep|].
    split; [congruence|]. split; [simpl; congruence|]. split.
    + rewrite Hdb', Hdb. unfold fulfilledCount. destruct r; simpl; lia.
    + intros [|i] location H; cbn [nth_error] in *.
      * injection H as <-. rewrite Nat.add_0_r, <- Hsame. reflexivity.
      * rewrite (Hnth i location H), Hpf.
        replace (S index + i)%nat with (index + S i)%nat by lia.
        reflexivity.
Qed.

Lemma separate_spec (rs : list (settled AggregatedData))
  (ls : list Location) :
  List.length rs = List.length ls ->
  List.length (fst (separate rs ls)) = fulfilledCount rs /\
  (List.length (fst (separate rs ls)) + List.length (snd (separate rs ls))
   = List.length ls)%nat /\
  (forall i d, nth_error rs i = Some (Fulfilled d) ->
               In d (fst (separate rs ls))) /\
  (forall i e l, nth_error rs i = Some (Rejected e) ->
                 nth_error ls i = Some l ->
                 In (l, e) (snd (separate rs ls))).
Proof.
  revert ls. induction rs as [|r rs IH]; intros [|l ls] Hlen;
    try discriminate.
  - repeat split; try reflexivity; intros [|i]; discriminate.
  - injection Hlen as Hlen. destruct (IH ls Hlen) as (H0 & H1 & H2 & H3).
    cbn [separate]. destruct (separate rs ls) as [ok ko].
    unfold fulfilledCount in *. cbn [fst snd] in *.
    destruct r as [d|e];
      cbn [fst snd List.length filter isFulfilled]; repeat split;
      try lia.
    + intros [|i] d' H; cbn [nth_error] in H.
      * injection H as <-. left. reflexivity.
      * right. eapply H2; eassumption.
    + intros [|i] e' l' H H'; cbn [nth_error] in H, H'; [discriminate|].
      eapply H3; eassumption.
    + intros [|i] d' H; cbn [nth_error] in H; [discriminate|].
      eapply H2; eassumption.
    + intros [|i] e' l' H H'; cbn [nth_error] in H, H'.
      * injection H as <-. injection H' as <-. left. reflexivity.
      * right. eapply H3; eassumption.
Qed.

(** X8.  Once the API keys have been retrieved, a batch answers 200.  Each
    location is either in [data]
    or in [errors]: it is in [data] with the aggregate its fetch gives on its
    own, and in [errors] with the error its fetch gives on its own, whatever
    happens to the other locations.  The summary counts add up to the number
    of locations, and one row is written per successful location. *)
Theorem batch_isolates_failures
  (event : Event) (secrets : Secrets) (net : nat -> Outcome)
  (timestamp : string) (startTime endTime : Z) (w : World Item) :
  truthyString (ev_location event) = None ->
  exists data errors w',
    handler event (Ok secrets) net timestamp startTime endTime w
    = (createResponse 200
         (BatchBody timestamp (endTime - startTime)
            (mkSummary
               (List.length match ev_locations event with
                            | Some l => l
                            | None => DEFAULT_LOCATIONS
                            end)
               (List.length data) (List.length errors))
            data
            (if Nat.ltb 0 (List.length errors) then Some errors else None)),
       w') /\
    (List.length data + List.length errors
     = List.length match ev_locations event with
                   | Some l => l
                   | None => DEFAULT_LOCATIONS
                   end)%nat /\
    List.length (db w') = (List.length (db w) + List.length data)%nat /\
    forall i location,
      nth_error match ev_locations event with
                | Some l => l
                | None => DEFAULT_LOCATIONS
                end i = Some location ->
      match fst (fetchOne location (net i) timestamp
                   (mkWorld [] [] (putFails w))) with
      | Ok d => In d data
      | Throw e => In (location, e) errors
      end.
Proof.
  intro Hloc. unfold handler. cbv zeta. rewrite Hloc.
  set (locations := match ev_locations event with
                    | Some l => l
                    | None => DEFAULT_LOCATIONS
                    end).
  unfold bind at 1. cbn [say]. unfold bind at 1. cbn [getSecrets ret].
  unfold bind at 1.
  destruct (fetchAll_settles locations 0 net timestamp
              (log "AWS Weather Fetcher Lambda started" w))
    as (rs & w1 & E & Hpf & Hlen & Hdb & Hnth).
  rewrite E.
  destruct (separate_spec rs locations Hlen) as (Hcount & Hsum & Hok & Hko).
  destruct (separate rs locations) as [successful failed] eqn:S.
  cbn [fst snd] in Hcount, Hsum, Hok, Hko.
  unfold bind at 1. cbn [say ret].
  exists successful, failed. eexists. split; [reflexivity|].
  split; [exact Hsum|]. split.
  - cbn [log db]. rewrite Hdb, Hcount. reflexivity.
  - intros i location Hi. specialize (Hnth i location Hi).
    cbn [Nat.add log putFails] in Hnth.
    destruct (fst (fetchOne location (net i) timestamp
                     (mkWorld [] [] (putFails w)))) as [d|e];
      cbn [settledOf] in Hnth.
    + eapply Hok; eassumption.
    + eapply Hko; eassumption.
Qed.

Lemma batch_isolates_failures_witness :
  exists data errors w',
    handler (mkEvent (Some [Samples.london; Samples.london]) None)
      (Ok (mkSecrets "k1" "k2" "k3"))
      (fun i =>
         match i with
         | O => mkOutcome (Throw "unused")
                  (Rejected "timeout of 10000ms exceeded")
                  (Rejected "timeout of 10000ms exceeded")
                  (Rejected "timeout of 10000ms exceeded") 1704110405000
         | _ => mkOutcome (Throw "unused")
                  (Fulfilled (Samples.fullReading "openweather" 22))
                  (Rejected "timeout of 10000ms exceeded")
                  (Rejected "timeout of 10000ms exceeded") 1704110405000
         end)
      "2024-01-01T12:00:05.000Z" 0 1200 Samples.quietWorld
    = (createResponse 200
         (BatchBody "2024-01-01T12:00:05.000Z" 1200
            (mkSummary 2 (List.length data) (List.length errors))
            data
            (if Nat.ltb 0 (List.length errors) then Some errors else None)),
       w') /\
    In (Samples.london, noDataMessage) errors /\
    (List.length data + List.length errors = 2)%nat.
Proof.
  destruct (batch_isolates_failures
              (mkEvent (Some [Samples.london; Samples.london]) None)
              (mkSecrets "k1" "k2" "k3")
              (fun i =>
                 match i with
                 | O => mkOutcome (Throw "unused")
                          (Rejected "timeout of 10000ms exceeded")
                          (Rejected "timeout of 10000ms exceeded")
                          (Rejected "timeout of 10000ms exceeded")
                          1704110405000
                 | _ => mkOutcome (Throw "unused")
                          (Fulfilled (Samples.fullReading "openweather" 22))
                          (Rejected "timeout of 10000ms exceeded")
                          (Rejected "timeout of 10000ms exceeded")
                          1704110405000
                 end)
              "2024-01-01T12:00:05.000Z" 0 1200 Samples.quietWorld
              eq_refl)
    as (data & errors & w' & H & Hsum & _ & Hnth).
  exists data, errors, w'. split; [exact H|]. split; [|exact Hsum].
  exact (Hnth 0%nat Samples.london eq_refl).
Defined.

(** X9.  A request for one named location answers 200 with the aggregate
    when its fetch succeeds and 500 with the fetch's error when it fails:
    the geocoder's error, the no-data error or the error of the sink. *)
Theorem single_location_request
  (event : Event) (place : string) (secrets : Secrets)
  (net : nat -> Outcome) (timestamp : string) (startTime endTime : Z)
  (w : World Item) :
  truthyString (ev_location event) = Some place ->
  match fst (fetchOne (ByName place) (net 0%nat) timestamp
               (mkWorld [] [] (putFails w))) with
  | Ok data =>
      fst (handler event (Ok secrets) net timestamp startTime endTime w)
      = createResponse 200 (SingleBody data)
  | Throw error =>
      fst (handler event (Ok secrets) net timestamp startTime endTime w)
      = createResponse 500 (FailureBody error timestamp)
  end.
Proof.
  intro Hloc.
  pose proof (fetchOne_only_sink (ByName place) (net 0%nat) timestamp
                (mkWorld [] [] (putFails w))
                (log "AWS Weather Fetcher Lambda started" w) eq_refl)
    as Hsame.
  destruct (fst (fetchOne (ByName place) (net 0%nat) timestamp
                   (mkWorld [] [] (putFails w)))) as [d|e];
    unfold handler; cbv zeta; rewrite Hloc;
    unfold bind at 1; cbn [say]; unfold bind at 1; cbn [getSecrets ret];
    unfold bind at 1;
    destruct (fetchOne (ByName place) (net 0%nat) timestamp
                (log "AWS Weather Fetcher Lambda started" w)) as [r w1];
    cbn [fst] in Hsame; subst r; reflexivity.
Qed.

Lemma single_location_request_witness :
  fst (handler (mkEvent None (Some "London")) (Ok (mkSecrets "k1" "k2" "k3"))
         (fun _ =>
            mkOutcome
              (Ok (mkGeoData "london-gb" "London, GB" (515074 # 10000)
                     (- (1278 # 10000))))
              (Fulfilled (Samples.fullReading "openweather" 22))
              (Fulfilled (Samples.fullReading "weatherapi" 24))
              (Fulfilled (Samples.fullReading "accuweather" (47 # 2)))
              1704110405000)
         "2024-01-01T12:00:05.000Z" 0 1200 Samples.failingSink)
  = createResponse 500
      (FailureBody "ProvisionedThroughputExceededException"
         "2024-01-01T12:00:05.000Z").
Proof.
  exact (single_location_request (mkEvent None (Some "London")) "London"
           (mkSecrets "k1" "k2" "k3")
           (fun _ =>
              mkOutcome
                (Ok (mkGeoData "london-gb" "London, GB" (515074 # 10000)
                       (- (1278 # 10000))))
                (Fulfilled (Samples.fullReading "openweather" 22))
                (Fulfilled (Samples.fullReading "weatherapi" 24))
                (Fulfilled (Samples.fullReading "accuweather" (47 # 2)))
                1704110405000)
           "2024-01-01T12:00:05.000Z" 0 1200 Samples.failingSink eq_refl).
Defined.

End ProviderExtras.

(** ** The cross-cloud aggregation *)

Section AggregatorExtras.

Import Aggregator.
Local Open Scope string_scope.
Local Open Scope list_scope.
Local Open Scope Q_scope.

(** *** Agreement and availability *)

Lemma agreement_formula (dataPoints : list Point) (ts : list Q) (hi lo : Q) :
  tempValues dataPoints = map finite ts ->
  (2 <= List.length ts)%nat ->
  In hi ts -> In lo ts ->
  (forall x, In x ts -> lo <= x /\ x <= hi) ->
  calculateAgreement dataPoints
  = ofZ (Z.max 0 (roundHalfUp (100 - 25 * (hi - lo)))).
Proof.
  intros Hts Hlen Hhi Hlo Hbound.
  pose proof (tempValues_length dataPoints) as Hle.
  unfold calculateAgreement.
  rewrite Hts in *. rewrite length_map in Hle.
  replace (Nat.leb (List.length dataPoints) 1) with false
    by (symmetry; apply Nat.leb_gt; lia).
  rewrite length_map.
  replace (Nat.leb (List.length ts) 1) with false
    by (symmetry; apply Nat.leb_gt; lia).
  destruct (tempRange_finite ts hi lo Hhi Hlo Hbound) as (r & Er & Hr).
  rewrite Er. unfold ofZ at 1 2. cbn [mul sub mathRound].
  change (Fin 0) with (ofZ 0). rewrite max2_ofZ. do 2 f_equal.
  apply roundHalfUp_comp. rewrite !Qred_correct, Hr.
  change (inject_Z 100) with 100. change (inject_Z 25) with 25. ring.
Qed.

(** X12.  The agreement of two or more (finite) temperatures is an integer
    between 0 and 100; it is 0 as soon as the spread is 4 degrees or more
    and 100 when all temperatures are equal. *)
Theorem agreement_range (dataPoints : list Point) (ts : list Q) (hi lo : Q) :
  tempValues dataPoints = map finite ts ->
  (2 <= List.length ts)%nat ->
  In hi ts -> In lo ts ->
  (forall x, In x ts -> lo <= x /\ x <= hi) ->
  exists a,
    calculateAgreement dataPoints = ofZ a /\
    (0 <= a <= 100)%Z /\
    (4 <= hi - lo -> a = 0%Z) /\
    (hi == lo -> a = 100%Z).
Proof.
  intros Hts Hlen Hhi Hlo Hbound.
  exists (Z.max 0 (roundHalfUp (100 - 25 * (hi - lo)))).
  split; [now apply agreement_formula with (ts := ts)|].
  assert (Hle : lo <= hi) by (apply (Hbound hi Hhi)).
  assert (Hup : (roundHalfUp (100 - 25 * (hi - lo)) <= 100)%Z).
  { apply Z.le_trans with (roundHalfUp 100);
      [apply roundHalfUp_le; lra | apply Z.eq_le_incl; reflexivity]. }
  split; [lia|]. split.
  - intro H4.
    assert (roundHalfUp (100 - 25 * (hi - lo)) <= 0)%Z.
    { apply Z.le_trans with (roundHalfUp 0);
        [apply roundHalfUp_le; lra | apply Z.eq_le_incl; reflexivity]. }
    lia.
  - intro Heq.
    assert (roundHalfUp (100 - 25 * (hi - lo)) = 100%Z).
    { transitivity (roundHalfUp 100); [apply roundHalfUp_comp|reflexivity].
      rewrite Heq. ring. }
    lia.
Qed.

Lemma agreement_range_witness :
  exists a,
    calculateAgreement [Samples.point 18; Samples.point 20; Samples.point 23]
    = ofZ a /\ (0 <= a <= 100)%Z.
Proof.
  destruct (agreement_range
              [Samples.point 18; Samples.point 20; Samples.point 23]
              [18; 20; 23] 23 18) as (a & Ha & Hr & _).
  - reflexivity.
  - simpl. lia.
  - simpl. auto.
  - simpl. auto.
  - intros x [<- | [<- | [<- | []]]]; split; discriminate.
  - exists a. auto.
Defined.

Lemma availability_value (len n : nat) :
  n <> 0%nat ->
  mul (div (ofNat len) (ofNat n)) (ofZ 100)
  = Fin (Qred (Qred (inject_Z (Z.of_nat len) / inject_Z (Z.of_nat n))
               * 100)).
Proof.
  intro Hn. unfold ofNat, ofZ.
  rewrite div_Fin by (apply inject_Z_pos_nonzero; assumption).
  reflexivity.
Qed.

(** *** Collecting the providers' data *)

Lemma objGet_of_key {A : Type} (o : list (string * A)) (k : string) :
  In k (objKeys o) -> exists v, objGet o k = Some v /\ In (k, v) o.
Proof.
  induction o as [|[k' v'] o IH]; intro H; [destruct H|].
  cbn [objGet]. destruct (String.eqb k k') eqn:E.
  - apply String.eqb_eq in E. subst k'. exists v'. split; [reflexivity|].
    now left.
  - destruct H as [H | H].
    + simpl in H. subst k'. rewrite String.eqb_refl in E. discriminate.
    + destruct (IH H) as (v & Hv & Hin). exists v. split; [exact Hv|].
      now right.
Qed.

Lemma objValues_objSet_Forall {A : Type} (P : A -> Prop)
  (o : list (string * A)) (k : string) (v : A) :
  Forall P (objValues o) -> P v -> Forall P (objValues (objSet o k v)).
Proof.
  intros Ho Hv. induction o as [|[k' v'] o IH]; cbn [objSet].
  - repeat constructor. exact Hv.
  - inversion Ho as [|? ? Hv' Ho']; subst.
    destruct (String.eqb k k'); constructor; auto.
Qed.

(** The result of the aggregation when there is at least one provider, with
    the collected data named. *)
Lemma createCrossCloudAggregation_nonempty
  (cloudData : CloudData) (timestamp : string) (includeRaw : bool) (now : Z) :
  cloudData <> [] ->
  let c := fold_left (collectProvider cloudData) (objKeys cloudData) ([], []) in
  let points := map dp_point (fst c) in
  let nonEmpty := Nat.ltb 0 (List.length (fst c)) in
  let consensus := if nonEmpty then calculateConsensus points else [] in
  let variations := if nonEmpty then calculateVariations points else [] in
  let reliability :=
    if nonEmpty
    then Some (calculateReliability points (List.length (objKeys cloudData)))
    else None in
  createCrossCloudAggregation cloudData timestamp includeRaw now =
  Ok (mkAggregation timestamp (objKeys cloudData)
        (List.length (objKeys cloudData))
        consensus variations reliability
        (map summarizeLocation (objValues (snd c)))
        (mkSummary (List.length (objKeys (snd c)))
           (getEntry consensus temperature)
           (getEntry variations temperature)
           (option_map overall reliability)
           (calculateDataFreshness cloudData now))
        (if includeRaw then Some cloudData else None)).
Proof.
  intro Hne. cbv zeta. unfold createCrossCloudAggregation.
  replace (Nat.eqb (List.length (objKeys cloudData)) 0) with false
    by (destruct cloudData; [congruence|reflexivity]).
  destruct (fold_left (collectProvider cloudData) (objKeys cloudData)
              ([], [])) as [allData locationData].
  reflexivity.
Qed.

(** The locations collected so far all have a provider. *)
Lemma collectItem_providers (provider source key : string)
  (item : LocationItem) (aggregated : Point) (c : Collected) :
  Forall (fun e => loc_providers e <> []) (objValues (snd c)) ->
  Forall (fun e => loc_providers e <> [])
    (objValues (snd (collectItem provider source key item aggregated c))).
Proof.
  intro H. destruct c as [allData locationData]. cbn [collectItem snd] in *.
  apply objValues_objSet_Forall; [exact H|].
  cbn [loc_providers]. intro E. apply app_eq_nil in E. destruct E as [_ E].
  discriminate.
Qed.

Lemma collectProvider_providers (cloudData : CloudData) (c : Collected)
  (provider : string) :
  Forall (fun e => loc_providers e <> []) (objValues (snd c)) ->
  Forall (fun e => loc_providers e <> [])
    (objValues (snd (collectProvider cloudData c provider))).
Proof.
  intro H. unfold collectProvider.
  destruct (objGet cloudData provider) as [r|]; [|exact H].
  destruct (pr_data r) as [items|data].
  - revert c H. induction items as [|item items IH]; intros c H;
      cbn [fold_left]; [exact H|].
    apply IH. destruct (item_aggregated item); [|exact H].
    now apply collectItem_providers.
  - destruct (item_aggregated data); [|exact H].
    now apply collectItem_providers.
Qed.

Lemma collected_providers (cloudData : CloudData) (keys : list string)
  (c : Collected) :
  Forall (fun e => loc_providers e <> []) (objValues (snd c)) ->
  Forall (fun e => loc_providers e <> [])
    (objValues (snd (fold_left (collectProvider cloudData) keys c))).
Proof.
  revert c. induction keys as [|k keys IH]; intros c H; cbn [fold_left].
  - exact H.
  - apply IH. now apply collectProvider_providers.
Qed.

(** X15.  Every location of a successful aggregation has at least one
    provider, so its consensus is never undefined: a location reported by
    one provider carries that provider's values as they are, with agreement
    100 and no variations; a location reported by several carries the
    computed consensus, variations and agreement.  [totalLocations] counts
    the locations listed. *)
Theorem locations_are_well_formed
  (cloudData : CloudData) (timestamp : string) (includeRaw : bool) (now : Z)
  (agg : Aggregation) :
  createCrossCloudAggregation cloudData timestamp includeRaw now = Ok agg ->
  totalLocations (agg_summary agg) = List.length (agg_locations agg) /\
  Forall
    (fun l =>
       match loc_providers (ls_location l) with
       | [] => False
       | [p] =>
           ls_consensus l = Verbatim (Some (pe_data p)) /\
           ls_variations l = [] /\
           ls_agreement l = ofZ 100
       | ps =>
           ls_consensus l = Computed (calculateConsensus (map pe_data ps)) /\
           ls_variations l = calculateVariations (map pe_data ps) /\
           ls_agreement l = calculateAgreement (map pe_data ps)
       end)
    (agg_locations agg).
Proof.
  intro H.
  assert (Hne : cloudData <> []).
  { intros ->. discriminate. }
  rewrite createCrossCloudAggregation_nonempty in H by assumption.
  cbv zeta in H. injection H as <-.
  cbn [agg_summary agg_locations totalLocations].
  split.
  - unfold objKeys, objValues. now rewrite !length_map.
  - apply Forall_map.
    eapply Forall_impl;
      [|apply (collected_providers cloudData (objKeys cloudData) ([], []));
        constructor].
    intros e He. unfold summarizeLocation.
    destruct (loc_providers e) as [|p [|q ps]] eqn:E; [congruence| |].
    + cbn [List.length Nat.ltb Nat.leb ls_location]. rewrite E.
      cbn [hd_error option_map ls_consensus ls_variations ls_agreement].
      repeat split.
    + cbn [List.length Nat.ltb Nat.leb ls_location]. rewrite E.
      cbn [ls_consensus ls_variations ls_agreement]. repeat split.
Qed.

Lemma locations_are_well_formed_witness :
  exists agg,
    createCrossCloudAggregation
      [("aws", Samples.providerAt 0); ("gcp", Samples.providerAt 60000)]
      "2024-01-01T12:00:00.000Z" false 120000 = Ok agg /\
    totalLocations (agg_summary agg) = List.length (agg_locations agg).
Proof.
  eexists. split; [reflexivity|].
  apply (locations_are_well_formed
           [("aws", Samples.providerAt 0); ("gcp", Samples.providerAt 60000)]
           "2024-01-01T12:00:00.000Z" false 120000 _ eq_refl).
Defined.

Lemma collectItem_count (provider source key : string)
  (item : LocationItem) (aggregated : Point) (c : Collected) :
  List.length (fst (collectItem provider source key item aggregated c))
  = S (List.length (fst c)).
Proof.
  destruct c as [allData locationData]. cbn [collectItem fst].
  rewrite length_app. simpl. lia.
Qed.

(** Providers that each report one location with an aggregate add one data
    point each. *)
Lemma single_locations_count (cloudData : CloudData) (keys : list string)
  (c : Collected) :
  (forall k r, objGet cloudData k = Some r ->
               exists item p,
                 pr_data r = OneLocation item /\
                 item_aggregated item = Some p) ->
  (forall k, In k keys -> In k (objKeys cloudData)) ->
  List.length (fst (fold_left (collectProvider cloudData) keys c))
  = (List.length (fst c) + List.length keys)%nat.
Proof.
  intros Hall. revert c.
  induction keys as [|k keys IH]; intros c Hin; cbn [fold_left List.length].
  - lia.
  - rewrite IH by (intros; apply Hin; now right).
    destruct (objGet_of_key cloudData k (Hin k (or_introl eq_refl)))
      as (r & Hr & _).
    destruct (Hall k r Hr) as (item & p & Hd & Hp).
    unfold collectProvider. rewrite Hr, Hd, Hp.
    rewrite collectItem_count. lia.
Qed.

(** X16.  The availability is measured against the providers that answered,
    not against those that were asked: when every provider that answered
    reports one location with an aggregate, [dataAvailability] is 100,
    however many providers failed. *)
Theorem availability_ignores_failed_providers
  (cloudData : CloudData) (timestamp : string) (includeRaw : bool) (now : Z) :
  cloudData <> [] ->
  (forall k r, In (k, r) cloudData ->
               exists item p,
                 pr_data r = OneLocation item /\
                 item_aggregated item = Some p) ->
  exists agg r,
    createCrossCloudAggregation cloudData timestamp includeRaw now = Ok agg /\
    agg_cloudProviders agg = objKeys cloudData /\
    agg_reliability agg = Some r /\
    dataAvailability r = ofZ 100.
Proof.
  intros Hne Hall.
  rewrite createCrossCloudAggregation_nonempty by assumption. cbv zeta.
  assert (Hget : forall k r, objGet cloudData k = Some r ->
                             exists item p,
                               pr_data r = OneLocation item /\
                               item_aggregated item = Some p).
  { intros k r Hr. apply (Hall k r). clear Hall Hne.
    induction cloudData as [|[k' v'] o IH]; [discriminate|].
    cbn [objGet] in Hr. destruct (String.eqb k k') eqn:E.
    - apply String.eqb_eq in E. injection Hr as <-. subst k'. now left.
    - right. now apply IH. }
  pose proof (single_locations_count cloudData (objKeys cloudData) ([], [])
                Hget (fun k H => H)) as Hcount.
  cbn [fst List.length Nat.add] in Hcount.
  assert (Hn : List.length (objKeys cloudData) <> 0%nat).
  { unfold objKeys. rewrite length_map. destruct cloudData; simpl; congruence. }
  do 2 eexists. split; [reflexivity|]. split; [reflexivity|].
  cbn [agg_reliability]. rewrite Hcount.
  replace (Nat.ltb 0 (List.length (objKeys cloudData))) with true
    by (symmetry; apply Nat.ltb_lt; lia).
  split; [reflexivity|].
  unfold calculateReliability. cbv zeta. cbn [dataAvailability].
  rewrite length_map, Hcount. rewrite (availability_value _ _ Hn).
  unfold ofZ. f_equal.
  transitivity (Qred 100); [apply Qred_complete|reflexivity].
  rewrite Qred_correct. field. apply inject_Z_pos_nonzero. exact Hn.
Qed.

Lemma availability_ignores_failed_providers_witness :
  exists agg r,
    createCrossCloudAggregation [("gcp", Samples.providerAt 0)]
      "2024-01-01T12:00:00.000Z" false 120000 = Ok agg /\
    agg_cloudProviders agg = ["gcp"] /\
    agg_reliability agg = Some r /\
    dataAvailability r = ofZ 100.
Proof.
  apply (availability_ignores_failed_providers
           [("gcp", Samples.providerAt 0)] "2024-01-01T12:00:00.000Z" false
           120000).
  - discriminate.
  - intros k r [H | []]. injection H as _ <-.
    do 2 eexists. split; reflexivity.
Defined.

Lemma nothing_collected (cloudData : CloudData) (keys : list string)
  (c : Collected) :
  (forall k r, objGet cloudData k = Some r ->
               match pr_data r with
               | ManyLocations items =>
                   Forall (fun item => item_aggregated item = None) items
               | OneLocation item => item_aggregated item = None
               end) ->
  fold_left (collectProvider cloudData) keys c = c.
Proof.
  intro Hall. revert c.
  induction keys as [|k keys IH]; intro c; cbn [fold_left]; [reflexivity|].
  rewrite <- (IH c) at 2. f_equal.
  unfold collectProvider. destruct (objGet cloudData k) as [r|] eqn:Hr;
    [|reflexivity].
  specialize (Hall k r Hr). destruct (pr_data r) as [items|item].
  - induction Hall as [|item items Hi _ IHi]; cbn [fold_left];
      [reflexivity|].
    rewrite Hi. exact IHi.
  - now rewrite Hall.
Qed.

(** X17.  Providers that answer without any [aggregated] object contribute
    nothing, and the aggregation still succeeds: the consensus and the
    variations are empty, there is no reliability block, no location, and
    the summary has no average temperature and no overall reliability. *)
Theorem replies_without_aggregate_give_empty_success
  (cloudData : CloudData) (timestamp : string) (includeRaw : bool) (now : Z) :
  cloudData <> [] ->
  (forall k r, In (k, r) cloudData ->
               match pr_data r with
               | ManyLocations items =>
                   Forall (fun item => item_aggregated item = None) items
               | OneLocation item => item_aggregated item = None
               end) ->
  createCrossCloudAggregation cloudData timestamp includeRaw now =
  Ok (mkAggregation timestamp (objKeys cloudData)
        (List.length (objKeys cloudData)) [] [] None []
        (mkSummary 0 None None None (calculateDataFreshness cloudData now))
        (if includeRaw then Some cloudData else None)).
Proof.
  intros Hne Hall.
  rewrite createCrossCloudAggregation_nonempty by assumption. cbv zeta.
  rewrite nothing_collected; [reflexivity|].
  intros k r Hr. apply (Hall k r). clear Hall Hne.
  induction cloudData as [|[k' v'] o IH]; [discriminate|].
  cbn [objGet] in Hr. destruct (String.eqb k k') eqn:E.
  - apply String.eqb_eq in E. injection Hr as <-. subst k'. now left.
  - right. now apply IH.
Qed.

Lemma replies_without_aggregate_give_empty_success_witness :
  createCrossCloudAggregation
    [("aws", mkProviderResult "aws-lambda" (ManyLocations []) None)]
    "2024-01-01T12:00:00.000Z" false 120000
  = Ok (mkAggregation "2024-01-01T12:00:00.000Z" ["aws"] 1 [] [] None []
          (mkSummary 0 None None None "unknown") None).
Proof.
  apply (replies_without_aggregate_give_empty_success
           [("aws", mkProviderResult "aws-lambda" (ManyLocations []) None)]
           "2024-01-01T12:00:00.000Z" false 120000).
  - discriminate.
  - intros k r [H | []]. injection H as _ <-. constructor.
Defined.

Lemma Qred_inject_Z (z : Z) : Qred (inject_Z z) = inject_Z z.
Proof.
  unfold Qred, inject_Z.
  pose proof (Z.ggcd_gcd z 1) as Hg.
  pose proof (Z.ggcd_correct_divisors z 1) as Hd.
  destruct (Z.ggcd z 1) as [g [a b]]. cbn [fst snd] in *.
  rewrite Z.gcd_1_r in Hg. subst g. destruct Hd as [Ha Hb].
  assert (a = z) by lia. assert (b = 1%Z) by lia. subst a b. reflexivity.
Qed.

Lemma many_locations_count (provider source : string)
  (items : list LocationItem) (c : Collected) :
  Forall (fun item => item_aggregated item <> None) items ->
  List.length
    (fst (fold_left
            (fun c item =>
               match item_aggregated item with
               | Some aggregated =>
                   collectItem provider source
                     (keyOfId (item_locationId item)) item aggregated c
               | None => c
               end)
            items c))
  = (List.length (fst c) + List.length items)%nat.
Proof.
  intro H. revert c.
  induction H as [|item items Hi _ IH]; intro c; cbn [fold_left List.length].
  - lia.
  - rewrite IH. destruct (item_aggregated item) as [p|]; [|congruence].
    rewrite collectItem_count. lia.
Qed.

(** X24.  Every location of a reply counts as a data point while the
    divisor counts providers, so the availability is not a percentage: one
    provider that reports [n] locations, each with an aggregate, gives a
    [dataAvailability] of [100 * n]. *)
Theorem availability_counts_locations
  (provider : string) (r : ProviderResult) (items : list LocationItem)
  (timestamp : string) (includeRaw : bool) (now : Z) :
  pr_data r = ManyLocations items ->
  items <> [] ->
  Forall (fun item => item_aggregated item <> None) items ->
  exists agg rel,
    createCrossCloudAggregation [(provider, r)] timestamp includeRaw now
    = Ok agg /\
    agg_reliability agg = Some rel /\
    dataAvailability rel = ofZ (100 * Z.of_nat (List.length items)).
Proof.
  intros Hd Hne Hall.
  rewrite createCrossCloudAggregation_nonempty by discriminate. cbv zeta.
  cbn [objKeys map fst fold_left]. unfold collectProvider at 1 2 3 4 5 6 7.
  cbn [objGet]. rewrite String.eqb_refl, Hd.
  pose proof (many_locations_count provider (pr_source r) items ([], [])
                Hall) as Hcount.
  cbn [fst List.length Nat.add] in Hcount.
  assert (Hn : List.length items <> 0%nat)
    by (destruct items; simpl; congruence).
  do 2 eexists. split; [reflexivity|]. cbn [agg_reliability].
  rewrite Hcount.
  replace (Nat.ltb 0 (List.length items)) with true
    by (symmetry; apply Nat.ltb_lt; lia).
  split; [reflexivity|].
  unfold calculateReliability. cbv zeta. cbn [dataAvailability List.length].
  rewrite length_map, Hcount.
  rewrite (availability_value _ 1) by discriminate.
  unfold ofZ. f_equal.
  transitivity (Qred (inject_Z (100 * Z.of_nat (List.length items))));
    [apply Qred_complete|].
  - rewrite Qred_correct, inject_Z_mult. change (inject_Z 100) with 100%Q.
    change (inject_Z (Z.of_nat 1)) with 1%Q. field.
  - apply Qred_inject_Z.
Qed.

Lemma availability_counts_locations_witness :
  exists agg rel,
    createCrossCloudAggregation
      [("aws",
        mkProviderResult "aws-lambda"
          (ManyLocations
             [mkLocationItem (Some (Samples.point 20)) (Some "london")
                (Some "London") JUndef JUndef None;
              mkLocationItem (Some (Samples.point 25)) (Some "paris")
                (Some "Paris") JUndef JUndef None])
          (Some 0%Z))]
      "2024-01-01T12:00:00.000Z" false 120000
    = Ok agg /\
    agg_reliability agg = Some rel /\
    dataAvailability rel = ofZ 200.
Proof.
  apply (availability_counts_locations "aws"
           (mkProviderResult "aws-lambda"
              (ManyLocations
                 [mkLocationItem (Some (Samples.point 20)) (Some "london")
                    (Some "London") JUndef JUndef None;
                  mkLocationItem (Some (Samples.point 25)) (Some "paris")
                    (Some "Paris") JUndef JUndef None])
              (Some 0%Z))
           [mkLocationItem (Some (Samples.point 20)) (Some "london")
              (Some "London") JUndef JUndef None;
            mkLocationItem (Some (Samples.point 25)) (Some "paris")
              (Some "Paris") JUndef JUndef None]
           "2024-01-01T12:00:00.000Z" false 120000).
  - reflexivity.
  - discriminate.
  - repeat constructor; discriminate.
Defined.

(** *** The handler *)

(** Sorting the settled results into [cloudData] and [errors] does not
    depend on the world and leaves the sink alone. *)
Lemma processResults_pure
  (results : list (settled ProviderResult)) (cloudProviders : list string)
  (index : nat) (cloudData : CloudData) (errors : list (string * string)) :
  exists out,
    forall w : World Item,
      exists w',
        processResults results cloudProviders index cloudData errors w
        = (Ok out, w') /\
        db w' = db w /\ putFails w' = putFails w.
Proof.
  revert index cloudData errors.
  induction results as [|r results IH]; intros index cloudData errors.
  - exists (cloudData, errors). intro w. exists w. repeat split.
  - cbn [processResults]. destruct r as [value|reason].
    + apply IH.
    + destruct (IH (S index) cloudData
                  (objSet errors (nth index cloudProviders "undefined")
                     reason)) as (out & Hout).
      exists out. intro w. unfold bind at 1. cbn [say].
      destruct (Hout (log (String.append
                             (nth index cloudProviders "undefined")
                             (String.append " failed: " reason)) w))
        as (w' & E & Hdb & Hpf).
      exists w'. repeat split; assumption.
Qed.

Lemma storeAggregatedData_swallows (aggregatedData : Aggregation)
  (location timestamp : string) (nowMs : Z) (w : World Item) :
  exists w',
    storeAggregatedData aggregatedData location timestamp nowMs w
    = (Ok tt, w') /\
    db w' =
    match putFails w with
    | None =>
        db w ++
        [mkItem (String.append "aggregated-" location) timestamp "aggregated"
           aggregatedData (nowMs / 1000 + 7 * 24 * 60 * 60)%Z]
    | Some _ => db w
    end.
Proof.
  destruct w as [d c [e|]]; eexists; split; reflexivity.
Qed.

(** The response and the rows written by the handler, in terms of the
    sorted results. *)
Lemma handler_characterised (event : Event)
  (aws azure gcp : settled ProviderResult) (timestamp : string)
  (clock : Clock) :
  let cloudProviders :=
    match ev_providers event with
    | Some l => l
    | None => ["aws"; "azure"; "gcp"]
    end in
  let cloudPromises :=
    (if includes cloudProviders "aws" then [aws] else []) ++
    (if includes cloudProviders "azure" then [azure] else []) ++
    (if includes cloudProviders "gcp" then [gcp] else []) in
  let includeRaw :=
    match ev_includeRaw event with
    | Some s => String.eqb s "true"
    | None => false
    end in
  exists cloudData errors,
    (forall w0 : World Item,
        fst (processResults cloudPromises cloudProviders 0 [] [] w0)
        = Ok (cloudData, errors)) /\
    forall w : World Item,
      match createCrossCloudAggregation cloudData timestamp includeRaw
              (freshnessNow clock) with
      | Throw e =>
          fst (handler event aws azure gcp timestamp clock w)
          = createResponse 500
              (FailureBody e timestamp (endTime clock - startTime clock)) /\
          db (snd (handler event aws azure gcp timestamp clock w)) = db w
      | Ok aggregatedData =>
          fst (handler event aws azure gcp timestamp clock w)
          = createResponse 200
              (SuccessBody timestamp (endTime clock - startTime clock)
                 (objKeys cloudData) (objKeys errors)
                 match nonEmptyLocation (ev_location event) with
                 | Some l => l
                 | None => "multiple"
                 end
                 aggregatedData
                 (if Nat.ltb 0 (List.length (objKeys errors))
                  then Some errors else None)) /\
          db (snd (handler event aws azure gcp timestamp clock w)) =
          match nonEmptyLocation (ev_location event), putFails w with
          | Some l, None =>
              db w ++
              [mkItem (String.append "aggregated-" l) timestamp "aggregated"
                 aggregatedData
                 (storeNow clock / 1000 + 7 * 24 * 60 * 60)%Z]
          | _, _ => db w
          end
      end.
Proof.
  cbv zeta.
  set (cloudProviders :=
         match ev_providers event with
         | Some l => l
         | None => ["aws"; "azure"; "gcp"]
         end).
  set (cloudPromises :=
         (if includes cloudProviders "aws" then [aws] else []) ++
         (if includes cloudProviders "azure" then [azure] else []) ++
         (if includes cloudProviders "gcp" then [gcp] else [])).
  destruct (processResults_pure cloudPromises cloudProviders 0 [] [])
    as ([cloudData errors] & Hout).
  exists cloudData, errors. split.
  - intro w0. destruct (Hout w0) as (w' & E & _). now rewrite E.
  - intro w.
    destruct (handler event aws azure gcp timestamp clock w) as [resp wf]
      eqn:Hh.
    cbn [fst snd]. revert Hh. unfold handler. cbv zeta.
    fold cloudProviders. fold cloudPromises.
    unfold bind at 1. cbn [say]. unfold bind at 1. cbn [say].
    unfold bind at 1.
    match goal with
    | |- context [processResults cloudPromises cloudProviders 0 [] [] ?w0] =>
        destruct (Hout w0) as (w1 & E & Hdb & Hpf); rewrite E
    end.
    cbn [log db putFails] in Hdb, Hpf.
    unfold bind at 1. cbn [lift].
    destruct (createCrossCloudAggregation cloudData timestamp
                match ev_includeRaw event with
                | Some s => String.eqb s "true"
                | None => false
                end (freshnessNow clock)) as [agg|e].
    + unfold bind at 1.
      destruct (nonEmptyLocation (ev_location event)) as [l|].
      * destruct (storeAggregatedData_swallows agg l timestamp
                    (storeNow clock) w1) as (w2 & S & Hdb2).
        rewrite S. unfold bind at 1. cbn [say ret].
        intro Hh. injection Hh as <- <-. split; [reflexivity|].
        cbn [log db]. rewrite Hdb2, Hpf, Hdb.
        destruct (putFails w); reflexivity.
      * cbn [ret]. unfold bind at 1. cbn [say ret].
        intro Hh. injection Hh as <- <-. split; [reflexivity|].
        cbn [log db]. rewrite Hdb. destruct (putFails w); reflexivity.
    + intro Hh. injection Hh as <- <-. split; [reflexivity|].
      cbn [log db]. exact Hdb.
Qed.

(** X18.  A rejected write of the aggregate is logged and swallowed:
    [storeAggregatedData] does not throw, and for the same outcomes of the
    three provider calls the handler answers as it does when the sink
    accepts the write, leaving the store as it was. *)
Theorem rejected_aggregate_write_is_swallowed
  (event : Event) (aws azure gcp : settled ProviderResult)
  (timestamp : string) (clock : Clock) (w : World Item) (e : string) :
  putFails w = Some e ->
  (forall aggregatedData location nowMs,
      exists w',
        storeAggregatedData aggregatedData location timestamp nowMs w
        = (Ok tt, w') /\
        db w' = db w /\
        In (String.append "Failed to store aggregated data: " e)
          (console w')) /\
  fst (handler event aws azure gcp timestamp clock w)
  = fst (handler event aws azure gcp timestamp clock
           (mkWorld (db w) (console w) None)) /\
  db (snd (handler event aws azure gcp timestamp clock w)) = db w.
Proof.
  intro Hpf. split; [| split].
  - intros aggregatedData location nowMs.
    destruct w as [d c pf]. cbn in Hpf. subst pf.
    eexists. split; [reflexivity |]. split; [reflexivity |].
    cbn. rewrite in_app_iff. right. left. reflexivity.
  - destruct (handler_characterised event aws azure gcp timestamp clock)
      as (cloudData & errors & _ & H).
    pose proof (H w) as H1.
    pose proof (H (mkWorld (db w) (console w) None)) as H2.
    destruct (createCrossCloudAggregation cloudData timestamp _ _);
      destruct H1 as (-> & _); destruct H2 as (-> & _); reflexivity.
  - destruct (handler_characterised event aws azure gcp timestamp clock)
      as (cloudData & errors & _ & H).
    pose proof (H w) as H1.
    destruct (createCrossCloudAggregation cloudData timestamp _ _);
      destruct H1 as (_ & ->); [| reflexivity].
    rewrite Hpf. destruct (nonEmptyLocation (ev_location event)); reflexivity.
Qed.

Lemma rejected_aggregate_write_is_swallowed_witness :
  db (snd (handler (mkEvent (Some "london") None None)
             (Fulfilled (Samples.providerAt 0))
             (Rejected "Azure Function URL not configured")
             (Rejected "GCP Function URL not configured")
             "2024-01-01T12:00:00.000Z" (mkClock 0 10 20 30)
             Samples.failingSink))
  = [].
Proof.
  apply (proj2 (proj2 (rejected_aggregate_write_is_swallowed
                         (mkEvent (Some "london") None None)
                         (Fulfilled (Samples.providerAt 0))
                         (Rejected "Azure Function URL not configured")
                         (Rejected "GCP Function URL not configured")
                         "2024-01-01T12:00:00.000Z" (mkClock 0 10 20 30)
                         Samples.failingSink
                         "ProvisionedThroughputExceededException"
                         eq_refl))).
Defined.

(** X19.  For a request that names no providers, the three are asked in
    the order aws, azure, gcp, and every result is filed under its own name:
    whenever the handler answers with an aggregate, the status is 200,
    [cloudProviders] lists the providers that answered and [failedProviders]
    those that failed.  When none answered the answer is 500 (no provider
    data). *)
Theorem default_request_files_results_by_name
  (event : Event) (aws azure gcp : settled ProviderResult)
  (timestamp : string) (clock : Clock) (w : World Item) :
  ev_providers event = None ->
  let answered :=
    (if isFulfilled aws then ["aws"] else []) ++
    (if isFulfilled azure then ["azure"] else []) ++
    (if isFulfilled gcp then ["gcp"] else []) in
  let failed :=
    (if isFulfilled aws then [] else ["aws"]) ++
    (if isFulfilled azure then [] else ["azure"]) ++
    (if isFulfilled gcp then [] else ["gcp"]) in
  (forall status timestamp' executionTimeMs cloudProviders failedProviders
          location aggregatedData errors,
      fst (handler event aws azure gcp timestamp clock w)
      = createResponse status
          (SuccessBody timestamp' executionTimeMs cloudProviders
             failedProviders location aggregatedData errors) ->
      status = 200%Z /\
      cloudProviders = answered /\
      failedProviders = failed /\
      agg_cloudProviders aggregatedData = answered /\
      agg_dataPoints aggregatedData = List.length answered) /\
  (answered = [] ->
   fst (handler event aws azure gcp timestamp clock w)
   = createResponse 500
       (FailureBody noProviderMessage timestamp
          (endTime clock - startTime clock))).
Proof.
  intro Hp.
  pose proof (handler_characterised event aws azure gcp timestamp clock)
    as H.
  cbv zeta in H. rewrite Hp in H.
  destruct H as (cloudData & errors & Hpr & H).
  specialize (Hpr Samples.quietWorld). specialize (H w).
  destruct aws as [a|ea], azure as [z|ez], gcp as [g|eg];
    cbn in Hpr; injection Hpr as <- <-;
    cbn [isFulfilled app];
    try (rewrite createCrossCloudAggregation_nonempty in H by discriminate;
         cbv zeta in H; destruct H as (-> & _);
         split; [| discriminate];
         intros status timestamp' executionTimeMs cloudProviders
           failedProviders location aggregatedData errors' E;
         injection E as <- <- <- <- <- <- <- <-;
         repeat split; reflexivity).
  cbn in H. destruct H as (-> & _).
  split; [| reflexivity].
  intros status timestamp' executionTimeMs cloudProviders
    failedProviders location aggregatedData errors' E.
  discriminate E.
Qed.

Lemma default_request_files_results_by_name_witness :
  exists aggregatedData errors,
    fst (handler (mkEvent (Some "london") None None)
           (Rejected "AWS Lambda failed")
           (Rejected "Azure Function URL not configured")
           (Fulfilled (Samples.providerAt 0))
           "2024-01-01T12:00:00.000Z" (mkClock 0 10 20 30)
           Samples.quietWorld)
    = createResponse 200
        (SuccessBody "2024-01-01T12:00:00.000Z" 30 ["gcp"] ["aws"; "azure"]
           "london" aggregatedData errors) /\
    agg_cloudProviders aggregatedData = ["gcp"] /\
    agg_dataPoints aggregatedData = 1%nat.
Proof.
  eexists. eexists. split; [vm_compute; reflexivity |].
  refine (let H := proj1 (default_request_files_results_by_name
                            (mkEvent (Some "london") None None)
                            (Rejected "AWS Lambda failed")
                            (Rejected "Azure Function URL not configured")
                            (Fulfilled (Samples.providerAt 0))
                            "2024-01-01T12:00:00.000Z" (mkClock 0 10 20 30)
                            Samples.quietWorld eq_refl)
                     200%Z _ _ _ _ _ _ _ eq_refl in _).
  destruct H as (_ & _ & _ & H1 & H2). split; [exact H1 | exact H2].
Defined.

(** X20.  The results are filed by position, not by name: a request for the
    providers "gcp,aws" asks aws first and gcp second (the fixed order) but
    names the first result "gcp" and the second "aws", so the reply of AWS
    is filed under "gcp" and the reply of GCP under "aws". *)
Theorem reordered_providers_are_mislabelled
  (location : option string) (aws gcp : ProviderResult)
  (azure : settled ProviderResult) (timestamp : string) (clock : Clock)
  (w : World Item) :
  exists aggregatedData,
    fst (handler (mkEvent location (Some "true") (Some ["gcp"; "aws"]))
           (Fulfilled aws) azure (Fulfilled gcp) timestamp clock w)
    = createResponse 200
        (SuccessBody timestamp (endTime clock - startTime clock)
           ["gcp"; "aws"] []
           match nonEmptyLocation location with
           | Some l => l
           | None => "multiple"
           end
           aggregatedData None) /\
    agg_rawData aggregatedData = Some [("gcp", aws); ("aws", gcp)].
Proof.
  pose proof (handler_characterised
                (mkEvent location (Some "true") (Some ["gcp"; "aws"]))
                (Fulfilled aws) azure (Fulfilled gcp) timestamp clock) as H.
  cbv zeta in H. destruct H as (cloudData & errors & Hpr & H).
  specialize (Hpr Samples.quietWorld). specialize (H w).
  cbn in Hpr. injection Hpr as <- <-.
  rewrite createCrossCloudAggregation_nonempty in H by discriminate.
  cbv zeta in H. destruct H as (-> & _).
  eexists. split; reflexivity.
Qed.

End AggregatorExtras.

(** ** The consensus and the reliability in binary64 *)

Section AggregatorBinary64Extras.

Import Binary64 AggregatorBinary64.
Import Aggregator(metric, temperature, humidity, pressure, windSpeed,
                  cloudiness, metrics, metric_eqb).
Local Open Scope list_scope.
Local Open Scope float_scope.

(** The entry of a metric in the result of [calculateConsensus]. *)
Lemma getEntry64_calculateConsensus (dataPoints : list Point) (m : metric) :
  getEntry (calculateConsensus dataPoints) m =
  if Nat.ltb 0 (List.length (presentValues m dataPoints))
  then Some (round2 (sumValues (presentValues m dataPoints)
                     / ofNat (List.length (presentValues m dataPoints))))
  else None.
Proof.
  unfold calculateConsensus.
  pose proof (presentValues64_length m dataPoints) as Hle.
  destruct (Nat.eqb (List.length dataPoints) 0) eqn:E.
  - apply Nat.eqb_eq in E.
    replace (Nat.ltb 0 (List.length (presentValues m dataPoints))) with false
      by (symmetry; apply Nat.ltb_ge; lia).
    reflexivity.
  - etransitivity.
    + apply (getEntry64_fold
               (fun k => Nat.ltb 0 (List.length (presentValues k dataPoints)))
               (fun k =>
                  round2 (sumValues (presentValues k dataPoints)
                          / ofNat (List.length (presentValues k dataPoints))))).
    + simpl getEntry. cbv iota.
      replace (existsb (metric_eqb m) metrics) with true
        by (destruct m; reflexivity).
      reflexivity.
Qed.

(** X11.  In the cross-cloud consensus each metric has its own divisor: the
    entry of a metric is absent when no provider has a value for it (a
    missing or [null] value does not count), and otherwise it is
    [Math.round(mean * 100) / 100], where [mean] is the sum of the values
    present for that metric, taken in the order of the providers, divided by
    their number, all in binary64.  A metric that has a variation always has
    a consensus.  For 19, a missing value and 22 the entry is 20.5; for
    1.005 twice it is 1; and the entry can depend on the order of the
    providers: 6, 33.3, -4.8, 35.6 give 17.52 and 33.3, 6, 35.6, -4.8 give
    17.53. *)
Theorem consensus_is_mean_of_present :
  (forall dataPoints m,
      presentValues m dataPoints = [] ->
      getEntry (calculateConsensus dataPoints) m = None) /\
  (forall dataPoints m,
      presentValues m dataPoints <> [] ->
      getEntry (calculateConsensus dataPoints) m
      = Some (mathRound
                (StatsBinary64.mean
                   (map toNumber (presentValues m dataPoints)) * 100) / 100)) /\
  (forall dataPoints m,
      getEntry (calculateVariations dataPoints) m <> None ->
      getEntry (calculateConsensus dataPoints) m <> None) /\
  getEntry
    (calculateConsensus
       [Samples.point64 (Number 19); Samples.point64 Undefined;
        Samples.point64 (Number 22)])
    temperature
  = Some 20.5 /\
  getEntry (calculateConsensus (Samples.points64 [1.005; 1.005])) temperature
  = Some 1 /\
  getEntry (calculateConsensus (Samples.points64 [6; 33.3; -4.8; 35.6]))
    temperature
  = Some 17.52 /\
  getEntry (calculateConsensus (Samples.points64 [33.3; 6; 35.6; -4.8]))
    temperature
  = Some 17.53.
Proof.
  split; [| split; [| split; [| repeat split; vm_compute; reflexivity]]].
  - intros dataPoints m H. rewrite getEntry64_calculateConsensus, H.
    reflexivity.
  - intros dataPoints m H. rewrite getEntry64_calculateConsensus.
    destruct (presentValues m dataPoints) as [| v values] eqn:E;
      [congruence |].
    cbn [List.length Nat.ltb Nat.leb].
    unfold round2, StatsBinary64.mean, StatsBinary64.total, sumValues.
    rewrite fold_sum_map, length_map. reflexivity.
  - intros dataPoints m.
    rewrite getEntry64_calculateConsensus, getEntry64_calculateVariations.
    destruct (Nat.ltb 1 (List.length (presentValues m dataPoints))) eqn:E;
      [| congruence].
    apply Nat.ltb_lt in E. intros _.
    replace (Nat.ltb 0 (List.length (presentValues m dataPoints))) with true
      by (symmetry; apply Nat.ltb_lt; lia).
    discriminate.
Qed.

Lemma consensus_is_mean_of_present_witness :
  getEntry
    (calculateConsensus
       [Samples.point64 (Number 21.4); Samples.point64 Null;
        Samples.point64 (Number 19.8)])
    temperature
  = Some (mathRound (StatsBinary64.mean [21.4; 19.8] * 100) / 100).
Proof.
  apply (proj1 (proj2 consensus_is_mean_of_present)
           [Samples.point64 (Number 21.4); Samples.point64 Null;
            Samples.point64 (Number 19.8)]
           temperature).
  discriminate.
Defined.

(** *** Reliability *)

(** X14.  [calculateReliability].  The availability is the number of data
    points divided by the number of providers, times 100.  With fewer than
    two defined temperatures [temperatureAgreement] is left undefined and
    the overall reliability is [Math.round((availability + 100) / 2)].  With
    two or more temperature values, none of them [NaN],
    [temperatureAgreement] is [Math.max(0, 100 - (max - min) * 25)], not
    rounded, and the overall reliability is the rounded mean of the
    availability and the agreement, where an agreement of 0 is replaced by
    100.  All of it in binary64: two providers reporting 19.9 and 20.1 give
    an agreement of 94.99999999999993 and an overall reliability of 97; 18
    and 22 give an agreement of 0 and an overall reliability of 100; one
    provider out of three gives 33.33333333333333 and 67. *)
Theorem reliability_overall :
  (forall dataPoints totalProviders,
      dataAvailability (calculateReliability dataPoints totalProviders)
      = ofNat (List.length dataPoints) / ofNat totalProviders * 100) /\
  (forall dataPoints totalProviders,
      (List.length (tempValues dataPoints) <= 1)%nat ->
      let r := calculateReliability dataPoints totalProviders in
      temperatureAgreement r = Undefined /\
      overall r = mathRound ((dataAvailability r + 100) / 2)) /\
  (forall dataPoints totalProviders,
      (2 <= List.length (tempValues dataPoints))%nat ->
      Forall notNaN (tempValues dataPoints) ->
      let r := calculateReliability dataPoints totalProviders in
      exists maxTemp minTemp agreement,
        In maxTemp (map toNumber (tempValues dataPoints)) /\
        In minTemp (map toNumber (tempValues dataPoints)) /\
        (forall t, In t (map toNumber (tempValues dataPoints)) ->
                   (minTemp <=? t) = true /\ (t <=? maxTemp) = true) /\
        agreement = mathMax [Number 0; Number (100 - (maxTemp - minTemp) * 25)] /\
        temperatureAgreement r = Number agreement /\
        overall r =
        mathRound
          ((dataAvailability r +
            (if is_zero agreement || is_nan agreement then 100 else agreement))
           / 2)) /\
  calculateReliability (Samples.points64 [19.9; 20.1]) 2
  = mkReliability 100 (Number 94.99999999999993) 97 /\
  calculateReliability (Samples.points64 [18; 22]) 2
  = mkReliability 100 (Number 0) 100 /\
  calculateReliability (Samples.points64 [20]) 3
  = mkReliability 33.33333333333333 Undefined 67.
Proof.
  split; [reflexivity |].
  split; [| split; [| repeat split; vm_compute; reflexivity]].
  - intros dataPoints totalProviders H r.
    assert (E : temperatureAgreement r = Undefined).
    { unfold r, calculateReliability. cbn [temperatureAgreement].
      destruct (Nat.ltb 1 (List.length dataPoints)); [| reflexivity].
      cbv zeta.
      replace (Nat.ltb 1 (List.length (tempValues dataPoints))) with false
        by (symmetry; apply Nat.ltb_ge; lia).
      reflexivity. }
    split; [exact E |].
    unfold r, calculateReliability in *.
    cbn [temperatureAgreement overall dataAvailability] in *.
    rewrite E. reflexivity.
  - intros dataPoints totalProviders Hlen Hall r.
    assert (Hne : tempValues dataPoints <> [])
      by (destruct (tempValues dataPoints); [cbn in Hlen; lia | discriminate]).
    destruct (mathMax_is_maximum _ Hne Hall) as [Hmax Hmaxb].
    destruct (mathMin_is_minimum _ Hne Hall) as [Hmin Hminb].
    pose proof (tempValues_length_le dataPoints) as Hle.
    exists (mathMax (tempValues dataPoints)), (mathMin (tempValues dataPoints)).
    eexists. split; [exact Hmax |]. split; [exact Hmin |].
    split; [intros t Ht; split; auto |].
    split; [reflexivity |].
    unfold r, calculateReliability.
    cbn [temperatureAgreement overall dataAvailability].
    replace (Nat.ltb 1 (List.length dataPoints)) with true
      by (symmetry; apply Nat.ltb_lt; lia).
    cbv zeta.
    replace (Nat.ltb 1 (List.length (tempValues dataPoints))) with true
      by (symmetry; apply Nat.ltb_lt; lia).
    split; [reflexivity |].
    unfold orHundred, truthy. cbn [toNumber].
    destruct (is_zero _ || is_nan _); reflexivity.
Qed.

Lemma reliability_overall_witness :
  temperatureAgreement
    (calculateReliability
       [Samples.point64 (Number 21.4); Samples.point64 Undefined] 3)
  = Undefined /\
  exists agreement,
    temperatureAgreement
      (calculateReliability (Samples.points64 [21.4; 19.8; 20.3]) 3)
    = Number agreement.
Proof.
  split.
  - apply (proj1 (proj2 reliability_overall)
             [Samples.point64 (Number 21.4); Samples.point64 Undefined] 3%nat).
    cbn. lia.
  - destruct (proj1 (proj2 (proj2 reliability_overall))
                (Samples.points64 [21.4; 19.8; 20.3]) 3%nat)
      as (maxTemp & minTemp & agreement & _ & _ & _ & _ & H & _).
    + cbn. lia.
    + repeat constructor.
    + exists agreement. exact H.
Defined.

End AggregatorBinary64Extras.

(** ** The route of the user interface *)

Section RouteExtras.

Local Open Scope string_scope.
Local Open Scope list_scope.

(** X21.  The answers of the route fall into three kinds.  Status 400 is
    given exactly when the location is missing or empty.  Status 200 carries
    no error and is given only for a reply of the service that is ok and
    parses; it passes on what the service sent and never a placeholder
    location.  Every other answer has status 503, carries an error message,
    names no provider and reports an execution time of 0. *)
Theorem route_answers
  (location aggregationUrl : option string) (fetched : result Route.FetchResponse)
  (nowIso : string) :
  match Route.GET location aggregationUrl fetched nowIso with
  | Route.ErrorOnly status _ =>
      status = 400%Z /\ Route.nonEmpty location = None
  | Route.Json status error payload cloudProviders executionTimeMs timestamp =>
      Route.nonEmpty location <> None /\
      ((status = 200%Z /\ error = None /\
        (forall place places, payload <> Route.Locations (place :: places)) /\
        exists response data,
          fetched = Ok response /\ Route.ok response = true /\
          Route.json response = Ok data /\
          Route.nonEmpty aggregationUrl <> None) \/
       (status = 503%Z /\ error <> None /\ cloudProviders = [] /\
        executionTimeMs = 0%Z /\ timestamp = nowIso))
  end.
Proof.
  unfold Route.GET.
  destruct (Route.nonEmpty location) as [l|]; [|split; reflexivity].
  destruct (Route.nonEmpty aggregationUrl) as [u|].
  - destruct fetched as [response|e].
    + destruct (Route.ok response) eqn:Hok; cbn [negb].
      * destruct (Route.json response) as [data|e] eqn:Hjson.
        -- split; [discriminate|]. left.
           split; [reflexivity|]. split; [reflexivity|]. split.
           ++ intros place places.
              destruct (Route.sj_aggregatedData data); discriminate.
           ++ exists response, data. repeat split; try assumption.
              discriminate.
        -- split; [discriminate|]. right. repeat split. discriminate.
      * split; [discriminate|]. right. repeat split. discriminate.
    + split; [discriminate|]. right. repeat split. discriminate.
  - split; [discriminate|]. right. repeat split. discriminate.
Qed.

Lemma slugChar_allowed (c : ascii) :
  let n := nat_of_ascii (Route.slugChar c) in
  ((Nat.leb 97 n && Nat.leb n 122) || (Nat.leb 48 n && Nat.leb n 57)
   || Nat.eqb n 45)%bool = true.
Proof.
  destruct c as [[] [] [] [] [] [] [] []]; reflexivity.
Qed.

Lemma slugChar_idempotent (c : ascii) :
  Route.slugChar (Route.slugChar c) = Route.slugChar c.
Proof.
  destruct c as [[] [] [] [] [] [] [] []]; reflexivity.
Qed.

(** X22.  The location id of the placeholder is made of lower-case letters,
    digits and dashes only, and making an id of an id changes nothing. *)
Theorem slug_is_clean (s : string) :
  (forall c, In c (list_ascii_of_string (Route.slug s)) ->
             let n := nat_of_ascii c in
             ((Nat.leb 97 n && Nat.leb n 122) || (Nat.leb 48 n && Nat.leb n 57)
              || Nat.eqb n 45)%bool = true) /\
  Route.slug (Route.slug s) = Route.slug s.
Proof.
  split.
  - induction s as [|a s IH]; intros c H; [destruct H|].
    cbn [Route.slug list_ascii_of_string] in H. destruct H as [<- | H].
    + apply slugChar_allowed.
    + now apply IH.
  - induction s as [|a s IH]; [reflexivity|].
    cbn [Route.slug]. now rewrite slugChar_idempotent, IH.
Qed.

End RouteExtras.
